(** * todo-mcp-server: projects, milestones and the three-level todo hierarchy

    A shallow embedding of [src/types.ts], [src/db/init.ts] (the schema the
    services run against), [src/services/projectService.ts] and
    [src/services/todoService.ts], followed by the properties of the
    specification that were checked against it.

    The relational store is modelled as three tables of records kept in
    rowid order together with the AUTOINCREMENT counters; a prepared
    statement becomes a function on tables; a service method becomes a
    computation in a state-and-exception monad over the store.  JavaScript
    numbers are IEEE-754 binary64 values ([spec_float] at precision 53).

    Modelling choices.  Foreign keys are enforced ([PRAGMA foreign_keys =
    ON] in [getDb] and [createTestDb]).  Inputs have the shape of their
    TypeScript types; ids and priorities are integers.  The text of error
    messages and the [tool_actions] log are left out.  Rows that tie under
    an ORDER BY keep their table order.  The recursion limit of cascading
    deletes in the engine is not modelled.

    Of the tool layer two pure pieces are embedded as well: the argument
    [todo_breakdown] builds for [createMany] ([dist/tools/todoTools.js]) and
    [makeProgressBar] ([src/tools/projectTools.ts]). *)

From Stdlib Require Import ZArith String List Bool Lia SpecFloat Sorted Permutation.

Import ListNotations.

Local Open Scope string_scope.

Local Open Scope list_scope.

Local Open Scope Z_scope.

(* ================================================================== *)
(** * Data model ([src/types.ts]) *)

Definition Timestamp := string.

Inductive ProjectStatus := PS_active | PS_completed | PS_on_hold | PS_archived.

Inductive MilestoneStatus := MS_pending | MS_reached.

Inductive TodoStatus := pending | completed.

Inductive TodoLevel := task | subtask.

Definition ProjectStatus_name (st : ProjectStatus) : string :=
  match st with
  | PS_active => "active" | PS_completed => "completed"
  | PS_on_hold => "on_hold" | PS_archived => "archived"
  end.

Definition TodoStatus_name (st : TodoStatus) : string :=
  match st with pending => "pending" | completed => "completed" end.

Definition TodoLevel_name (l : TodoLevel) : string :=
  match l with task => "task" | subtask => "subtask" end.

Definition TodoStatus_eqb (a b : TodoStatus) : bool :=
  match a, b with
  | pending, pending | completed, completed => true
  | _, _ => false
  end.

Definition TodoLevel_eqb (a b : TodoLevel) : bool :=
  match a, b with
  | task, task | subtask, subtask => true
  | _, _ => false
  end.

Module Project.

Record t := mk {
  id : Z;
  name : string;
  description : option string;
  status : ProjectStatus;
  created_at : Timestamp;
  updated_at : Timestamp
}.

End Project.

Module Milestone.

Record t := mk {
  id : Z;
  project_id : Z;
  title : string;
  target_date : string;
  status : MilestoneStatus;
  created_at : Timestamp
}.

End Milestone.

Module Todo.

Record t := mk {
  id : Z;
  title : string;
  description : option string;
  status : TodoStatus;
  priority : Z;
  due_date : option string;
  project_id : option Z;
  parent_id : option Z;
  milestone_id : option Z;
  level : TodoLevel;
  created_at : Timestamp;
  updated_at : Timestamp
}.

End Todo.

(** [ProjectCreateInput], [ProjectUpdateInput], [MilestoneCreateInput],
    [TodoCreateInput], [TodoUpdateInput].  An optional key [k?: T] is an
    [option T] ([None]: the key is not supplied); a key of type
    [T | null] that is also optional is an [option (option T)]. *)

Record ProjectCreateInput := {
  pci_name : string;
  pci_description : option string
}.

Record ProjectUpdateInput := {
  pui_name : option string;
  pui_description : option (option string);
  pui_status : option ProjectStatus
}.

Record MilestoneCreateInput := {
  mci_project_id : Z;
  mci_title : string;
  mci_target_date : string
}.

Record TodoCreateInput := {
  tci_title : string;
  tci_description : option string;
  tci_priority : option Z;
  tci_due_date : option string;
  tci_project_id : option Z;
  tci_parent_id : option Z;
  tci_milestone_id : option Z
}.

Record TodoUpdateInput := {
  tui_title : option string;
  tui_description : option (option string);
  tui_status : option TodoStatus;
  tui_priority : option Z;
  tui_due_date : option (option string);
  tui_project_id : option (option Z);
  tui_parent_id : option (option Z);
  tui_milestone_id : option (option Z)
}.



(* ================================================================== *)
(** * JavaScript numbers

    [Number] is IEEE-754 binary64; [/] and [*] round to nearest, ties to
    even, exactly as [SFdiv] and [SFmul] at precision 53. *)

Module JS.

Definition prec : Z := 53.

Definition emax : Z := 1024.

Definition Number := spec_float.

(** A 64-bit SQLite integer read back as a JavaScript number. *)
Definition of_Z (z : Z) : Number := binary_normalize prec emax z 0 false.

Definition div (x y : Number) : Number := SFdiv prec emax x y.

Definition mul (x y : Number) : Number := SFmul prec emax x y.

(** [x > y]; false as soon as one side is NaN. *)
Definition gt (x y : Number) : bool := SFltb y x.

Definition le (x y : Number) : bool := SFleb x y.

(** The integer [floor (v * 2^e + 1/2)]. *)
Definition round_half_up_Z (v e : Z) : Z :=
  match e with
  | Zneg k => (2 * v + 2 ^ Zpos k) / 2 ^ (Zpos k + 1)
  | _ => v * 2 ^ e
  end.

(** [Math.round]: the integral number closest to [x], the larger one on a
    tie; NaN, the infinities and the zeros are returned as they are. *)
Definition Math_round (x : Number) : Number :=
  match x with
  | S754_finite s m e =>
      binary_normalize prec emax
        (round_half_up_Z (if s then Zneg m else Zpos m) e) 0 s
  | _ => x
  end.

(** Truthiness of an optional number ([undefined], [null] and [0] are
    falsy) and of an optional string (the empty string is falsy). *)
Definition truthy_num (x : option Z) : bool :=
  match x with
  | Some n => negb (n =? 0)
  | None => false
  end.

Definition truthy_str (x : option string) : bool :=
  match x with
  | Some s => negb (String.eqb s EmptyString)
  | None => false
  end.

End JS.

(* ================================================================== *)
(** * The store ([src/db/init.ts], [initTables])

    Rows are kept in rowid order.  [seq_*] is the [sqlite_sequence] entry
    of an [INTEGER PRIMARY KEY AUTOINCREMENT] table: the largest rowid the
    table has ever held. *)

Record Store := {
  projects : list Project.t;
  milestones : list Milestone.t;
  todos : list Todo.t;
  seq_projects : Z;
  seq_milestones : Z;
  seq_todos : Z
}.

Definition createTestDb : Store :=
  {| projects := []; milestones := []; todos := [];
     seq_projects := 0; seq_milestones := 0; seq_todos := 0 |}.

(** What a service method can throw: a [ServiceError] (its [statusCode] and
    [code]; the message text plays no role below), or the error raised by
    the engine when a statement violates a constraint of the schema. *)
Inductive Exn :=
| ServiceError (statusCode : Z) (code : string)
| SqliteConstraint (what : string).

Definition PROJECT_NOT_FOUND := ServiceError 404 "PROJECT_NOT_FOUND".

Definition MILESTONE_NOT_FOUND := ServiceError 404 "MILESTONE_NOT_FOUND".

Definition TODO_NOT_FOUND := ServiceError 404 "TODO_NOT_FOUND".

Definition MAX_DEPTH_EXCEEDED := ServiceError 400 "MAX_DEPTH_EXCEEDED".

Inductive outcome (A : Type) :=
| Return (a : A)
| Throw (e : Exn).

Arguments Return {A} a.

Arguments Throw {A} e.

(** A method: it runs on a store, leaves a store, and returns or throws.
    A thrown error does not undo what was written before it. *)
Definition M (A : Type) := Store -> Store * outcome A.

Definition ret {A} (a : A) : M A := fun s => (s, Return a).

Definition throw {A} (e : Exn) : M A := fun s => (s, Throw e).

Definition bind {A B} (c : M A) (k : A -> M B) : M B :=
  fun s => match c s with
           | (s', Return a) => k a s'
           | (s', Throw e) => (s', Throw e)
           end.

Definition read {A} (f : Store -> outcome A) : M A := fun s => (s, f s).

Notation "x <- c ;; k" := (bind c (fun x => k))
  (at level 61, c at next level, right associativity).

Notation "c ;;; k" := (bind c (fun _ => k))
  (at level 61, right associativity).

(* ------------------------------------------------------------------ *)
(** ** Statements *)

Definition opt_Z_eqb (a : option Z) (b : Z) : bool :=
  match a with Some x => x =? b | None => false end.

Definition is_null {A} (a : option A) : bool :=
  match a with Some _ => false | None => true end.

Definition mem_Z (x : Z) (l : list Z) : bool := existsb (Z.eqb x) l.

(** [SELECT * FROM t WHERE id = ?] with [.get]: the first matching row. *)
Definition select_project (i : Z) (s : Store) : option Project.t :=
  find (fun p => Project.id p =? i) (projects s).

Definition select_milestone (i : Z) (s : Store) : option Milestone.t :=
  find (fun m => Milestone.id m =? i) (milestones s).

Definition select_todo (i : Z) (s : Store) : option Todo.t :=
  find (fun t => Todo.id t =? i) (todos s).

(** The rowid AUTOINCREMENT hands out: one more than the largest rowid the
    table holds or has ever held. *)
Definition next_rowid (seq : Z) (ids : list Z) : Z :=
  fold_right Z.max seq ids + 1.

(** A foreign key column is satisfied by NULL or by the key of a row of
    the parent table ([PRAGMA foreign_keys = ON]). *)
Definition fk_ok (ref : option Z) (keys : list Z) : bool :=
  match ref with
  | Some k => mem_Z k keys
  | None => true
  end.

Definition project_ids (s : Store) := map Project.id (projects s).

Definition milestone_ids (s : Store) := map Milestone.id (milestones s).

Definition todo_ids (s : Store) := map Todo.id (todos s).

(** [CHECK (priority BETWEEN 1 AND 5)] and the three [REFERENCES] clauses of
    the [todos] table, on one row. *)
Definition todo_row_violation (s : Store) (self : Z) (r : Todo.t) : option string :=
  if negb ((1 <=? Todo.priority r) && (Todo.priority r <=? 5))
  then Some "CHECK constraint failed: priority"
  else if negb (fk_ok (Todo.project_id r) (project_ids s)
                && fk_ok (Todo.parent_id r) (self :: todo_ids s)
                && fk_ok (Todo.milestone_id r) (milestone_ids s))
  then Some "FOREIGN KEY constraint failed"
  else None.

Definition or_else {A} (supplied : option A) (old : A) : A :=
  match supplied with Some v => v | None => old end.

Definition set_todos (s : Store) (rows : list Todo.t) (seq : Z) : Store :=
  {| projects := projects s; milestones := milestones s; todos := rows;
     seq_projects := seq_projects s; seq_milestones := seq_milestones s;
     seq_todos := seq |}.

Definition set_projects (s : Store) (rows : list Project.t) (seq : Z) : Store :=
  {| projects := rows; milestones := milestones s; todos := todos s;
     seq_projects := seq; seq_milestones := seq_milestones s;
     seq_todos := seq_todos s |}.

Definition set_milestones (s : Store) (rows : list Milestone.t) (seq : Z) : Store :=
  {| projects := projects s; milestones := rows; todos := todos s;
     seq_projects := seq_projects s; seq_milestones := seq;
     seq_todos := seq_todos s |}.

(** [INSERT INTO todos (title, description, priority, due_date, project_id,
    parent_id, milestone_id, level) VALUES (...)]; [status] and the two
    timestamps take their column defaults.  Returns [lastInsertRowid]. *)
Definition insert_todo (now : Timestamp) (title : string)
    (description : option string) (priority : Z) (due_date : option string)
    (project_id parent_id milestone_id : option Z) (level : TodoLevel) : M Z :=
  fun s =>
    let rowid := next_rowid (seq_todos s) (todo_ids s) in
    let row := Todo.mk rowid title description pending priority due_date
                 project_id parent_id milestone_id level now now in
    match todo_row_violation s rowid row with
    | Some what => (s, Throw (SqliteConstraint what))
    | None => (set_todos s (todos s ++ [row]) rowid, Return rowid)
    end.

(** The row after [UPDATE todos SET k1 = ?, ..., updated_at =
    CURRENT_TIMESTAMP]: one assignment per supplied key. *)
Definition patch_todo (data : TodoUpdateInput) (now : Timestamp) (r : Todo.t) : Todo.t :=
  Todo.mk (Todo.id r)
    (or_else (tui_title data) (Todo.title r))
    (or_else (tui_description data) (Todo.description r))
    (or_else (tui_status data) (Todo.status r))
    (or_else (tui_priority data) (Todo.priority r))
    (or_else (tui_due_date data) (Todo.due_date r))
    (or_else (tui_project_id data) (Todo.project_id r))
    (or_else (tui_parent_id data) (Todo.parent_id r))
    (or_else (tui_milestone_id data) (Todo.milestone_id r))
    (Todo.level r)
    (Todo.created_at r)
    now.

(** On UPDATE the CHECK is evaluated on the new row and a foreign key is
    verified when its column is assigned. *)
Definition fk_assigned_ok (supplied : option (option Z)) (keys : list Z) : bool :=
  match supplied with
  | Some ref => fk_ok ref keys
  | None => true
  end.

Definition todo_update_violation (s : Store) (data : TodoUpdateInput)
    (r' : Todo.t) : option string :=
  if negb ((1 <=? Todo.priority r') && (Todo.priority r' <=? 5))
  then Some "CHECK constraint failed: priority"
  else if negb (fk_assigned_ok (tui_project_id data) (project_ids s)
                && fk_assigned_ok (tui_parent_id data) (todo_ids s)
                && fk_assigned_ok (tui_milestone_id data) (milestone_ids s))
  then Some "FOREIGN KEY constraint failed"
  else None.

Definition update_todo_row (i : Z) (data : TodoUpdateInput) (now : Timestamp)
    (r : Todo.t) : Todo.t :=
  if Todo.id r =? i then patch_todo data now r else r.

Definition first_violation (s : Store) (data : TodoUpdateInput)
    (now : Timestamp) (rows : list Todo.t) : option string :=
  fold_right
    (fun r later =>
       match todo_update_violation s data (patch_todo data now r) with
       | Some what => Some what
       | None => later
       end)
    None rows.

(** [UPDATE todos SET ... WHERE id = ?]: a violation aborts the statement
    and leaves the table as it was. *)
Definition update_todos (i : Z) (data : TodoUpdateInput) (now : Timestamp) : M unit :=
  fun s =>
    match first_violation s data now (filter (fun r => Todo.id r =? i) (todos s)) with
    | Some what => (s, Throw (SqliteConstraint what))
    | None =>
        (set_todos s (map (update_todo_row i data now) (todos s)) (seq_todos s),
         Return tt)
    end.

(** [parent_id ... REFERENCES todos(id) ON DELETE CASCADE]: the rows whose
    parent is among the deleted ones go as well, and so on until no row is
    left hanging.  Each round removes at least one row, so [length rows]
    rounds are enough. *)
Fixpoint cascade (rounds : nat) (deleted : list Z) (rows : list Todo.t) : list Todo.t :=
  match rounds with
  | O => rows
  | S n =>
      let orphan r := match Todo.parent_id r with
                      | Some k => mem_Z k deleted
                      | None => false
                      end in
      match partition orphan rows with
      | ([], _) => rows
      | (gone, rest) => cascade n (map Todo.id gone ++ deleted) rest
      end
  end.

(** [DELETE FROM todos WHERE id = ?]. *)
Definition delete_todos (i : Z) : M unit :=
  fun s =>
    let rest := filter (fun r => negb (Todo.id r =? i)) (todos s) in
    (set_todos s (cascade (length rest) [i] rest) (seq_todos s), Return tt).

(** [project_id ... ON DELETE SET NULL] and [milestone_id ... ON DELETE SET
    NULL] on one row of [todos]. *)
Definition detach (gone_projects gone_milestones : list Z) (r : Todo.t) : Todo.t :=
  Todo.mk (Todo.id r) (Todo.title r) (Todo.description r) (Todo.status r)
    (Todo.priority r) (Todo.due_date r)
    (match Todo.project_id r with
     | Some k => if mem_Z k gone_projects then None else Some k
     | None => None
     end)
    (Todo.parent_id r)
    (match Todo.milestone_id r with
     | Some k => if mem_Z k gone_milestones then None else Some k
     | None => None
     end)
    (Todo.level r) (Todo.created_at r) (Todo.updated_at r).

(** [INSERT INTO projects (name, description) VALUES (?, ?)]. *)
Definition insert_project (now : Timestamp) (name : string)
    (description : option string) : M Z :=
  fun s =>
    let rowid := next_rowid (seq_projects s) (project_ids s) in
    let row := Project.mk rowid name description PS_active now now in
    (set_projects s (projects s ++ [row]) rowid, Return rowid).

Definition patch_project (data : ProjectUpdateInput) (now : Timestamp)
    (p : Project.t) : Project.t :=
  Project.mk (Project.id p)
    (or_else (pui_name data) (Project.name p))
    (or_else (pui_description data) (Project.description p))
    (or_else (pui_status data) (Project.status p))
    (Project.created_at p)
    now.

Definition update_project_row (i : Z) (data : ProjectUpdateInput)
    (now : Timestamp) (p : Project.t) : Project.t :=
  if Project.id p =? i then patch_project data now p else p.

(** [UPDATE projects SET ..., updated_at = CURRENT_TIMESTAMP WHERE id = ?].
    The three assignable columns cannot violate the schema: [name] is a
    string (NOT NULL), [status] is one of the four values of the CHECK. *)
Definition update_projects (i : Z) (data : ProjectUpdateInput) (now : Timestamp) : M unit :=
  fun s =>
    (set_projects s (map (update_project_row i data now) (projects s)) (seq_projects s),
     Return tt).

(** [DELETE FROM projects WHERE id = ?]: the milestones of the project are
    deleted (CASCADE); todos pointing at the project or at one of those
    milestones are detached (SET NULL). *)
Definition delete_projects (i : Z) : M unit :=
  fun s =>
    let gone_ms := map Milestone.id
                     (filter (fun m => Milestone.project_id m =? i) (milestones s)) in
    ({| projects := filter (fun p => negb (Project.id p =? i)) (projects s);
        milestones := filter (fun m => negb (Milestone.project_id m =? i)) (milestones s);
        todos := map (detach [i] gone_ms) (todos s);
        seq_projects := seq_projects s;
        seq_milestones := seq_milestones s;
        seq_todos := seq_todos s |}, Return tt).

(** [INSERT INTO milestones (project_id, title, target_date) VALUES (?, ?, ?)]. *)
Definition insert_milestone (project_id : Z) (title target_date : string)
    (now : Timestamp) : M Z :=
  fun s =>
    if mem_Z project_id (project_ids s) then
      let rowid := next_rowid (seq_milestones s) (milestone_ids s) in
      let row := Milestone.mk rowid project_id title target_date MS_pending now in
      (set_milestones s (milestones s ++ [row]) rowid, Return rowid)
    else (s, Throw (SqliteConstraint "FOREIGN KEY constraint failed")).

Definition set_milestone_status (st : MilestoneStatus) (m : Milestone.t) : Milestone.t :=
  Milestone.mk (Milestone.id m) (Milestone.project_id m) (Milestone.title m)
    (Milestone.target_date m) st (Milestone.created_at m).

(** [UPDATE milestones SET status = ? WHERE id = ?]. *)
Definition update_milestone_status (st : MilestoneStatus) (i : Z) : M unit :=
  fun s =>
    (set_milestones s
       (map (fun m => if Milestone.id m =? i then set_milestone_status st m else m)
            (milestones s))
       (seq_milestones s),
     Return tt).

(** [DELETE FROM milestones WHERE id = ?]. *)
Definition delete_milestones (i : Z) : M unit :=
  fun s =>
    ({| projects := projects s;
        milestones := filter (fun m => negb (Milestone.id m =? i)) (milestones s);
        todos := map (detach [] [i]) (todos s);
        seq_projects := seq_projects s;
        seq_milestones := seq_milestones s;
        seq_todos := seq_todos s |}, Return tt).

(** [ORDER BY]: a stable insertion sort on the rows in table order.  NULL
    sorts before every value in ascending order; text compares bytewise. *)
Section OrderBy.

Context {A : Type} (le : A -> A -> bool).

Fixpoint insert_row (x : A) (l : list A) : list A :=
  match l with
  | [] => [x]
  | y :: l' => if le x y then x :: l else y :: insert_row x l'
  end.

Definition order_by (l : list A) : list A := fold_right insert_row [] l.

End OrderBy.

Definition text_le (a b : option string) : bool :=
  match a, b with
  | None, _ => true
  | Some _, None => false
  | Some x, Some y => String.leb x y
  end.

(** [ORDER BY priority ASC, due_date ASC]. *)
Definition by_priority_due (a b : Todo.t) : bool :=
  (Todo.priority a <? Todo.priority b)
  || ((Todo.priority a =? Todo.priority b)
      && text_le (Todo.due_date a) (Todo.due_date b)).

(** [SELECT COUNT( * ) as cnt FROM todos WHERE ...] as [getAsObject] hands
    it to JavaScript, after [Number(total?.cnt || 0)], which leaves a number
    as it is. *)
Definition count_where (f : Todo.t -> bool) (s : Store) : JS.Number :=
  JS.of_Z (Z.of_nat (length (filter f (todos s)))).

(* ================================================================== *)
(** * [ProjectService] ([src/services/projectService.ts])

    A method that writes takes the reading of [CURRENT_TIMESTAMP] its
    statements see as the argument [now]. *)

Record WithProgress (A : Type) := {
  record : A;
  total_tasks : JS.Number;
  completed_tasks : JS.Number;
  progress_percent : JS.Number
}.

Arguments record {A} _.

Arguments total_tasks {A} _.

Arguments completed_tasks {A} _.

Arguments progress_percent {A} _.

Definition ProjectWithProgress := WithProgress Project.t.

Definition MilestoneWithProgress := WithProgress Milestone.t.

Module ProjectService.

(** [totalCount > 0 ? Math.round((completedCount / totalCount) * 100) : 0] *)
Definition percent (completedCount totalCount : JS.Number) : JS.Number :=
  if JS.gt totalCount (JS.of_Z 0)
  then JS.Math_round (JS.mul (JS.div completedCount totalCount) (JS.of_Z 100))
  else JS.of_Z 0.

Definition attachProgress (project : Project.t) (s : Store) : ProjectWithProgress :=
  let totalCount :=
    count_where (fun t => opt_Z_eqb (Todo.project_id t) (Project.id project)) s in
  let completedCount :=
    count_where (fun t => opt_Z_eqb (Todo.project_id t) (Project.id project)
                          && TodoStatus_eqb (Todo.status t) completed) s in
  {| record := project;
     total_tasks := totalCount;
     completed_tasks := completedCount;
     progress_percent := percent completedCount totalCount |}.

Definition attachMilestoneProgress (milestone : Milestone.t) (s : Store)
    : MilestoneWithProgress :=
  let totalCount :=
    count_where (fun t => opt_Z_eqb (Todo.milestone_id t) (Milestone.id milestone)) s in
  let completedCount :=
    count_where (fun t => opt_Z_eqb (Todo.milestone_id t) (Milestone.id milestone)
                          && TodoStatus_eqb (Todo.status t) completed) s in
  {| record := milestone;
     total_tasks := totalCount;
     completed_tasks := completedCount;
     progress_percent := percent completedCount totalCount |}.

Definition getAll (status : option string) : M (list ProjectWithProgress) :=
  read (fun s =>
    let rows :=
      if JS.truthy_str status
      then filter (fun p => String.eqb (ProjectStatus_name (Project.status p))
                                       (or_else status EmptyString))
                  (projects s)
      else projects s in
    let ordered := order_by (fun a b => Project.id b <=? Project.id a) rows in
    Return (map (fun p => attachProgress p s) ordered)).

Definition getById (id : Z) : M ProjectWithProgress :=
  read (fun s =>
    match select_project id s with
    | Some project => Return (attachProgress project s)
    | None => Throw PROJECT_NOT_FOUND
    end).

Definition create (data : ProjectCreateInput) (now : Timestamp) : M ProjectWithProgress :=
  rowid <- insert_project now (pci_name data) (pci_description data) ;;
  getById rowid.

Definition update (id : Z) (data : ProjectUpdateInput) (now : Timestamp)
    : M ProjectWithProgress :=
  getById id ;;;
  update_projects id data now ;;;
  getById id.

Definition delete (id : Z) : M Z :=
  getById id ;;;
  delete_projects id ;;;
  ret id.

Definition getMilestoneById (id : Z) : M MilestoneWithProgress :=
  read (fun s =>
    match select_milestone id s with
    | Some m => Return (attachMilestoneProgress m s)
    | None => Throw MILESTONE_NOT_FOUND
    end).

Definition getMilestones (projectId : Z) : M (list MilestoneWithProgress) :=
  getById projectId ;;;
  read (fun s =>
    let rows := filter (fun m => Milestone.project_id m =? projectId) (milestones s) in
    let ordered :=
      order_by (fun a b => String.leb (Milestone.target_date a) (Milestone.target_date b))
               rows in
    Return (map (fun m => attachMilestoneProgress m s) ordered)).

Definition createMilestone (data : MilestoneCreateInput) (now : Timestamp)
    : M MilestoneWithProgress :=
  getById (mci_project_id data) ;;;
  rowid <- insert_milestone (mci_project_id data) (mci_title data)
             (mci_target_date data) now ;;
  getMilestoneById rowid.

Definition completeMilestone (id : Z) (undo : bool) : M MilestoneWithProgress :=
  getMilestoneById id ;;;
  let newStatus := if undo then MS_pending else MS_reached in
  update_milestone_status newStatus id ;;;
  getMilestoneById id.

Definition deleteMilestone (id : Z) : M Z :=
  getMilestoneById id ;;;
  delete_milestones id ;;;
  ret id.

End ProjectService.

(* ================================================================== *)
(** * [TodoService] ([src/services/todoService.ts]) *)

Record TodoListResult := {
  tlr_todos : list Todo.t;
  totalCount : Z
}.

Record TodoWithChildren := {
  twc_task : Todo.t;
  subtasks : list Todo.t
}.

(** The [options] argument of [TodoService.getAll]; [parent_id] may be
    absent, [null] or a number. *)
Record TodoFilter := {
  f_status : option string;
  f_project_id : option Z;
  f_parent_id : option (option Z);
  f_level : option string
}.

Module TodoService.

Definition getAll (options : TodoFilter) : M TodoListResult :=
  read (fun s =>
    let by_status r :=
      if JS.truthy_str (f_status options)
      then String.eqb (TodoStatus_name (Todo.status r)) (or_else (f_status options) EmptyString)
      else true in
    let by_project r :=
      match f_project_id options with
      | Some p => opt_Z_eqb (Todo.project_id r) p
      | None => true
      end in
    let by_parent r :=
      match f_parent_id options with
      | Some None => is_null (Todo.parent_id r)
      | Some (Some p) => opt_Z_eqb (Todo.parent_id r) p
      | None => true
      end in
    let by_level r :=
      if JS.truthy_str (f_level options)
      then String.eqb (TodoLevel_name (Todo.level r)) (or_else (f_level options) EmptyString)
      else true in
    let rows :=
      order_by by_priority_due
        (filter (fun r => by_status r && by_project r && by_parent r && by_level r)
                (todos s)) in
    Return {| tlr_todos := rows; totalCount := Z.of_nat (length rows) |}).

Definition getStandalone (status : option string) : M TodoListResult :=
  read (fun s =>
    let by_status r :=
      if JS.truthy_str status
      then String.eqb (TodoStatus_name (Todo.status r)) (or_else status EmptyString)
      else true in
    let rows :=
      order_by by_priority_due
        (filter (fun r => is_null (Todo.project_id r) && is_null (Todo.parent_id r)
                          && by_status r)
                (todos s)) in
    Return {| tlr_todos := rows; totalCount := Z.of_nat (length rows) |}).

Definition getProjectTree (projectId : Z) : M (list TodoWithChildren) :=
  read (fun s =>
    let tasks :=
      order_by by_priority_due
        (filter (fun r => opt_Z_eqb (Todo.project_id r) projectId
                          && is_null (Todo.parent_id r))
                (todos s)) in
    Return (map (fun task =>
                   {| twc_task := task;
                      subtasks :=
                        order_by by_priority_due
                          (filter (fun r => opt_Z_eqb (Todo.parent_id r) (Todo.id task))
                                  (todos s)) |})
                tasks)).

Definition getById (id : Z) : M Todo.t :=
  read (fun s =>
    match select_todo id s with
    | Some todo => Return todo
    | None => Throw TODO_NOT_FOUND
    end).

Definition create (data : TodoCreateInput) (now : Timestamp) : M Todo.t :=
  let title := tci_title data in
  let description := tci_description data in
  let priority := or_else (tci_priority data) 3 in
  let due_date := tci_due_date data in
  let project_id := tci_project_id data in
  let parent_id := tci_parent_id data in
  let milestone_id := tci_milestone_id data in
  let level := if JS.truthy_num parent_id then subtask else task in
  resolvedProjectId <-
    (if JS.truthy_num parent_id then
       parent <- getById (or_else parent_id 0) ;;
       if TodoLevel_eqb (Todo.level parent) subtask
       then throw MAX_DEPTH_EXCEEDED
       else ret (Todo.project_id parent)
     else ret project_id) ;;
  rowid <- insert_todo now title description priority due_date
             resolvedProjectId parent_id milestone_id level ;;
  getById rowid.

(** [items.map((item) => this.create(item))]; [clock k] is the time the
    [k]-th insertion sees. *)
Fixpoint createMany (items : list TodoCreateInput) (clock : nat -> Timestamp)
    : M (list Todo.t) :=
  match items with
  | [] => ret []
  | item :: rest =>
      todo <- create item (clock O) ;;
      more <- createMany rest (fun k => clock (S k)) ;;
      ret (todo :: more)
  end.

Definition update (id : Z) (data : TodoUpdateInput) (now : Timestamp) : M Todo.t :=
  getById id ;;;
  update_todos id data now ;;;
  getById id.

Definition delete (id : Z) : M Z :=
  getById id ;;;
  delete_todos id ;;;
  ret id.

Definition updateStatus (id : Z) (status : TodoStatus) (now : Timestamp) : M Todo.t :=
  update id
    {| tui_title := None; tui_description := None; tui_status := Some status;
       tui_priority := None; tui_due_date := None; tui_project_id := None;
       tui_parent_id := None; tui_milestone_id := None |}
    now.

End TodoService.

(* ================================================================== *)
(** * Store invariants

    What the schema guarantees of every store the services can produce:
    rowids are positive, priorities pass the CHECK, and no foreign key hangs. *)

Definition todo_refs_ok (s : Store) (t : Todo.t) : bool :=
  fk_ok (Todo.project_id t) (project_ids s)
  && fk_ok (Todo.parent_id t) (todo_ids s)
  && fk_ok (Todo.milestone_id t) (milestone_ids s).

Definition store_ok (s : Store) : bool :=
  (0 <=? seq_todos s)
  && forallb (fun t => 0 <? Todo.id t) (todos s)
  && forallb (fun t => (1 <=? Todo.priority t) && (Todo.priority t <=? 5)) (todos s)
  && forallb (todo_refs_ok s) (todos s)
  && forallb (fun m => mem_Z (Milestone.project_id m) (project_ids s)) (milestones s).

(** The hierarchy rule of [src/types.ts] ("parent_id: null: task, set:
    subtask") on one row and on a table. *)
Definition level_matches_parent (t : Todo.t) : bool :=
  match Todo.parent_id t, Todo.level t with
  | Some _, subtask => true
  | None, task => true
  | _, _ => false
  end.

Definition hierarchy_ok (s : Store) : bool :=
  forallb level_matches_parent (todos s).

(** [store_ok] on one row, as a proposition. *)
Definition row_ok (s : Store) (t : Todo.t) : Prop :=
  0 < Todo.id t /\ 1 <= Todo.priority t <= 5 /\ todo_refs_ok s t = true.

(* ================================================================== *)
(** * Vocabulary of the statements

    Predicates and small functions the theorems are stated with. *)

(** [create] under a parent that is a task: the row it inserts. *)
Definition subtask_row (s : Store) (data : TodoCreateInput) (now : Timestamp)
    (pid : Z) (parent : Todo.t) : Todo.t :=
  Todo.mk (next_rowid (seq_todos s) (todo_ids s)) (tci_title data)
    (tci_description data) pending (or_else (tci_priority data) 3)
    (tci_due_date data) (Todo.project_id parent) (Some pid)
    (tci_milestone_id data) subtask now now.


(** The test [cascade] applies to a row: its parent is among the deleted. *)
Definition orphan_of (deleted : list Z) (r : Todo.t) : bool :=
  match Todo.parent_id r with
  | Some k => mem_Z k deleted
  | None => false
  end.



(** The calls a client can make on [TodoService], and the store a sequence
    of calls leaves (a call that throws leaves what it had written). *)
Inductive TodoCall :=
| Create (data : TodoCreateInput) (now : Timestamp)
| CreateMany (items : list TodoCreateInput) (clock : nat -> Timestamp)
| Update (id : Z) (data : TodoUpdateInput) (now : Timestamp)
| UpdateStatus (id : Z) (status : TodoStatus) (now : Timestamp)
| Delete (id : Z).

Definition call (c : TodoCall) (s : Store) : Store :=
  match c with
  | Create data now => fst (TodoService.create data now s)
  | CreateMany items clock => fst (TodoService.createMany items clock s)
  | Update id data now => fst (TodoService.update id data now s)
  | UpdateStatus id status now => fst (TodoService.updateStatus id status now s)
  | Delete id => fst (TodoService.delete id s)
  end.

Definition run (calls : list TodoCall) (s : Store) : Store :=
  fold_left (fun s c => call c s) calls s.

(** The [shr_record] of a value known exactly. *)
Definition clean (x : shr_record) : Prop := shr_r x = false /\ shr_s x = false.

(** [y] is [x] shifted right by [k] bits: the mantissa is divided by
    [2^k], and [y] is exact when [x] was and only zeros were shifted out. *)
Definition shifted (k : Z) (x y : shr_record) : Prop :=
  0 <= shr_m y
  /\ shr_m y = shr_m x / 2 ^ k
  /\ (clean x -> shr_m x mod 2 ^ k = 0 -> clean y).

(** A number that is zero or positive and finite, of value at most
    [M * 2^E]. *)
Definition at_most (M E : Z) (x : spec_float) : Prop :=
  match x with
  | S754_zero false => True
  | S754_finite false m e => e <= E /\ Zpos m <= M * 2 ^ (E - e)
  | _ => False
  end.

(** The integers 0, 1, ..., 100. *)
Definition percent_values : list Z := map Z.of_nat (seq 0 101).

(** [0 <= completed_tasks <= total_tasks] and [0 <= progress_percent <= 100],
    as comparisons of JavaScript numbers. *)
Definition progress_in_range {A} (r : WithProgress A) : Prop :=
  JS.le (JS.of_Z 0) (completed_tasks r) = true
  /\ JS.le (completed_tasks r) (total_tasks r) = true
  /\ JS.le (JS.of_Z 0) (progress_percent r) = true
  /\ JS.le (progress_percent r) (JS.of_Z 100) = true.

(** [completed / total * 100] rounded to the nearest integer, halves up, in
    exact arithmetic: [floor ((200 * completed + total) / (2 * total))]. *)
Definition round_half_up_percent (completed total : Z) : Z :=
  (200 * completed + total) / (2 * total).

(** The call is an [update] whose input carries the key [parent_id]. *)
Definition assigns_parent (c : TodoCall) : bool :=
  match c with
  | Update _ data _ => negb (is_null (tui_parent_id data))
  | _ => false
  end.

(* ================================================================== *)
(** * Scenarios

    Concrete inputs and the stores the services build from them; the
    witnesses and counterexamples below are evaluated on these. *)

(** A create input with a title only, and one with a title and a parent. *)
Definition plain_input (title : string) : TodoCreateInput :=
  {| tci_title := title; tci_description := None; tci_priority := None;
     tci_due_date := None; tci_project_id := None; tci_parent_id := None;
     tci_milestone_id := None |}.

Definition child_input (title : string) (parent : Z) : TodoCreateInput :=
  {| tci_title := title; tci_description := None; tci_priority := None;
     tci_due_date := None; tci_project_id := None; tci_parent_id := Some parent;
     tci_milestone_id := None |}.

(** One top-level todo in an empty store; then a subtask under it. *)
Definition store_one_task : Store :=
  fst (TodoService.create (plain_input "T") "2026-03-01 09:00:00" createTestDb).

Definition store_task_subtask : Store :=
  fst (TodoService.create (child_input "S" 1) "2026-03-01 09:01:00" store_one_task).

(** A subtask of todo 1 whose input names project 7. *)
Definition C2_data : TodoCreateInput :=
  {| tci_title := "wireframe"; tci_description := None; tci_priority := None;
     tci_due_date := None; tci_project_id := Some 7; tci_parent_id := Some 1;
     tci_milestone_id := None |}.

(** A project with one milestone and two todos linked to it. *)
Definition store_with_milestone : Store :=
  fst ((ProjectService.create {| pci_name := "P"; pci_description := None |}
          "2026-03-01 08:00:00" ;;;
        ProjectService.createMilestone
          {| mci_project_id := 1; mci_title := "M1"; mci_target_date := "2026-03-01" |}
          "2026-03-01 08:01:00" ;;;
        TodoService.create
          {| tci_title := "1"; tci_description := None; tci_priority := None;
             tci_due_date := None; tci_project_id := Some 1; tci_parent_id := None;
             tci_milestone_id := Some 1 |} "2026-03-01 08:02:00" ;;;
        TodoService.create
          {| tci_title := "2"; tci_description := None; tci_priority := None;
             tci_due_date := None; tci_project_id := Some 1; tci_parent_id := None;
             tci_milestone_id := Some 1 |} "2026-03-01 08:03:00")
         createTestDb).



(** A project, a task under it and two subtasks of the task, one completed
    (the end-to-end scenario of the specification). *)
Definition store_scenario : Store :=
  fst ((ProjectService.create {| pci_name := "P"; pci_description := None |}
          "2026-03-01 08:00:00" ;;;
        TodoService.create
          {| tci_title := "T"; tci_description := None; tci_priority := None;
             tci_due_date := None; tci_project_id := Some 1; tci_parent_id := None;
             tci_milestone_id := None |} "2026-03-01 08:01:00" ;;;
        TodoService.create (child_input "S1" 1) "2026-03-01 08:02:00" ;;;
        TodoService.create (child_input "S2" 1) "2026-03-01 08:03:00" ;;;
        TodoService.updateStatus 2 completed "2026-03-01 08:04:00")
         createTestDb).


Definition C6_clock (k : nat) : Timestamp :=
  match k with
  | O => "2026-03-02 10:00:00"
  | S O => "2026-03-02 10:00:01"
  | _ => "2026-03-02 10:00:02"
  end.

Definition reparent (parent : option Z) : TodoUpdateInput :=
  {| tui_title := None; tui_description := None; tui_status := None;
     tui_priority := None; tui_due_date := None; tui_project_id := None;
     tui_parent_id := Some parent; tui_milestone_id := None |}.

(** Two tasks, then the second is given the first as parent. *)
Definition C5_calls : list TodoCall :=
  [ Create (plain_input "a") "2026-03-01 09:00:00";
    Create (plain_input "b") "2026-03-01 09:01:00";
    Update 2 (reparent (Some 1)) "2026-03-01 09:02:00" ].

(** [updateStatus id 'completed'] on each id in turn. *)
Fixpoint complete_all (ids : list Z) (now : Timestamp) : M unit :=
  match ids with
  | [] => ret tt
  | i :: rest => TodoService.updateStatus i completed now ;;; complete_all rest now
  end.

Definition linked_input : TodoCreateInput :=
  {| tci_title := "todo"; tci_description := None; tci_priority := None;
     tci_due_date := None; tci_project_id := Some 1; tci_parent_id := None;
     tci_milestone_id := Some 1 |}.

(** Project 1 with milestone 1 and [total] todos linked to both, the first
    [done] of them completed. *)
Definition store_progress (done total : nat) : Store :=
  fst ((ProjectService.create {| pci_name := "P"; pci_description := None |}
          "2026-03-01 08:00:00" ;;;
        ProjectService.createMilestone
          {| mci_project_id := 1; mci_title := "M1"; mci_target_date := "2026-03-01" |}
          "2026-03-01 08:01:00" ;;;
        TodoService.createMany (repeat linked_input total)
          (fun _ => "2026-03-01 08:02:00") ;;;
        complete_all (map Z.of_nat (seq 1 done)) "2026-03-01 08:03:00")
         createTestDb).

(** The calls of [__tests__/unit/services.test.ts], and the outcome of a
    run that starts from [createTestDb]. *)
Definition new_project (name : string) : M ProjectWithProgress :=
  ProjectService.create {| pci_name := name; pci_description := None |}
    "2026-03-01 08:00:00".

Definition new_todo (title : string) (project parent milestone : option Z) : M Todo.t :=
  TodoService.create
    {| tci_title := title; tci_description := None; tci_priority := None;
       tci_due_date := None; tci_project_id := project; tci_parent_id := parent;
       tci_milestone_id := milestone |}
    "2026-03-01 08:01:00".

Definition no_filter : TodoFilter :=
  {| f_status := None; f_project_id := None; f_parent_id := None; f_level := None |}.

Definition result {A} (c : M A) : outcome A := snd (c createTestDb).

(* ================================================================== *)
(** * Calls on both services

    The writing methods of [ProjectService] as calls, beside those of
    [TodoService], and what a call may do to the tables of the other
    service. *)

(** The calls that write through [ProjectService]. *)
Inductive ProjectCall :=
| CreateProject (data : ProjectCreateInput) (now : Timestamp)
| UpdateProject (id : Z) (data : ProjectUpdateInput) (now : Timestamp)
| DeleteProject (id : Z)
| CreateMilestone (data : MilestoneCreateInput) (now : Timestamp)
| CompleteMilestone (id : Z) (undo : bool)
| DeleteMilestone (id : Z).

Definition project_call (c : ProjectCall) (s : Store) : Store :=
  match c with
  | CreateProject data now => fst (ProjectService.create data now s)
  | UpdateProject id data now => fst (ProjectService.update id data now s)
  | DeleteProject id => fst (ProjectService.delete id s)
  | CreateMilestone data now => fst (ProjectService.createMilestone data now s)
  | CompleteMilestone id undo => fst (ProjectService.completeMilestone id undo s)
  | DeleteMilestone id => fst (ProjectService.deleteMilestone id s)
  end.

(** A call on either service, and the store a sequence of such calls
    leaves. *)
Inductive ServiceCall :=
| OnTodos (c : TodoCall)
| OnProjects (c : ProjectCall).

Definition service_call (c : ServiceCall) (s : Store) : Store :=
  match c with
  | OnTodos c => call c s
  | OnProjects c => project_call c s
  end.

Definition run_calls (calls : list ServiceCall) (s : Store) : Store :=
  fold_left (fun s c => service_call c s) calls s.

(** A todo of the store after a [ProjectService] call, against the same
    todo before: nothing changed but, possibly, a link that was cut. *)
Definition only_detached (before after : Todo.t) : Prop :=
  Todo.id after = Todo.id before
  /\ Todo.title after = Todo.title before
  /\ Todo.description after = Todo.description before
  /\ Todo.status after = Todo.status before
  /\ Todo.priority after = Todo.priority before
  /\ Todo.due_date after = Todo.due_date before
  /\ Todo.parent_id after = Todo.parent_id before
  /\ Todo.level after = Todo.level before
  /\ Todo.created_at after = Todo.created_at before
  /\ Todo.updated_at after = Todo.updated_at before
  /\ (Todo.project_id after = Todo.project_id before \/ Todo.project_id after = None)
  /\ (Todo.milestone_id after = Todo.milestone_id before
      \/ Todo.milestone_id after = None).

(** The store [s'] has the projects and milestones of [s]. *)
Definition same_projects_and_milestones (s s' : Store) : Prop :=
  projects s' = projects s /\ milestones s' = milestones s
  /\ seq_projects s' = seq_projects s /\ seq_milestones s' = seq_milestones s.

(* ================================================================== *)
(** * Further store invariants

    Primary keys, and the shape of the hierarchy. *)

(** [INTEGER PRIMARY KEY AUTOINCREMENT] on a table: no two rows share a
    rowid, and the [sqlite_sequence] entry is at least every rowid of the
    table. *)
Fixpoint distinct (l : list Z) : bool :=
  match l with
  | [] => true
  | x :: l' => negb (mem_Z x l') && distinct l'
  end.

Definition keys_in (seq : Z) (ids : list Z) : bool :=
  distinct ids && forallb (fun i => i <=? seq) ids.

Definition keys_ok (s : Store) : bool :=
  keys_in (seq_projects s) (project_ids s)
  && keys_in (seq_milestones s) (milestone_ids s)
  && keys_in (seq_todos s) (todo_ids s).

(** The family rule: a todo with a parent hangs under a stored todo that
    has no parent itself, and is in the project of that parent. *)
Definition opt_Z_same (a b : option Z) : bool :=
  match a, b with
  | Some x, Some y => x =? y
  | None, None => true
  | _, _ => false
  end.

Definition under_task (s : Store) (t : Todo.t) : bool :=
  match Todo.parent_id t with
  | None => true
  | Some k =>
      match select_todo k s with
      | Some p => is_null (Todo.parent_id p)
                  && opt_Z_same (Todo.project_id p) (Todo.project_id t)
      | None => false
      end
  end.

Definition family_ok (s : Store) : bool := forallb (under_task s) (todos s).

(** The schema, unique ids, the level rule and the family rule together. *)
Definition well_formed (s : Store) : bool :=
  store_ok s && keys_ok s && hierarchy_ok s && family_ok s.

(** The call is an [update] of a todo that assigns [parent_id] or
    [project_id]. *)
Definition moves_todo (c : ServiceCall) : bool :=
  match c with
  | OnTodos (Update _ data _) =>
      negb (is_null (tui_parent_id data)) || negb (is_null (tui_project_id data))
  | _ => false
  end.



(* ================================================================== *)
(** * Inputs the schema accepts, filters, ordering *)





(** A todo counts 1 among the completed, 0 otherwise. *)
Definition done_score (st : TodoStatus) : Z :=
  if TodoStatus_eqb st completed then 1 else 0.

(** The input [updateStatus] hands to [update]: [{ status }]. *)
Definition status_only (st : TodoStatus) : TodoUpdateInput :=
  {| tui_title := None; tui_description := None; tui_status := Some st;
     tui_priority := None; tui_due_date := None; tui_project_id := None;
     tui_parent_id := None; tui_milestone_id := None |}.

(* ================================================================== *)
(** * The argument of [todo_breakdown] ([dist/tools/todoTools.js]) *)

(** One entry of the [subtasks] argument of the tool [todo_breakdown], as
    its input schema delivers it ([priority] has the default 3 there). *)
Record SubtaskItem := {
  st_title : string;
  st_priority : Z;
  st_due_date : option string
}.

(** The argument [todo_breakdown] builds for [createMany]:
    [subtasks.map((st) => ({ title: st.title, priority: st.priority,
    due_date: st.due_date, parent_id, project_id: parent.project_id ??
    undefined }))]. *)
Definition breakdown_items (parent_id : Z) (parent : Todo.t)
    (subtasks : list SubtaskItem) : list TodoCreateInput :=
  map (fun st =>
         {| tci_title := st_title st; tci_description := None;
            tci_priority := Some (st_priority st); tci_due_date := st_due_date st;
            tci_project_id := Todo.project_id parent;
            tci_parent_id := Some parent_id; tci_milestone_id := None |})
      subtasks.

(** The todo [todo_breakdown] is to create under todo [parent_id] for one
    entry of its [subtasks] argument. *)
Definition subtask_for (parent_id : Z) (parent : Todo.t) (st : SubtaskItem)
    (t : Todo.t) : Prop :=
  Todo.title t = st_title st
  /\ Todo.description t = None
  /\ Todo.status t = pending
  /\ Todo.priority t = st_priority st
  /\ Todo.due_date t = st_due_date st
  /\ Todo.project_id t = Todo.project_id parent
  /\ Todo.parent_id t = Some parent_id
  /\ Todo.milestone_id t = None
  /\ Todo.level t = subtask.

(* ================================================================== *)
(** * The progress bar ([src/tools/projectTools.ts], [makeProgressBar])

    [String.prototype.repeat] converts its count with
    [ToIntegerOrInfinity] (NaN and the zeros give 0, a fraction is cut
    off) and throws a RangeError on a negative or infinite count, and on a
    result longer than the longest string of the engine. *)

Module JSString.

Definition sub (x y : JS.Number) : JS.Number := SFsub JS.prec JS.emax x y.

Inductive IntegerOrInfinity :=
| Int (n : Z)
| PosInfinity
| NegInfinity.

Definition ToIntegerOrInfinity (x : JS.Number) : IntegerOrInfinity :=
  match x with
  | S754_nan => Int 0
  | S754_zero _ => Int 0
  | S754_infinity false => PosInfinity
  | S754_infinity true => NegInfinity
  | S754_finite s m e =>
      let magnitude := Z.shiftl (Zpos m) e in
      Int (if s then - magnitude else magnitude)
  end.

(** V8's [String::kMaxLength] on a 64-bit build
    ([buffer.constants.MAX_STRING_LENGTH] of Node.js). *)
Definition MAX_STRING_LENGTH : Z := 536870888.

Fixpoint replicate (n : nat) (str : string) : string :=
  match n with
  | O => EmptyString
  | S k => String.append str (replicate k str)
  end.

(** [str.repeat(count)]; [None] is the RangeError. *)
Definition repeat (str : string) (count : JS.Number) : option string :=
  match ToIntegerOrInfinity count with
  | Int n =>
      if n <? 0 then None
      else if MAX_STRING_LENGTH <? Z.of_nat (String.length str) * n then None
      else Some (replicate (Z.to_nat n) str)
  | PosInfinity | NegInfinity => None
  end.

End JSString.

(** [makeProgressBar(percent)]:
    [filled = Math.round(percent / 10); empty = 10 - filled;
     return `[${'#'.repeat(filled)}${'-'.repeat(empty)}]`]. *)
Definition makeProgressBar (percent : JS.Number) : option string :=
  let filled := JS.Math_round (JS.div percent (JS.of_Z 10)) in
  let empty := JSString.sub (JS.of_Z 10) filled in
  match JSString.repeat "#" filled with
  | Some hashes =>
      match JSString.repeat "-" empty with
      | Some dashes => Some (String.append "[" (String.append hashes (String.append dashes "]")))
      | None => None
      end
  | None => None
  end.

(** The bar of ten cells with [filled] of them filled. *)
Definition bar_of (filled : Z) : string :=
  String.append "["
    (String.append (JSString.replicate (Z.to_nat filled) "#")
       (String.append (JSString.replicate (Z.to_nat (10 - filled)) "-") "]")).

(** [makeProgressBar] on the percentage [z] returns the bar with
    [round (z / 10)] cells filled, and the bar has twelve characters. *)
Definition bar_checked (z : Z) : bool :=
  match makeProgressBar (JS.of_Z z) with
  | Some bar => String.eqb bar (bar_of ((z + 5) / 10)) && (String.length bar =? 12)%nat
  | None => false
  end.

(* ================================================================== *)
(** * The unit tests of the repository, on the model

    Each scenario of [services.test.ts] evaluates in the embedding to what
    the test expects. *)

Lemma test_project_create :
  exists p, result (new_project "A") = Return p
    /\ Project.id (record p) = 1 /\ Project.status (record p) = PS_active
    /\ progress_percent p = JS.of_Z 0.
Proof. eexists. split; [reflexivity|]. repeat split. Qed.

Lemma test_project_progress :
  exists p,
    result (new_project "A" ;;;
            new_todo "1" (Some 1) None None ;;;
            new_todo "2" (Some 1) None None ;;;
            new_todo "3" (Some 1) None None ;;;
            TodoService.updateStatus 1 completed "2026-03-01 08:02:00" ;;;
            ProjectService.getById 1) = Return p
    /\ total_tasks p = JS.of_Z 3 /\ completed_tasks p = JS.of_Z 1
    /\ progress_percent p = JS.of_Z 33.
Proof. eexists. split; [reflexivity|]. repeat split. Qed.

Lemma test_subtasks_count_in_progress :
  exists p,
    result (new_project "A" ;;;
            new_todo "task" (Some 1) None None ;;;
            new_todo "sub" None (Some 1) None ;;;
            TodoService.updateStatus 2 completed "2026-03-01 08:02:00" ;;;
            ProjectService.getById 1) = Return p
    /\ total_tasks p = JS.of_Z 2 /\ completed_tasks p = JS.of_Z 1
    /\ progress_percent p = JS.of_Z 50.
Proof. eexists. split; [reflexivity|]. repeat split. Qed.

Lemma test_status_filter :
  exists a b,
    result (new_project "A" ;;;
            ProjectService.update 1
              {| pui_name := None; pui_description := None;
                 pui_status := Some PS_completed |} "2026-03-01 08:02:00" ;;;
            new_project "B" ;;;
            ProjectService.getAll (Some "active")) = Return [a]
    /\ result (new_project "A" ;;;
               ProjectService.update 1
                 {| pui_name := None; pui_description := None;
                    pui_status := Some PS_completed |} "2026-03-01 08:02:00" ;;;
               new_project "B" ;;;
               ProjectService.getAll (Some "completed")) = Return [b].
Proof. eexists. eexists. split; reflexivity. Qed.

Lemma test_milestone_progress :
  exists m,
    result (new_project "A" ;;;
            ProjectService.createMilestone
              {| mci_project_id := 1; mci_title := "M1";
                 mci_target_date := "2026-03-01" |} "2026-03-01 08:00:30" ;;;
            new_todo "1" (Some 1) None (Some 1) ;;;
            new_todo "2" (Some 1) None (Some 1) ;;;
            TodoService.updateStatus 1 completed "2026-03-01 08:02:00" ;;;
            ProjectService.getMilestones 1) = Return [m]
    /\ progress_percent m = JS.of_Z 50.
Proof. eexists. split; [reflexivity|]. reflexivity. Qed.

Lemma test_standalone :
  exists t,
    result (new_project "P" ;;;
            new_todo "alone" None None None ;;;
            new_todo "in project" (Some 1) None None ;;;
            TodoService.getStandalone None)
    = Return {| tlr_todos := [t]; totalCount := 1 |}
    /\ Todo.title t = "alone".
Proof. eexists. split; reflexivity. Qed.

Lemma test_subtask_inherits :
  exists sub,
    result (new_project "P" ;;;
            new_todo "design" (Some 1) None None ;;;
            new_todo "wireframe" None (Some 1) None) = Return sub
    /\ Todo.level sub = subtask /\ Todo.parent_id sub = Some 1
    /\ Todo.project_id sub = Some 1.
Proof. eexists. split; [reflexivity|]. repeat split. Qed.

Lemma test_max_depth :
  result (new_project "P" ;;;
          new_todo "task" (Some 1) None None ;;;
          new_todo "sub" None (Some 1) None ;;;
          new_todo "subsub" None (Some 2) None) = Throw MAX_DEPTH_EXCEEDED.
Proof. reflexivity. Qed.

Lemma test_project_tree :
  exists n1 n2,
    result (new_project "P" ;;;
            new_todo "task1" (Some 1) None None ;;;
            new_todo "task2" (Some 1) None None ;;;
            new_todo "sub1-1" None (Some 1) None ;;;
            new_todo "sub1-2" None (Some 1) None ;;;
            new_todo "sub2-1" None (Some 2) None ;;;
            TodoService.getProjectTree 1) = Return [n1; n2]
    /\ length (subtasks n1) = 2%nat /\ length (subtasks n2) = 1%nat.
Proof. eexists. eexists. split; [reflexivity|]. split; reflexivity. Qed.

Lemma test_cascade_delete :
  result (new_project "P" ;;;
          new_todo "task" (Some 1) None None ;;;
          new_todo "sub1" None (Some 1) None ;;;
          new_todo "sub2" None (Some 1) None ;;;
          TodoService.delete 1 ;;;
          TodoService.getAll
            {| f_status := None; f_project_id := Some 1; f_parent_id := None;
               f_level := None |})
  = Return {| tlr_todos := []; totalCount := 0 |}.
Proof. reflexivity. Qed.

Lemma test_createMany :
  exists a b c,
    result (new_project "P" ;;;
            new_todo "design" (Some 1) None None ;;;
            TodoService.createMany
              [child_input "wireframe" 1; child_input "draft" 1; child_input "feedback" 1]
              (fun _ => "2026-03-01 08:02:00")) = Return [a; b; c]
    /\ forallb (fun t => TodoLevel_eqb (Todo.level t) subtask
                         && opt_Z_eqb (Todo.project_id t) 1) [a; b; c] = true.
Proof. do 3 eexists. split; reflexivity. Qed.

(* ================================================================== *)
(** * Basic facts about the statements *)

Lemma mem_Z_In (x : Z) (l : list Z) : mem_Z x l = true <-> In x l.
Proof.
  unfold mem_Z. rewrite existsb_exists. split.
  - intros [y [Hy E]]. apply Z.eqb_eq in E. now subst.
  - intros H. exists x. split; [assumption | apply Z.eqb_refl].
Qed.

Lemma mem_Z_app (x : Z) (l1 l2 : list Z) :
  mem_Z x (l1 ++ l2) = mem_Z x l1 || mem_Z x l2.
Proof. unfold mem_Z. apply existsb_app. Qed.

Lemma mem_Z_incl (x : Z) (l1 l2 : list Z) :
  incl l1 l2 -> mem_Z x l1 = true -> mem_Z x l2 = true.
Proof. rewrite !mem_Z_In. auto. Qed.

Lemma fk_ok_incl (ref : option Z) (l1 l2 : list Z) :
  incl l1 l2 -> fk_ok ref l1 = true -> fk_ok ref l2 = true.
Proof. destruct ref; simpl; [apply mem_Z_incl | trivial]. Qed.

Lemma select_todo_In (i : Z) (s : Store) (t : Todo.t) :
  select_todo i s = Some t -> In t (todos s) /\ Todo.id t = i.
Proof.
  unfold select_todo. intros H. apply find_some in H.
  destruct H as [H1 H2]. apply Z.eqb_eq in H2. auto.
Qed.

Lemma select_project_In (i : Z) (s : Store) (p : Project.t) :
  select_project i s = Some p -> In p (projects s) /\ Project.id p = i.
Proof.
  unfold select_project. intros H. apply find_some in H.
  destruct H as [H1 H2]. apply Z.eqb_eq in H2. auto.
Qed.

Lemma select_milestone_In (i : Z) (s : Store) (m : Milestone.t) :
  select_milestone i s = Some m -> In m (milestones s) /\ Milestone.id m = i.
Proof.
  unfold select_milestone. intros H. apply find_some in H.
  destruct H as [H1 H2]. apply Z.eqb_eq in H2. auto.
Qed.

Lemma select_todo_absent (i : Z) (s : Store) :
  (forall t, In t (todos s) -> Todo.id t <> i) -> select_todo i s = None.
Proof.
  intros H. unfold select_todo.
  destruct (find _ _) eqn:E; [|reflexivity].
  apply find_some in E. destruct E as [E1 E2]. apply Z.eqb_eq in E2.
  now apply H in E1.
Qed.

Lemma select_project_absent (i : Z) (s : Store) :
  (forall p, In p (projects s) -> Project.id p <> i) -> select_project i s = None.
Proof.
  intros H. unfold select_project.
  destruct (find _ _) eqn:E; [|reflexivity].
  apply find_some in E. destruct E as [E1 E2]. apply Z.eqb_eq in E2.
  now apply H in E1.
Qed.

(** The rowid handed out by AUTOINCREMENT is larger than every rowid in the
    table and than the counter. *)
Lemma next_rowid_above (seq : Z) (ids : list Z) :
  seq < next_rowid seq ids /\ forall i, In i ids -> i < next_rowid seq ids.
Proof.
  unfold next_rowid. induction ids as [|a ids IH]; simpl.
  - split; [lia | contradiction].
  - destruct IH as [IH1 IH2]. split; [lia|].
    intros i [->|Hi]; [lia | specialize (IH2 i Hi); lia].
Qed.

Lemma find_app_fresh {A} (f : A -> bool) (l : list A) (x : A) :
  (forall y, In y l -> f y = false) -> f x = true -> find f (l ++ [x]) = Some x.
Proof.
  intros Hl Hx. induction l as [|a l IH]; simpl.
  - now rewrite Hx.
  - rewrite (Hl a (or_introl eq_refl)). apply IH. intros y Hy. apply Hl. now right.
Qed.

(** A successful INSERT is read back by [getById (lastInsertRowid)]. *)
Lemma select_todo_inserted (s : Store) (row : Todo.t) :
  Todo.id row = next_rowid (seq_todos s) (todo_ids s) ->
  select_todo (Todo.id row) (set_todos s (todos s ++ [row]) (Todo.id row)) = Some row.
Proof.
  intros Hid. unfold select_todo; simpl. apply find_app_fresh.
  - intros y Hy. apply Z.eqb_neq.
    destruct (next_rowid_above (seq_todos s) (todo_ids s)) as [_ H].
    specialize (H (Todo.id y) (in_map Todo.id _ _ Hy)). lia.
  - apply Z.eqb_refl.
Qed.

Lemma store_ok_todo (s : Store) (t : Todo.t) :
  store_ok s = true -> In t (todos s) ->
  0 < Todo.id t /\ todo_refs_ok s t = true.
Proof.
  unfold store_ok. rewrite !andb_true_iff, !forallb_forall.
  intros [[[[_ Hpos] _] Hrefs] _] Hin. split.
  - apply Z.ltb_lt. now apply Hpos.
  - now apply Hrefs.
Qed.

Lemma store_ok_priority (s : Store) (t : Todo.t) :
  store_ok s = true -> In t (todos s) -> 1 <= Todo.priority t <= 5.
Proof.
  unfold store_ok. rewrite !andb_true_iff, !forallb_forall.
  intros [[[[_ _] Hprio] _] _] Hin.
  specialize (Hprio t Hin). apply andb_true_iff in Hprio.
  destruct Hprio as [H1 H2]. apply Z.leb_le in H1, H2. lia.
Qed.

Lemma TodoLevel_eqb_eq (a b : TodoLevel) : TodoLevel_eqb a b = true <-> a = b.
Proof. destruct a, b; simpl; split; congruence. Qed.

Lemma truthy_num_Some (n : Z) : n <> 0 -> JS.truthy_num (Some n) = true.
Proof. intros H. simpl. apply negb_true_iff. now apply Z.eqb_neq. Qed.

Lemma create_under_task (s : Store) (data : TodoCreateInput) (now : Timestamp)
    (pid : Z) (parent : Todo.t) :
  tci_parent_id data = Some pid -> pid <> 0 ->
  select_todo pid s = Some parent -> Todo.level parent <> subtask ->
  TodoService.create data now s =
    let row := subtask_row s data now pid parent in
    match todo_row_violation s (Todo.id row) row with
    | Some what => (s, Throw (SqliteConstraint what))
    | None => (set_todos s (todos s ++ [row]) (Todo.id row), Return row)
    end.
Proof.
  intros Hp Hnz Hsel Hlvl.
  unfold TodoService.create, bind. rewrite Hp, (truthy_num_Some pid Hnz).
  unfold TodoService.getById at 1, read; simpl. rewrite Hsel.
  destruct (TodoLevel_eqb (Todo.level parent) subtask) eqn:E.
  { apply TodoLevel_eqb_eq in E. contradiction. }
  unfold ret, insert_todo, subtask_row. cbv zeta. simpl Todo.id.
  match goal with
  | |- context [todo_row_violation s ?i ?r] =>
      set (row := r) in *; destruct (todo_row_violation s i row) eqn:V
  end.
  - reflexivity.
  - unfold TodoService.getById, read.
    pose proof (select_todo_inserted s row eq_refl) as R.
    simpl in R. rewrite R. reflexivity.
Qed.

(* ================================================================== *)
(** * C2: a subtask inherits the project of its parent *)

(** C2, as amended.  In a store that satisfies the schema, a create input
    whose [parent_id] refers to an existing todo that is not a subtask,
    whose priority (3 when absent) lies in 1..5 and whose [milestone_id], if
    any, refers to an existing milestone, makes [TodoService.create] return
    a todo of level [subtask] whose [project_id] is the parent's, whatever
    [project_id] the input carries; the todo is in the store afterwards. *)
Theorem C2_create_subtask_inherits_project :
  forall (s : Store) (data : TodoCreateInput) (now : Timestamp) (pid : Z)
         (parent : Todo.t),
    store_ok s = true ->
    tci_parent_id data = Some pid ->
    select_todo pid s = Some parent ->
    Todo.level parent <> subtask ->
    1 <= or_else (tci_priority data) 3 <= 5 ->
    fk_ok (tci_milestone_id data) (milestone_ids s) = true ->
    exists s' t,
      TodoService.create data now s = (s', Return t)
      /\ Todo.level t = subtask
      /\ Todo.project_id t = Todo.project_id parent
      /\ Todo.parent_id t = Some pid
      /\ In t (todos s').
Proof.
  intros s data now pid parent Hok Hp Hsel Hlvl Hprio Hms.
  destruct (select_todo_In _ _ _ Hsel) as [Hin Hid].
  destruct (store_ok_todo s parent Hok Hin) as [Hpos Hrefs].
  assert (Hnz : pid <> 0) by lia.
  rewrite (create_under_task s data now pid parent Hp Hnz Hsel Hlvl). cbv zeta.
  assert (V : todo_row_violation s (Todo.id (subtask_row s data now pid parent))
                (subtask_row s data now pid parent) = None).
  { unfold todo_row_violation; simpl.
    replace (1 <=? or_else (tci_priority data) 3) with true
      by (symmetry; apply Z.leb_le; lia).
    replace (or_else (tci_priority data) 3 <=? 5) with true
      by (symmetry; apply Z.leb_le; lia).
    simpl. rewrite Hms.
    unfold todo_refs_ok in Hrefs. rewrite !andb_true_iff in Hrefs.
    destruct Hrefs as [[Hproj _] _]. rewrite Hproj.
    assert (M : mem_Z pid (todo_ids s) = true).
    { apply mem_Z_In. unfold todo_ids. rewrite <- Hid. now apply in_map. }
    rewrite M, orb_true_r. reflexivity. }
  rewrite V. eexists; eexists. split; [reflexivity|].
  repeat split; simpl. apply in_or_app. right. now left.
Qed.

Lemma C2_witness :
  exists s' t,
    TodoService.create C2_data "2026-03-02 10:00:00" store_one_task = (s', Return t)
    /\ Todo.level t = subtask
    /\ Todo.project_id t = None
    /\ Todo.parent_id t = Some 1
    /\ In t (todos s').
Proof.
  refine (C2_create_subtask_inherits_project store_one_task C2_data _ 1
            (Todo.mk 1 "T" None pending 3 None None None None task
                     "2026-03-01 09:00:00" "2026-03-01 09:00:00") _ _ _ _ _ _).
  - reflexivity.
  - reflexivity.
  - reflexivity.
  - discriminate.
  - simpl. lia.
  - reflexivity.
Defined.

(** The claim as written promises a returned todo for every input with a
    good parent; an input with priority 9 under the task of
    [store_one_task] is rejected by the CHECK of the [todos] table. *)
Lemma C2_counterexample :
  let data := {| tci_title := "x"; tci_description := None; tci_priority := Some 9;
                 tci_due_date := None; tci_project_id := None;
                 tci_parent_id := Some 1; tci_milestone_id := None |} in
  (exists parent, select_todo 1 store_one_task = Some parent
                  /\ Todo.level parent <> subtask)
  /\ ~ (exists s' t,
          TodoService.create data "2026-03-02 10:00:00" store_one_task = (s', Return t)).
Proof.
  split.
  - eexists. split; [reflexivity | discriminate].
  - intros [s' [t H]]. vm_compute in H. discriminate.
Qed.

(* ================================================================== *)
(** * C3: the depth limit and the missing parent *)

(** C3, as amended.  In a store that satisfies the schema, a create input
    whose [parent_id] refers to an existing todo of level [subtask] makes
    [TodoService.create] fail with MAX_DEPTH_EXCEEDED and leaves the store
    as it was; a create input whose [parent_id] is not 0 and refers to no
    todo makes it fail with TODO_NOT_FOUND and leaves the store as it was. *)
Theorem C3_create_depth_limit_and_missing_parent :
  forall (s : Store) (data : TodoCreateInput) (now : Timestamp) (pid : Z),
    tci_parent_id data = Some pid ->
    (forall parent,
        store_ok s = true ->
        select_todo pid s = Some parent -> Todo.level parent = subtask ->
        TodoService.create data now s = (s, Throw MAX_DEPTH_EXCEEDED))
    /\ (pid <> 0 ->
        select_todo pid s = None ->
        TodoService.create data now s = (s, Throw TODO_NOT_FOUND)).
Proof.
  intros s data now pid Hp. split.
  - intros parent Hok Hsel Hlvl.
    destruct (select_todo_In _ _ _ Hsel) as [Hin Hid].
    destruct (store_ok_todo s parent Hok Hin) as [Hpos _].
    unfold TodoService.create, bind. rewrite Hp, truthy_num_Some by lia.
    unfold TodoService.getById at 1, read; simpl. rewrite Hsel, Hlvl.
    reflexivity.
  - intros Hnz Hsel.
    unfold TodoService.create, bind. rewrite Hp, truthy_num_Some by assumption.
    unfold TodoService.getById at 1, read; simpl. rewrite Hsel.
    reflexivity.
Qed.

Lemma C3_witness :
  TodoService.create (child_input "deeper" 2) "2026-03-02 10:00:00" store_task_subtask
    = (store_task_subtask, Throw MAX_DEPTH_EXCEEDED)
  /\ TodoService.create (child_input "lost" 5) "2026-03-02 10:00:00" store_task_subtask
    = (store_task_subtask, Throw TODO_NOT_FOUND).
Proof.
  split.
  - refine (proj1 (C3_create_depth_limit_and_missing_parent store_task_subtask
                     (child_input "deeper" 2) _ 2 eq_refl)
                  (Todo.mk 2 "S" None pending 3 None None (Some 1) None subtask
                     "2026-03-01 09:01:00" "2026-03-01 09:01:00") _ _ _);
      reflexivity.
  - refine (proj2 (C3_create_depth_limit_and_missing_parent store_task_subtask
                     (child_input "lost" 5) _ 5 eq_refl) _ _);
      [discriminate | reflexivity].
Defined.

(** [parent_id = 0] refers to no todo, yet [create] does not answer
    TODO_NOT_FOUND: 0 is falsy, the parent is never looked up, and the
    INSERT is stopped by the foreign key. *)
Lemma C3_counterexample :
  select_todo 0 createTestDb = None
  /\ TodoService.create (child_input "x" 0) "2026-03-02 10:00:00" createTestDb
     = (createTestDb, Throw (SqliteConstraint "FOREIGN KEY constraint failed"))
  /\ TodoService.create (child_input "x" 0) "2026-03-02 10:00:00" createTestDb
     <> (createTestDb, Throw TODO_NOT_FOUND).
Proof.
  split; [reflexivity|]. split; [reflexivity|]. discriminate.
Qed.

(* ================================================================== *)
(** * C8: reading what does not exist *)

(** C8.  [ProjectService.getById] on an id that no stored project has fails
    with PROJECT_NOT_FOUND and [TodoService.getById] on an id that no
    stored todo has fails with TODO_NOT_FOUND (both 404); and whenever one
    of them does return, what it returns is a stored row with that id. *)
Theorem C8_getById_not_found :
  forall (s : Store) (i : Z),
    ((forall p, In p (projects s) -> Project.id p <> i) ->
     ProjectService.getById i s = (s, Throw (ServiceError 404 "PROJECT_NOT_FOUND")))
    /\ ((forall t, In t (todos s) -> Todo.id t <> i) ->
        TodoService.getById i s = (s, Throw (ServiceError 404 "TODO_NOT_FOUND")))
    /\ (forall s' r, ProjectService.getById i s = (s', Return r) ->
        In (record r) (projects s) /\ Project.id (record r) = i)
    /\ (forall s' t, TodoService.getById i s = (s', Return t) ->
        In t (todos s) /\ Todo.id t = i).
Proof.
  intros s i. repeat split.
  - intros H. unfold ProjectService.getById, read.
    now rewrite (select_project_absent i s H).
  - intros H. unfold TodoService.getById, read.
    now rewrite (select_todo_absent i s H).
  - unfold ProjectService.getById, read in H.
    destruct (select_project i s) eqn:E; inversion H; subst; simpl.
    now apply select_project_In in E.
  - unfold ProjectService.getById, read in H.
    destruct (select_project i s) eqn:E; inversion H; subst; simpl.
    now apply select_project_In in E.
  - unfold TodoService.getById, read in H.
    destruct (select_todo i s) eqn:E; inversion H; subst.
    now apply select_todo_In in E.
  - unfold TodoService.getById, read in H.
    destruct (select_todo i s) eqn:E; inversion H; subst.
    now apply select_todo_In in E.
Qed.

Lemma C8_witness :
  ProjectService.getById 999 store_task_subtask
    = (store_task_subtask, Throw (ServiceError 404 "PROJECT_NOT_FOUND"))
  /\ TodoService.getById 999 store_task_subtask
    = (store_task_subtask, Throw (ServiceError 404 "TODO_NOT_FOUND")).
Proof.
  destruct (C8_getById_not_found store_task_subtask 999) as [HP [HT _]].
  split.
  - apply HP. simpl. contradiction.
  - apply HT. simpl. intros t [<-|[<-|[]]]; discriminate.
Defined.

(* ================================================================== *)
(** * C9: completing a milestone *)

Lemma find_map_same_key {A} (key : A -> Z) (g : A -> A) (i : Z) (l : list A) :
  (forall x, key (g x) = key x) ->
  find (fun x => key x =? i) (map (fun x => if key x =? i then g x else x) l)
  = option_map g (find (fun x => key x =? i) l).
Proof.
  intros Hk. induction l as [|a l IH]; simpl; [reflexivity|].
  destruct (key a =? i) eqn:E.
  - rewrite Hk, E. reflexivity.
  - rewrite E. apply IH.
Qed.

Lemma map_map_idem {A} (f : A -> A) (l : list A) :
  (forall x, f (f x) = f x) -> map f (map f l) = map f l.
Proof.
  intros H. rewrite map_map. apply map_ext. assumption.
Qed.

(** C9.  On an existing milestone [completeMilestone id undo] returns the
    milestone with status [reached] ([pending] when [undo]) and nothing
    else of it changed, and a second call with the same [undo] returns the
    same record and leaves the store of the first call as it is. *)
Theorem C9_completeMilestone_idempotent :
  forall (s : Store) (i : Z) (undo : bool) (m : Milestone.t),
    select_milestone i s = Some m ->
    exists s1 r,
      ProjectService.completeMilestone i undo s = (s1, Return r)
      /\ record r = set_milestone_status (if undo then MS_pending else MS_reached) m
      /\ Milestone.status (record r) = (if undo then MS_pending else MS_reached)
      /\ select_milestone i s1 = Some (record r)
      /\ ProjectService.completeMilestone i undo s1 = (s1, Return r).
Proof.
  intros s i undo m Hsel.
  set (st := if undo then MS_pending else MS_reached).
  set (f := fun x => if Milestone.id x =? i then set_milestone_status st x else x).
  assert (Hf : forall l, find (fun x => Milestone.id x =? i) (map f l)
                 = option_map (set_milestone_status st)
                     (find (fun x => Milestone.id x =? i) l)).
  { intros l. apply (find_map_same_key Milestone.id). reflexivity. }
  assert (Hff : forall x, f (f x) = f x).
  { intros x. unfold f. destruct (Milestone.id x =? i) eqn:E; simpl.
    - rewrite E. reflexivity.
    - rewrite E. reflexivity. }
  set (s1 := set_milestones s (map f (milestones s)) (seq_milestones s)).
  assert (Hsel1 : select_milestone i s1 = Some (set_milestone_status st m)).
  { unfold select_milestone, s1; simpl. rewrite Hf.
    unfold select_milestone in Hsel. now rewrite Hsel. }
  assert (Hs1 : set_milestones s1 (map f (milestones s1)) (seq_milestones s1) = s1).
  { unfold s1, set_milestones; simpl. now rewrite (map_map_idem f _ Hff). }
  exists s1, (ProjectService.attachMilestoneProgress (set_milestone_status st m) s1).
  assert (Hrun : forall s0 m0,
             select_milestone i s0 = Some m0 ->
             ProjectService.completeMilestone i undo s0
             = ProjectService.getMilestoneById i
                 (set_milestones s0 (map f (milestones s0)) (seq_milestones s0))).
  { intros s0 m0 H0.
    unfold ProjectService.completeMilestone, bind.
    unfold ProjectService.getMilestoneById at 1, read. rewrite H0.
    reflexivity. }
  split; [|split; [|split; [|split]]].
  - rewrite (Hrun s m Hsel). fold s1.
    unfold ProjectService.getMilestoneById, read. now rewrite Hsel1.
  - reflexivity.
  - reflexivity.
  - exact Hsel1.
  - rewrite (Hrun s1 _ Hsel1), Hs1.
    unfold ProjectService.getMilestoneById, read. now rewrite Hsel1.
Qed.

Lemma C9_witness :
  exists s1 r,
    ProjectService.completeMilestone 1 false store_with_milestone = (s1, Return r)
    /\ record r = set_milestone_status MS_reached
                    (Milestone.mk 1 1 "M1" "2026-03-01" MS_pending "2026-03-01 08:01:00")
    /\ Milestone.status (record r) = MS_reached
    /\ select_milestone 1 s1 = Some (record r)
    /\ ProjectService.completeMilestone 1 false s1 = (s1, Return r).
Proof.
  apply (C9_completeMilestone_idempotent store_with_milestone 1 false
           (Milestone.mk 1 1 "M1" "2026-03-01" MS_pending "2026-03-01 08:01:00")).
  reflexivity.
Defined.

(* ================================================================== *)
(** * C7: an update touches the supplied fields and the timestamp only *)



Lemma first_violation_none (s : Store) (data : TodoUpdateInput) (now : Timestamp)
    (rows : list Todo.t) :
  (forall r, In r rows -> todo_update_violation s data (patch_todo data now r) = None) ->
  first_violation s data now rows = None.
Proof.
  induction rows as [|r rows IH]; simpl; intros H; [reflexivity|].
  rewrite (H r (or_introl eq_refl)). apply IH. intros r' Hr'. apply H. now right.
Qed.

(** No constraint stops an update whose supplied priority passes the CHECK
    and whose supplied references exist. *)
Lemma valid_update_no_violation (s : Store) (i : Z) (data : TodoUpdateInput)
    (now : Timestamp) :
  store_ok s = true ->
  (forall v, tui_priority data = Some v -> 1 <= v <= 5) ->
  fk_assigned_ok (tui_project_id data) (project_ids s) = true ->
  fk_assigned_ok (tui_parent_id data) (todo_ids s) = true ->
  fk_assigned_ok (tui_milestone_id data) (milestone_ids s) = true ->
  first_violation s data now (filter (fun r => Todo.id r =? i) (todos s)) = None.
Proof.
  intros Hok Hprio Hp Hpa Hm. apply first_violation_none.
  intros r Hr. apply filter_In in Hr. destruct Hr as [Hr _].
  pose proof (store_ok_priority s r Hok Hr) as Hold.
  unfold todo_update_violation. rewrite Hp, Hpa, Hm. simpl.
  assert (Hnew : 1 <= or_else (tui_priority data) (Todo.priority r) <= 5).
  { destruct (tui_priority data) as [v|] eqn:E; simpl; [now apply Hprio | exact Hold]. }
  replace (1 <=? or_else (tui_priority data) (Todo.priority r)) with true
    by (symmetry; apply Z.leb_le; lia).
  replace (or_else (tui_priority data) (Todo.priority r) <=? 5) with true
    by (symmetry; apply Z.leb_le; lia).
  reflexivity.
Qed.

(** What [TodoService.update] does once the todo is known to exist. *)
Lemma update_existing (s : Store) (i : Z) (data : TodoUpdateInput)
    (now : Timestamp) (t : Todo.t) :
  select_todo i s = Some t ->
  TodoService.update i data now s =
    match first_violation s data now (filter (fun r => Todo.id r =? i) (todos s)) with
    | Some what => (s, Throw (SqliteConstraint what))
    | None => (set_todos s (map (update_todo_row i data now) (todos s)) (seq_todos s),
               Return (patch_todo data now t))
    end.
Proof.
  intros Hsel. unfold TodoService.update, bind.
  unfold TodoService.getById at 1, read. rewrite Hsel.
  unfold update_todos.
  destruct (first_violation _ _ _ _); [reflexivity|].
  unfold TodoService.getById, read, select_todo; simpl.
  unfold update_todo_row.
  rewrite (find_map_same_key Todo.id (patch_todo data now) i (todos s))
    by reflexivity.
  unfold select_todo in Hsel. now rewrite Hsel.
Qed.




(* ================================================================== *)
(** * C4: deleting a task deletes its subtasks *)

Lemma cascade_step (n : nat) (deleted : list Z) (rows : list Todo.t) :
  cascade (S n) deleted rows =
    match filter (orphan_of deleted) rows with
    | [] => rows
    | gone =>
        cascade n (map Todo.id gone ++ deleted)
          (filter (fun r => negb (orphan_of deleted r)) rows)
    end.
Proof.
  simpl. fold (orphan_of deleted). rewrite partition_as_filter.
  destruct (filter (orphan_of deleted) rows); reflexivity.
Qed.

Lemma filter_nil_all_false {A} (f : A -> bool) (l : list A) :
  filter f l = [] -> forall x, In x l -> f x = false.
Proof.
  intros H x Hx. destruct (f x) eqn:E; [|reflexivity].
  assert (In x (filter f l)) by (apply filter_In; auto).
  rewrite H in *. contradiction.
Qed.

Lemma filter_split_length {A} (f : A -> bool) (l : list A) :
  (length (filter f l) + length (filter (fun x => negb (f x)) l) = length l)%nat.
Proof.
  induction l as [|a l IH]; simpl; [reflexivity|].
  destruct (f a); simpl; lia.
Qed.

(** What is left after the cascade: rows of the table, none of which has a
    deleted parent, and whose parents, if they were in the table, still
    are. *)
Lemma cascade_closed (n : nat) :
  forall (deleted : list Z) (rows : list Todo.t),
    (length rows <= n)%nat ->
    incl (cascade n deleted rows) rows
    /\ forall r k,
         In r (cascade n deleted rows) -> Todo.parent_id r = Some k ->
         ~ In k deleted
         /\ (In k (map Todo.id rows) -> In k (map Todo.id (cascade n deleted rows))).
Proof.
  induction n as [|n IH]; intros deleted rows Hlen.
  - destruct rows; [|simpl in Hlen; lia]. simpl. split.
    + apply incl_refl.
    + intros r k [].
  - rewrite cascade_step.
    destruct (filter (orphan_of deleted) rows) as [|g gone] eqn:G.
    + split; [apply incl_refl|].
      intros r k Hr Hk. split; [|trivial].
      pose proof (filter_nil_all_false _ _ G r Hr) as Hf.
      unfold orphan_of in Hf. rewrite Hk in Hf.
      intros Hin. apply mem_Z_In in Hin. congruence.
    + set (rest := filter (fun r => negb (orphan_of deleted r)) rows).
      assert (Hrest : (length rest <= n)%nat).
      { pose proof (filter_split_length (orphan_of deleted) rows) as L.
        rewrite G in L. simpl in L. fold rest in L. lia. }
      destruct (IH (map Todo.id (g :: gone) ++ deleted) rest Hrest) as [Hincl Hcl].
      split.
      * intros r Hr. apply Hincl in Hr. unfold rest in Hr.
        now apply filter_In in Hr.
      * intros r k Hr Hk. destruct (Hcl r k Hr Hk) as [Hnot Hstay]. split.
        { intros Hin. apply Hnot. apply in_or_app. now right. }
        intros Hrows. apply Hstay.
        apply in_map_iff in Hrows. destruct Hrows as [x [Hx Hxin]].
        destruct (orphan_of deleted x) eqn:Ox.
        -- exfalso. apply Hnot. apply in_or_app. left.
           rewrite <- Hx. apply in_map. rewrite <- G. apply filter_In. auto.
        -- rewrite <- Hx. apply in_map. unfold rest. apply filter_In.
           split; [assumption | now rewrite Ox].
Qed.


Lemma In_insert_row {A} (le : A -> A -> bool) (x y : A) (l : list A) :
  In y (insert_row le x l) <-> y = x \/ In y l.
Proof.
  induction l as [|a l IH]; simpl.
  - intuition.
  - destruct (le x a); simpl; [intuition|]. rewrite IH. intuition.
Qed.

(** [ORDER BY] returns the rows it was given. *)
Lemma In_order_by {A} (le : A -> A -> bool) (y : A) (l : list A) :
  In y (order_by le l) <-> In y l.
Proof.
  induction l as [|a l IH]; simpl; [reflexivity|].
  rewrite In_insert_row, IH. intuition.
Qed.

Lemma delete_existing (s : Store) (i : Z) (t : Todo.t) :
  select_todo i s = Some t ->
  TodoService.delete i s =
    (set_todos s
       (cascade (length (filter (fun r => negb (Todo.id r =? i)) (todos s))) [i]
          (filter (fun r => negb (Todo.id r =? i)) (todos s)))
       (seq_todos s),
     Return i).
Proof.
  intros Hsel. unfold TodoService.delete, bind.
  unfold TodoService.getById, read. rewrite Hsel. reflexivity.
Qed.



(* ================================================================== *)
(** * C6: batch creation *)

(** Every way [TodoService.create] can end: a throw leaves the store as it
    was; a return has appended exactly the returned row, which passed the
    constraints of the schema and whose parent and level are those the
    input determines. *)
Lemma create_result (data : TodoCreateInput) (now : Timestamp) (s : Store) :
  forall s' out,
    TodoService.create data now s = (s', out) ->
    match out with
    | Throw _ => s' = s
    | Return t =>
        s' = set_todos s (todos s ++ [t]) (Todo.id t)
        /\ Todo.id t = next_rowid (seq_todos s) (todo_ids s)
        /\ todo_row_violation s (Todo.id t) t = None
        /\ Todo.parent_id t = tci_parent_id data
        /\ Todo.level t = (if JS.truthy_num (tci_parent_id data) then subtask else task)
    end.
Proof.
  intros s' out. unfold TodoService.create, bind.
  destruct (JS.truthy_num (tci_parent_id data)) eqn:Tr.
  - unfold TodoService.getById at 1, read.
    destruct (select_todo _ s) as [parent|]; [|intros H; inversion H; reflexivity].
    destruct (TodoLevel_eqb (Todo.level parent) subtask);
      [unfold throw; intros H; inversion H; reflexivity|].
    unfold ret, insert_todo.
    match goal with
    | |- context [todo_row_violation s ?i ?r] =>
        set (row := r) in *; destruct (todo_row_violation s i row) eqn:V
    end.
    + intros H; inversion H; reflexivity.
    + unfold TodoService.getById, read.
      pose proof (select_todo_inserted s row eq_refl) as R. simpl in R. rewrite R.
      intros H; inversion H; subst. repeat split; assumption.
  - unfold ret, insert_todo.
    match goal with
    | |- context [todo_row_violation s ?i ?r] =>
        set (row := r) in *; destruct (todo_row_violation s i row) eqn:V
    end.
    + intros H; inversion H; reflexivity.
    + unfold TodoService.getById, read.
      pose proof (select_todo_inserted s row eq_refl) as R. simpl in R. rewrite R.
      intros H; inversion H; subst. repeat split; assumption.
Qed.



Lemma createMany_cons (item : TodoCreateInput) (rest : list TodoCreateInput)
    (clock : nat -> Timestamp) (s : Store) :
  TodoService.createMany (item :: rest) clock s =
    match TodoService.create item (clock O) s with
    | (s1, Return t) =>
        match TodoService.createMany rest (fun k => clock (S k)) s1 with
        | (s2, Return ts) => (s2, Return (t :: ts))
        | (s2, Throw e) => (s2, Throw e)
        end
    | (s1, Throw e) => (s1, Throw e)
    end.
Proof.
  simpl. unfold bind.
  destruct (TodoService.create item (clock O) s) as [s1 [t|e]]; [|reflexivity].
  destruct (TodoService.createMany rest _ s1) as [s2 [ts|e]]; reflexivity.
Qed.




(* ================================================================== *)
(** * C5: level and parent *)

(** C5 fails on the code.  Two tasks are created and [update] gives the
    second the first as parent: the call returns, and the store then holds
    a row with a parent whose level is still [task].  ([create] derives the
    level from the parent; [update] assigns [parent_id] and leaves [level]
    alone.) *)
Theorem C5_update_leaves_level_behind :
  TodoService.update 2 (reparent (Some 1)) "2026-03-01 09:02:00"
    (run (firstn 2 C5_calls) createTestDb)
  = (run C5_calls createTestDb,
     Return (Todo.mk 2 "b" None pending 3 None None (Some 1) None task
               "2026-03-01 09:01:00" "2026-03-01 09:02:00"))
  /\ In (Todo.mk 2 "b" None pending 3 None None (Some 1) None task
           "2026-03-01 09:01:00" "2026-03-01 09:02:00")
        (todos (run C5_calls createTestDb))
  /\ hierarchy_ok (run (firstn 2 C5_calls) createTestDb) = true
  /\ hierarchy_ok (run C5_calls createTestDb) = false.
Proof.
  split; [reflexivity|]. split; [|split; reflexivity].
  right. left. reflexivity.
Qed.

(* ================================================================== *)
(** * Binary64 arithmetic: what rounding can and cannot do

    Facts about [binary_round_aux] at precision 53, enough to bound the
    result of a division followed by a multiplication by 100. *)

Lemma shr_1_shifted (x : shr_record) : 0 <= shr_m x -> shifted 1 x (shr_1 x).
Proof.
  destruct x as [m r s]. simpl. intros Hm. unfold shifted, clean.
  change (2 ^ 1) with 2.
  destruct m as [|p|p]; [| |lia].
  - simpl. split; [lia|]. split; [reflexivity|].
    intros [-> ->] _. split; reflexivity.
  - destruct p as [p|p|]; simpl shr_m; simpl shr_r; simpl shr_s.
    + rewrite Pos2Z.inj_xI. split; [lia|]. split.
      * apply Z.div_unique with (r := 1); lia.
      * intros _ H. exfalso.
        rewrite Z.add_comm, Z.mul_comm, Z.mod_add in H by lia. discriminate H.
    + rewrite Pos2Z.inj_xO. split; [lia|]. split.
      * apply Z.div_unique with (r := 0); lia.
      * intros [-> ->] _. split; reflexivity.
    + split; [lia|]. split; [reflexivity|].
      intros _ H. discriminate H.
Qed.

Lemma mod_pow2_split (m j k : Z) :
  0 <= j -> 0 <= k -> m mod 2 ^ (j + k) = 0 ->
  m mod 2 ^ j = 0 /\ (m / 2 ^ j) mod 2 ^ k = 0.
Proof.
  intros Hj Hk H.
  assert (Pj : 0 < 2 ^ j) by (apply Z.pow_pos_nonneg; lia).
  assert (Pk : 0 < 2 ^ k) by (apply Z.pow_pos_nonneg; lia).
  rewrite Z.pow_add_r in H by assumption.
  apply Z.mod_divide in H; [|lia]. destruct H as [q Hq].
  assert (E : m = (q * 2 ^ k) * 2 ^ j) by (rewrite Hq; ring).
  split.
  - rewrite E. apply Z.mod_mul. lia.
  - rewrite E, Z.div_mul by lia. apply Z.mod_mul. lia.
Qed.

Lemma shifted_trans (j k : Z) (x y z : shr_record) :
  0 <= j -> 0 <= k ->
  shifted j x y -> shifted k y z -> shifted (j + k) x z.
Proof.
  intros Hj Hk (Hy0 & Hy & Hyc) (Hz0 & Hz & Hzc).
  assert (Pj : 0 < 2 ^ j) by (apply Z.pow_pos_nonneg; lia).
  assert (Pk : 0 < 2 ^ k) by (apply Z.pow_pos_nonneg; lia).
  split; [assumption|]. split.
  - rewrite Hz, Hy, Z.pow_add_r, Z.div_div by lia. reflexivity.
  - intros Hc Hmod. destruct (mod_pow2_split _ j k Hj Hk Hmod) as [M1 M2].
    apply Hzc; [now apply Hyc|]. now rewrite Hy.
Qed.

Lemma iter_shr_1_shifted (p : positive) :
  forall x, 0 <= shr_m x -> shifted (Zpos p) x (iter_pos shr_1 p x).
Proof.
  induction p as [p IH|p IH|]; intros x Hx; simpl iter_pos.
  - pose proof (shr_1_shifted x Hx) as H1.
    assert (H2 := IH (shr_1 x) (proj1 H1)).
    assert (H3 := IH _ (proj1 H2)).
    replace (Z.pos p~1) with (1 + (Z.pos p + Z.pos p)) by lia.
    eapply shifted_trans; [lia | lia | exact H1 |].
    eapply shifted_trans; [lia | lia | exact H2 | exact H3].
  - assert (H2 := IH x Hx).
    assert (H3 := IH _ (proj1 H2)).
    replace (Z.pos p~0) with (Z.pos p + Z.pos p) by lia.
    eapply shifted_trans; [lia | lia | exact H2 | exact H3].
  - apply shr_1_shifted. assumption.
Qed.

Lemma fexp64_eq (e : Z) : fexp 53 1024 e = Z.max (e - 53) (-1074).
Proof. reflexivity. Qed.

Lemma digits2_pos_size (p : positive) : digits2_pos p = Pos.size p.
Proof. induction p; simpl; congruence. Qed.

Lemma Zdigits2_log2 (m : Z) : 0 < m -> Zdigits2 m = Z.log2 m + 1.
Proof.
  destruct m as [|p|p]; try lia. intros _. simpl.
  rewrite digits2_pos_size. destruct p; simpl; lia.
Qed.

Lemma Zdigits2_nonneg (m : Z) : 0 <= Zdigits2 m.
Proof. destruct m; simpl; lia. Qed.

Lemma Zdigits2_le (a b : Z) : 0 <= a -> a <= b -> Zdigits2 a <= Zdigits2 b.
Proof.
  intros Ha Hab. destruct (Z.eq_dec a 0) as [->|Hnz].
  - apply Zdigits2_nonneg.
  - rewrite !Zdigits2_log2 by lia.
    pose proof (Z.log2_le_mono a b Hab). lia.
Qed.

Lemma Zdigits2_mul_pow2 (a k : Z) :
  0 < a -> 0 <= k -> Zdigits2 (a * 2 ^ k) = Zdigits2 a + k.
Proof.
  intros Ha Hk.
  assert (0 < 2 ^ k) by (apply Z.pow_pos_nonneg; lia).
  rewrite !Zdigits2_log2 by nia.
  rewrite Z.log2_mul_pow2 by lia. lia.
Qed.

Lemma loc_of_record_of_loc (m : Z) (l : location) :
  loc_of_shr_record (shr_record_of_loc m l) = l.
Proof. destruct l as [|[| |]]; reflexivity. Qed.

Lemma clean_exact (x : shr_record) : clean x <-> loc_of_shr_record x = loc_Exact.
Proof.
  destruct x as [m [|] [|]]; unfold clean; simpl; split;
    intros H; try discriminate; try (destruct H; discriminate); auto.
Qed.

(** [shr_fexp]: the mantissa is cut down to the exponent the format
    allows; cutting nothing but zeros off an exact value stays exact. *)
Lemma shr_fexp_spec (m e : Z) (l : location) :
  0 <= m ->
  forall mrs e', shr_fexp 53 1024 m e l = (mrs, e') ->
    let k := Z.max 0 (fexp 53 1024 (Zdigits2 m + e) - e) in
    e' = e + k
    /\ 0 <= shr_m mrs
    /\ shr_m mrs = m / 2 ^ k
    /\ (l = loc_Exact -> m mod 2 ^ k = 0 -> loc_of_shr_record mrs = loc_Exact).
Proof.
  intros Hm mrs e'. unfold shr_fexp, shr.
  destruct (fexp 53 1024 (Zdigits2 m + e) - e) as [|p|p] eqn:K; intros H; inversion H; subst;
    cbv zeta.
  - simpl Z.max. rewrite Z.add_0_r, Z.div_1_r.
    assert (shr_m (shr_record_of_loc m l) = m) by (destruct l as [|[| |]]; reflexivity).
    repeat split; try lia. intros -> _. reflexivity.
  - replace (Z.max 0 (Z.pos p)) with (Z.pos p) by lia.
    assert (X : shr_m (shr_record_of_loc m l) = m) by (destruct l as [|[| |]]; reflexivity).
    destruct (iter_shr_1_shifted p (shr_record_of_loc m l)) as (H0 & H1 & H2); [lia|].
    rewrite X in *. repeat split; try assumption.
    intros -> Hmod. apply clean_exact. apply H2; [|assumption].
    split; reflexivity.
  - replace (Z.max 0 (Z.neg p)) with 0 by lia. rewrite Z.add_0_r, Z.div_1_r.
    assert (shr_m (shr_record_of_loc m l) = m) by (destruct l as [|[| |]]; reflexivity).
    repeat split; try lia. intros -> _. reflexivity.
Qed.

Lemma round_nearest_even_bounds (m : Z) (l : location) :
  m <= round_nearest_even m l <= m + 1
  /\ (l = loc_Exact -> round_nearest_even m l = m).
Proof.
  destruct l as [|[| |]]; simpl; try destruct (Z.even m); split; try lia; try discriminate;
    reflexivity.
Qed.

(** Rounding to nearest never crosses a number of the format: if the exact
    value [mx * 2^ex] (plus something below one unit when the location is
    not exact) is at most [M * 2^E], so is the rounded value. *)
Lemma binary_round_aux_at_most (mx ex : Z) (lx : location) (M E : Z) :
  0 <= mx -> 0 < M -> Zdigits2 M <= 53 -> -1074 <= E <= 971 ->
  Z.max ex (fexp 53 1024 (Zdigits2 mx + ex)) <= E ->
  mx <= M * 2 ^ (E - ex) ->
  (lx <> loc_Exact -> mx < M * 2 ^ (E - ex)) ->
  at_most M E (binary_round_aux 53 1024 false mx ex lx).
Proof.
  intros Hmx HM HdM HE He1 Hle Hlt.
  unfold binary_round_aux.
  destruct (shr_fexp 53 1024 mx ex lx) as [mrs1 e1] eqn:S1.
  destruct (shr_fexp_spec mx ex lx Hmx mrs1 e1 S1) as (E1 & P1 & M1 & X1).
  set (k := Z.max 0 (fexp 53 1024 (Zdigits2 mx + ex) - ex)) in *.
  assert (Hk : 0 <= k) by lia.
  assert (He1' : e1 <= E) by lia.
  assert (P2k : 0 < 2 ^ k) by (apply Z.pow_pos_nonneg; lia).
  assert (Hpow : 2 ^ (E - ex) = 2 ^ (E - e1) * 2 ^ k).
  { rewrite <- Z.pow_add_r by lia. f_equal. lia. }
  set (B := M * 2 ^ (E - e1)).
  assert (HB : 0 < B).
  { unfold B. apply Z.mul_pos_pos; [lia | apply Z.pow_pos_nonneg; lia]. }
  assert (Hle' : mx <= B * 2 ^ k) by (unfold B; rewrite <- Z.mul_assoc, <- Hpow; exact Hle).
  set (m1 := shr_m mrs1) in *.
  assert (Hm1 : m1 <= B).
  { rewrite M1. apply Z.div_le_upper_bound; [lia|]. lia. }
  assert (Hm1s : loc_of_shr_record mrs1 <> loc_Exact -> m1 < B).
  { intros Hl. rewrite M1. apply Z.div_lt_upper_bound; [lia|].
    destruct (Z.eq_dec mx (B * 2 ^ k)) as [Eq|Ne]; [|lia].
    exfalso. destruct lx as [|c].
    - apply Hl. apply X1; [reflexivity|]. rewrite Eq. apply Z.mod_mul. lia.
    - assert (mx < M * 2 ^ (E - ex)) by (apply Hlt; discriminate).
      rewrite Hpow, Z.mul_assoc in H. fold B in H. lia. }
  set (m2 := round_nearest_even m1 (loc_of_shr_record mrs1)).
  destruct (round_nearest_even_bounds m1 (loc_of_shr_record mrs1)) as [Rb Re].
  fold m2 in Rb, Re.
  assert (Hm2 : 0 <= m2 <= B).
  { split; [lia|].
    destruct (loc_of_shr_record mrs1) eqn:L.
    - rewrite Re by reflexivity. assumption.
    - assert (m1 < B) by (apply Hm1s; discriminate). lia. }
  destruct (shr_fexp 53 1024 m2 e1 loc_Exact) as [mrs2 e2] eqn:S2.
  destruct (shr_fexp_spec m2 e1 loc_Exact (proj1 Hm2) mrs2 e2 S2) as (E2 & P2 & M2 & _).
  set (k2 := Z.max 0 (fexp 53 1024 (Zdigits2 m2 + e1) - e1)) in *.
  assert (Hd2 : Zdigits2 m2 <= Zdigits2 M + (E - e1)).
  { unfold B in Hm2. rewrite <- Zdigits2_mul_pow2 by lia.
    apply Zdigits2_le; lia. }
  assert (He2 : e2 <= E).
  { rewrite E2. unfold k2. rewrite fexp64_eq. lia. }
  assert (P2k2 : 0 < 2 ^ k2) by (apply Z.pow_pos_nonneg; lia).
  assert (Hm3 : shr_m mrs2 <= M * 2 ^ (E - e2)).
  { rewrite M2. apply Z.div_le_upper_bound; [lia|].
    replace (2 ^ k2 * (M * 2 ^ (E - e2))) with (M * (2 ^ (E - e2) * 2 ^ k2)) by ring.
    rewrite <- Z.pow_add_r by lia.
    replace (E - e2 + k2) with (E - e1) by lia. apply Hm2. }
  destruct (shr_m mrs2) as [|m3|m3] eqn:M3; simpl.
  - exact I.
  - replace (e2 <=? 971) with true by (symmetry; apply Z.leb_le; lia).
    split; assumption.
  - lia.
Qed.

Lemma Zpos_iter_xO (p q : positive) :
  Zpos (Pos.iter xO p q) = Zpos p * 2 ^ Zpos q.
Proof.
  induction q as [|q IH] using Pos.peano_ind.
  - simpl. lia.
  - rewrite Pos.iter_succ, Pos2Z.inj_xO, IH, Pos2Z.inj_succ, Z.pow_succ_r by lia.
    ring.
Qed.

(** A mantissa that already fits the format at its exponent is left alone. *)
Lemma binary_round_aux_fits (m : positive) (e : Z) :
  fexp 53 1024 (Zdigits2 (Zpos m) + e) <= e -> e <= 971 ->
  binary_round_aux 53 1024 false (Zpos m) e loc_Exact = S754_finite false m e.
Proof.
  intros Hf He. unfold binary_round_aux.
  destruct (shr_fexp 53 1024 (Zpos m) e loc_Exact) as [mrs1 e1] eqn:S1.
  destruct (shr_fexp_spec (Zpos m) e loc_Exact ltac:(lia) mrs1 e1 S1) as (E1 & _ & M1 & X1).
  replace (Z.max 0 (fexp 53 1024 (Zdigits2 (Z.pos m) + e) - e)) with 0 in * by lia.
  rewrite Z.add_0_r in E1. subst e1.
  change (2 ^ 0) with 1 in *. rewrite Z.div_1_r in M1.
  rewrite X1, M1 by (try reflexivity; apply Z.mod_1_r). simpl round_nearest_even.
  rewrite S1, M1.
  replace (e <=? 1024 - 53) with true by (symmetry; apply Z.leb_le; lia).
  reflexivity.
Qed.

(** A count below 2^53 is a JavaScript number exactly: zero, or a positive
    mantissa of 53 bits that is the count shifted left. *)
Lemma of_Z_exact (p : positive) :
  Zpos p < 2 ^ 53 ->
  exists m e,
    JS.of_Z (Zpos p) = S754_finite false m e
    /\ e = Zdigits2 (Zpos p) - 53
    /\ Zpos m = Zpos p * 2 ^ (- e)
    /\ Zdigits2 (Zpos m) = 53.
Proof.
  intros Hp.
  assert (Hd : 1 <= Zdigits2 (Zpos p) <= 53).
  { rewrite Zdigits2_log2 by lia.
    pose proof (Z.log2_nonneg (Zpos p)).
    assert (Z.log2 (Zpos p) < 53) by (apply Z.log2_lt_pow2; lia). lia. }
  unfold JS.of_Z, binary_normalize, binary_round, shl_align, JS.prec, JS.emax.
  rewrite fexp64_eq.
  change (Z.pos (digits2_pos p)) with (Zdigits2 (Zpos p)).
  set (d := Zdigits2 (Zpos p)) in *.
  replace (Z.max (d + 0 - 53) (-1074)) with (d - 53) by lia.
  destruct (d - 53 - 0) as [|q|q] eqn:Q; [| lia |].
  - exists p, 0. assert (d = 53) by lia.
    rewrite binary_round_aux_fits.
    + repeat split; try lia. 
    + rewrite fexp64_eq. fold d. lia.
    + lia.
  - exists (Pos.iter xO p q), (d - 53).
    assert (Hm : Zpos (Pos.iter xO p q) = Zpos p * 2 ^ (- (d - 53))).
    { rewrite Zpos_iter_xO. f_equal. f_equal. lia. }
    assert (Hdm : Zdigits2 (Zpos (Pos.iter xO p q)) = 53).
    { rewrite Hm, Zdigits2_mul_pow2 by lia. fold d. lia. }
    rewrite binary_round_aux_fits.
    + repeat split; assumption.
    + rewrite fexp64_eq, Hdm. lia.
    + lia.
Qed.

Lemma new_location_exact (nb_steps : Z) : new_location nb_steps 0 = loc_Exact.
Proof.
  unfold new_location, new_location_even, new_location_odd.
  destruct (Z.even nb_steps); reflexivity.
Qed.

(** The quotient of two normal numbers, the first not above the second, is
    at most 1. *)
Lemma div_at_most_one (mc mt : positive) (ec et : Z) :
  Zdigits2 (Zpos mc) = 53 -> Zdigits2 (Zpos mt) = 53 ->
  -52 <= ec -> ec <= et -> et <= 0 ->
  Zpos mc <= Zpos mt * 2 ^ (et - ec) ->
  at_most 1 0 (JS.div (S754_finite false mc ec) (S754_finite false mt et)).
Proof.
  intros Hdc Hdt Hec Hle Het Hval.
  unfold JS.div, SFdiv, SFdiv_core_binary, JS.prec, JS.emax.
  rewrite Hdc, Hdt, fexp64_eq.
  replace (Z.min (Z.max (53 + ec - (53 + et) - 53) (-1074)) (ec - et))
    with (ec - et - 53) by lia.
  replace (ec - et - (ec - et - 53)) with 53 by lia.
  rewrite Z.shiftl_mul_pow2 by lia.
  pose proof (Z_div_mod (Zpos mc * 2 ^ 53) (Zpos mt) ltac:(lia)) as DM.
  destruct (Z.div_eucl (Zpos mc * 2 ^ 53) (Zpos mt)) as [q r].
  destruct DM as [DM Hr].
  assert (Hmc : 2 ^ 52 <= Zpos mc < 2 ^ 53).
  { rewrite Zdigits2_log2 in Hdc by lia.
    destruct (Z.log2_spec (Zpos mc) ltac:(lia)) as [L1 L2].
    replace (Z.log2 (Zpos mc)) with 52 in * by lia. simpl Z.succ in L2. lia. }
  assert (Hmt : 2 ^ 52 <= Zpos mt < 2 ^ 53).
  { rewrite Zdigits2_log2 in Hdt by lia.
    destruct (Z.log2_spec (Zpos mt) ltac:(lia)) as [L1 L2].
    replace (Z.log2 (Zpos mt)) with 52 in * by lia. simpl Z.succ in L2. lia. }
  assert (Hq0 : 0 <= q) by nia.
  assert (Hq54 : q < 2 ^ 54).
  { change (2 ^ 54) with (2 * 2 ^ 53). change (2 ^ 52) with 4503599627370496 in *.
    change (2 ^ 53) with 9007199254740992 in *. nia. }
  assert (P : 0 < 2 ^ (et - ec)) by (apply Z.pow_pos_nonneg; lia).
  assert (Hpow : 2 ^ (0 - (ec - et - 53)) = 2 ^ (et - ec) * 2 ^ 53).
  { rewrite <- Z.pow_add_r by lia. f_equal. lia. }
  assert (Hqle : q * Zpos mt <= (2 ^ (et - ec) * 2 ^ 53) * Zpos mt).
  { change (2 ^ 53) with 9007199254740992 in *. nia. }
  apply binary_round_aux_at_most; try lia.
  - simpl. lia.
  - rewrite fexp64_eq.
    assert (Zdigits2 q <= 54).
    { destruct (Z.eq_dec q 0) as [->|]; [simpl; lia|].
      rewrite Zdigits2_log2 by lia.
      assert (Z.log2 q < 54) by (apply Z.log2_lt_pow2; lia). lia. }
    lia.
  - rewrite Z.mul_1_l, Hpow. nia.
  - intros Hloc. rewrite Z.mul_1_l, Hpow.
    assert (r <> 0).
    { intros ->. apply Hloc. apply new_location_exact. }
    change (2 ^ 53) with 9007199254740992 in *. nia.
Qed.

Lemma of_Z_100 : JS.of_Z 100 = S754_finite false 7036874417766400 (-46).
Proof. reflexivity. Qed.

(** Times 100, a number that is at most 1 is at most 100. *)
Lemma mul_100_at_most (x : spec_float) :
  at_most 1 0 x -> at_most 25 2 (JS.mul x (JS.of_Z 100)).
Proof.
  rewrite of_Z_100. destruct x as [[|]|[|]| |[|] m e]; unfold at_most at 1;
    try contradiction.
  - intros _. exact I.
  - intros [He Hm]. rewrite Z.mul_1_l in Hm.
    unfold JS.mul, SFmul, JS.prec, JS.emax. simpl xorb.
    assert (Pe : 0 < 2 ^ (0 - e)) by (apply Z.pow_pos_nonneg; lia).
    assert (Hpow : 2 ^ (2 - (e + -46)) = 2 ^ 48 * 2 ^ (0 - e)).
    { rewrite <- Z.pow_add_r by lia. f_equal. lia. }
    assert (Hprod : Zpos (m * 7036874417766400) <= 25 * 2 ^ (2 - (e + -46))).
    { rewrite Hpow, Pos2Z.inj_mul. change (2 ^ 48) with 281474976710656. nia. }
    apply binary_round_aux_at_most.
    + lia.
    + lia.
    + simpl. lia.
    + lia.
    + rewrite fexp64_eq.
      assert (Zdigits2 (Zpos (m * 7036874417766400)) <= 5 + (2 - (e + -46))).
      { change 5 with (Zdigits2 25). rewrite <- Zdigits2_mul_pow2 by lia.
        apply Zdigits2_le; lia. }
      lia.
    + exact Hprod.
    + intros H. now contradiction H.
Qed.

(** [Math.round] of a number between 0 and 100 is an integer between 0
    and 100. *)
Lemma Math_round_at_most_100 (x : spec_float) :
  at_most 25 2 x ->
  exists z, 0 <= z <= 100 /\ JS.Math_round x = JS.of_Z z.
Proof.
  destruct x as [[|]|[|]| |[|] m e]; unfold at_most; try contradiction.
  - intros _. exists 0. split; [lia | reflexivity].
  - intros [He Hm].
    exists (JS.round_half_up_Z (Zpos m) e). split; [|reflexivity].
    unfold JS.round_half_up_Z. destruct e as [|e|k].
    + simpl in Hm. lia.
    + assert (P : 0 < 2 ^ Zpos e) by (apply Z.pow_pos_nonneg; lia).
      assert (2 ^ (2 - Zpos e) * 2 ^ Zpos e = 4).
      { rewrite <- Z.pow_add_r by lia.
        replace (2 - Zpos e + Zpos e) with 2 by lia. reflexivity. }
      split; nia.
    + assert (P : 0 < 2 ^ Zpos k) by (apply Z.pow_pos_nonneg; lia).
      assert (Hpow : 2 ^ (2 - Zneg k) = 4 * 2 ^ Zpos k).
      { change 4 with (2 ^ 2). rewrite <- Z.pow_add_r by lia.
        replace (2 - Zneg k) with (2 + Zpos k) by lia. reflexivity. }
      rewrite Hpow in Hm.
      rewrite Z.pow_add_r by lia. change (2 ^ 1) with 2.
      split.
      * apply Z.div_pos; lia.
      * apply Z.lt_succ_r. apply Z.div_lt_upper_bound; lia.
Qed.

Lemma percent_values_checked :
  forallb (fun z => JS.le (JS.of_Z 0) (JS.of_Z z) && JS.le (JS.of_Z z) (JS.of_Z 100))
          percent_values = true.
Proof. vm_compute. reflexivity. Qed.

Lemma of_Z_between_0_and_100 (z : Z) :
  0 <= z <= 100 ->
  JS.le (JS.of_Z 0) (JS.of_Z z) = true /\ JS.le (JS.of_Z z) (JS.of_Z 100) = true.
Proof.
  intros Hz. apply andb_true_iff.
  pose proof percent_values_checked as H. rewrite forallb_forall in H.
  apply (H z). unfold percent_values.
  replace z with (Z.of_nat (Z.to_nat z)) by lia.
  apply in_map. apply in_seq. lia.
Qed.

(** Counts below 2^53 compare as numbers the way they compare as
    integers. *)
Lemma of_Z_le (c t : Z) :
  0 <= c -> c <= t -> t < 2 ^ 53 -> JS.le (JS.of_Z c) (JS.of_Z t) = true.
Proof.
  intros Hc Hct Ht. unfold JS.le.
  destruct c as [|c|c]; [| |lia]; destruct t as [|t|t]; try lia.
  - reflexivity.
  - destruct (of_Z_exact t Ht) as (mt & et & -> & _). reflexivity.
  - destruct (of_Z_exact c ltac:(lia)) as (mc & ec & -> & Hec & Hmc & _).
    destruct (of_Z_exact t Ht) as (mt & et & -> & Het & Hmt & _).
    assert (Hd : Zdigits2 (Zpos c) <= Zdigits2 (Zpos t)) by (apply Zdigits2_le; lia).
    unfold SFleb, SFcompare.
    destruct (Z.compare_spec ec et) as [Heq|Hlt|Hgt]; [|reflexivity|lia].
    rewrite Pos.compare_cont_spec. simpl Pos.switch_Eq.
    assert (Hle : (mc <= mt)%positive).
    { assert (Zpos mc <= Zpos mt); [|lia]. rewrite Hmc, Hmt, Heq.
      apply Z.mul_le_mono_nonneg_r; [|lia].
      apply Z.pow_nonneg. lia. }
    unfold Pos.le in Hle. destruct (mc ?= mt)%positive; try reflexivity.
    now contradiction Hle.
Qed.

(** The percentage of [c] completed out of [t], [c <= t] below 2^53, is an
    integer from 0 to 100. *)
Lemma percent_is_percentage (c t : Z) :
  0 <= c -> c <= t -> t < 2 ^ 53 ->
  exists z, 0 <= z <= 100
            /\ ProjectService.percent (JS.of_Z c) (JS.of_Z t) = JS.of_Z z.
Proof.
  intros Hc Hct Ht. unfold ProjectService.percent.
  destruct t as [|t|t]; [| |lia].
  - exists 0. split; [lia | reflexivity].
  - destruct (of_Z_exact t Ht) as (mt & et & Et & Het & Hmt & Hdt).
    rewrite Et. change (JS.gt (S754_finite false mt et) (JS.of_Z 0)) with true.
    cbv iota.
    destruct c as [|c|c]; [| |lia].
    + exists 0. split; [lia | reflexivity].
    + destruct (of_Z_exact c ltac:(lia)) as (mc & ec & Ec & Hec & Hmc & Hdc).
      rewrite Ec.
      assert (Hd : Zdigits2 (Zpos c) <= Zdigits2 (Zpos t)) by (apply Zdigits2_le; lia).
      assert (Hd1 : 1 <= Zdigits2 (Zpos c)) by (simpl; lia).
      assert (Hd2 : Zdigits2 (Zpos t) <= 53).
      { rewrite Zdigits2_log2 by lia.
        assert (Z.log2 (Zpos t) < 53) by (apply Z.log2_lt_pow2; lia). lia. }
      apply Math_round_at_most_100. apply mul_100_at_most.
      apply div_at_most_one; try assumption; try lia.
      rewrite Hmc, Hmt.
      assert (P : 0 < 2 ^ (- ec)) by (apply Z.pow_pos_nonneg; lia).
      replace (Zpos t * 2 ^ (- et) * 2 ^ (et - ec)) with (Zpos t * 2 ^ (- ec)).
      * nia.
      * rewrite <- Z.mul_assoc, <- Z.pow_add_r by lia. f_equal. f_equal. lia.
Qed.

(* ================================================================== *)
(** * C10: the progress figures are in range *)

Lemma filter_length_le {A} (f : A -> bool) (l : list A) :
  (length (filter f l) <= length l)%nat.
Proof.
  induction l as [|a l IH]; simpl; [lia|]. destruct (f a); simpl; lia.
Qed.

Lemma filter_and_length_le {A} (f g : A -> bool) (l : list A) :
  (length (filter (fun x => f x && g x) l) <= length (filter f l))%nat.
Proof.
  induction l as [|a l IH]; simpl; [lia|].
  destruct (f a), (g a); simpl; lia.
Qed.

Lemma counts_in_range (f g : Todo.t -> bool) (s : Store) :
  Z.of_nat (length (todos s)) < 2 ^ 53 ->
  progress_in_range
    {| record := tt;
       total_tasks := count_where f s;
       completed_tasks := count_where (fun t => f t && g t) s;
       progress_percent :=
         ProjectService.percent (count_where (fun t => f t && g t) s)
                                (count_where f s) |}.
Proof.
  intros Hsize. unfold count_where, progress_in_range.
  cbn [total_tasks completed_tasks progress_percent].
  pose proof (filter_and_length_le f g (todos s)) as H1.
  pose proof (filter_length_le f (todos s)) as H2.
  set (c := Z.of_nat (length (filter (fun t => f t && g t) (todos s)))) in *.
  set (t := Z.of_nat (length (filter f (todos s)))) in *.
  assert (Hc : 0 <= c) by (unfold c; lia).
  assert (Hct : c <= t) by (unfold c, t; lia).
  assert (Ht : t < 2 ^ 53) by (unfold t; lia).
  destruct (percent_is_percentage c t Hc Hct Ht) as (z & Hz & ->).
  destruct (of_Z_between_0_and_100 z Hz) as [Z1 Z2].
  repeat split; try assumption.
  - apply of_Z_le; lia.
  - apply of_Z_le; lia.
Qed.

Lemma attachProgress_in_range (p : Project.t) (s : Store) :
  Z.of_nat (length (todos s)) < 2 ^ 53 ->
  progress_in_range (ProjectService.attachProgress p s).
Proof.
  intros H.
  exact (counts_in_range (fun t => opt_Z_eqb (Todo.project_id t) (Project.id p))
           (fun t => TodoStatus_eqb (Todo.status t) completed) s H).
Qed.

Lemma attachMilestoneProgress_in_range (m : Milestone.t) (s : Store) :
  Z.of_nat (length (todos s)) < 2 ^ 53 ->
  progress_in_range (ProjectService.attachMilestoneProgress m s).
Proof.
  intros H.
  exact (counts_in_range (fun t => opt_Z_eqb (Todo.milestone_id t) (Milestone.id m))
           (fun t => TodoStatus_eqb (Todo.status t) completed) s H).
Qed.

(** Unfold a [ProjectService] call in [H] down to the statements, decide
    every lookup, and keep the branches in which the call returned. *)
Ltac returned H :=
  repeat progress
    (unfold ProjectService.getAll, ProjectService.getById, ProjectService.create,
       ProjectService.update, ProjectService.getMilestones,
       ProjectService.getMilestoneById, ProjectService.createMilestone,
       ProjectService.completeMilestone, bind, read, ret, insert_project,
       update_projects, insert_milestone, update_milestone_status in H;
     cbv beta iota zeta in H);
  repeat match type of H with
         | context [select_project ?i ?s] => destruct (select_project i s) eqn:?
         | context [select_milestone ?i ?s] => destruct (select_milestone i s) eqn:?
         | context [mem_Z ?i ?l] => destruct (mem_Z i l) eqn:?
         end; cbv beta iota zeta in H;
  try discriminate H; inversion H; subst; clear H.

(** C10.  In a store with fewer than 2^53 todos (the range in which a row
    count is an exact JavaScript number), every record with progress that a
    [ProjectService] method returns has [0 <= completed_tasks <=
    total_tasks] and [0 <= progress_percent <= 100]. *)
Theorem C10_progress_within_bounds :
  forall (s : Store),
    Z.of_nat (length (todos s)) < 2 ^ 53 ->
    (forall status s' rs,
        ProjectService.getAll status s = (s', Return rs) ->
        forall r, In r rs -> progress_in_range r)
    /\ (forall id s' r,
          ProjectService.getById id s = (s', Return r) -> progress_in_range r)
    /\ (forall data now s' r,
          ProjectService.create data now s = (s', Return r) -> progress_in_range r)
    /\ (forall id data now s' r,
          ProjectService.update id data now s = (s', Return r) -> progress_in_range r)
    /\ (forall projectId s' rs,
          ProjectService.getMilestones projectId s = (s', Return rs) ->
          forall r, In r rs -> progress_in_range r)
    /\ (forall id s' r,
          ProjectService.getMilestoneById id s = (s', Return r) -> progress_in_range r)
    /\ (forall data now s' r,
          ProjectService.createMilestone data now s = (s', Return r) ->
          progress_in_range r)
    /\ (forall id undo s' r,
          ProjectService.completeMilestone id undo s = (s', Return r) ->
          progress_in_range r).
Proof.
  intros s Hsize.
  split; [|split; [|split; [|split; [|split; [|split; [|split]]]]]].
  - intros status s' rs H r Hr. returned H.
    apply in_map_iff in Hr. destruct Hr as [p [<- _]].
    now apply attachProgress_in_range.
  - intros id s' r H. returned H. now apply attachProgress_in_range.
  - intros data now s' r H. returned H. now apply attachProgress_in_range.
  - intros id data now s' r H. returned H. now apply attachProgress_in_range.
  - intros projectId s' rs H r Hr. returned H.
    apply in_map_iff in Hr. destruct Hr as [m [<- _]].
    now apply attachMilestoneProgress_in_range.
  - intros id s' r H. returned H. now apply attachMilestoneProgress_in_range.
  - intros data now s' r H. returned H. now apply attachMilestoneProgress_in_range.
  - intros id undo s' r H. returned H. now apply attachMilestoneProgress_in_range.
Qed.

Lemma C10_witness :
  exists r,
    ProjectService.getById 1 store_scenario = (store_scenario, Return r)
    /\ total_tasks r = JS.of_Z 3
    /\ completed_tasks r = JS.of_Z 1
    /\ progress_in_range r.
Proof.
  eexists. split; [reflexivity|]. split; [reflexivity|]. split; [reflexivity|].
  assert (Hsize : Z.of_nat (length (todos store_scenario)) < 2 ^ 53)
    by (vm_compute; reflexivity).
  exact (proj1 (proj2 (C10_progress_within_bounds store_scenario Hsize))
           1 store_scenario _ eq_refl).
Defined.

(* ================================================================== *)
(** * C1: the progress percentage *)

(** The two examples of the specification and the empty project come out
    as the specification says. *)
Lemma percent_examples :
  progress_percent (ProjectService.attachProgress
                      (Project.mk 1 "P" None PS_active "t0" "t0") (store_progress 1 3))
    = JS.of_Z (round_half_up_percent 1 3)
  /\ round_half_up_percent 1 3 = 33
  /\ progress_percent (ProjectService.attachProgress
                         (Project.mk 1 "P" None PS_active "t0" "t0") (store_progress 1 2))
     = JS.of_Z (round_half_up_percent 1 2)
  /\ round_half_up_percent 1 2 = 50
  /\ progress_percent (ProjectService.attachProgress
                         (Project.mk 1 "P" None PS_active "t0" "t0") (store_progress 0 0))
     = JS.of_Z 0.
Proof. repeat split; vm_compute; reflexivity. Qed.

(** C1 fails on the code.  With 23 of 40 linked todos completed the exact
    percentage is 57.5, which rounds half up to 58; [getById] and
    [getMilestoneById] report 57.  The quotient 23/40 is not a binary
    fraction: [(23 / 40) * 100] is the double just below 57.5, and
    [Math.round] takes it down. *)
Theorem C1_percent_of_23_out_of_40 :
  (exists r,
      ProjectService.getById 1 (store_progress 23 40)
        = (store_progress 23 40, Return r)
      /\ total_tasks r = JS.of_Z 40
      /\ completed_tasks r = JS.of_Z 23
      /\ progress_percent r = JS.of_Z 57)
  /\ (exists r,
        ProjectService.getMilestoneById 1 (store_progress 23 40)
          = (store_progress 23 40, Return r)
        /\ total_tasks r = JS.of_Z 40
        /\ completed_tasks r = JS.of_Z 23
        /\ progress_percent r = JS.of_Z 57)
  /\ JS.mul (JS.div (JS.of_Z 23) (JS.of_Z 40)) (JS.of_Z 100)
     = S754_finite false 8092405580431359 (-47)
  /\ 2 * 8092405580431359 < 115 * 2 ^ 47
  /\ round_half_up_percent 23 40 = 58
  /\ JS.of_Z 57 <> JS.of_Z 58.
Proof.
  split; [|split; [|split; [|split; [|split]]]].
  - eexists. split; [vm_compute; reflexivity|].
    repeat split; vm_compute; reflexivity.
  - eexists. split; [vm_compute; reflexivity|].
    repeat split; vm_compute; reflexivity.
  - vm_compute. reflexivity.
  - vm_compute. reflexivity.
  - vm_compute. reflexivity.
  - vm_compute. discriminate.
Qed.

(* ================================================================== *)
(** * The schema invariant is kept by every method *)

Lemma store_ok_iff (s : Store) :
  store_ok s = true <->
  0 <= seq_todos s
  /\ (forall t, In t (todos s) -> row_ok s t)
  /\ (forall m, In m (milestones s) -> In (Milestone.project_id m) (project_ids s)).
Proof.
  unfold store_ok, row_ok. rewrite !andb_true_iff, !forallb_forall, Z.leb_le. split.
  - intros [[[[H0 H1] H2] H3] H4]. split; [assumption|]. split.
    + intros t Ht. specialize (H1 t Ht). specialize (H2 t Ht). specialize (H3 t Ht).
      apply Z.ltb_lt in H1. apply andb_true_iff in H2. destruct H2 as [A B].
      apply Z.leb_le in A, B. repeat split; assumption.
    + intros m Hm. apply mem_Z_In. now apply H4.
  - intros [H0 [H1 H2]]. repeat split; try assumption.
    + intros t Ht. apply Z.ltb_lt. now apply H1.
    + intros t Ht. destruct (H1 t Ht) as (_ & [A B] & _).
      apply andb_true_iff. split; now apply Z.leb_le.
    + intros t Ht. now apply H1.
    + intros m Hm. apply mem_Z_In. now apply H2.
Qed.

Lemma todo_refs_ok_incl (s s' : Store) (t : Todo.t) :
  incl (project_ids s) (project_ids s') ->
  incl (todo_ids s) (todo_ids s') ->
  incl (milestone_ids s) (milestone_ids s') ->
  todo_refs_ok s t = true -> todo_refs_ok s' t = true.
Proof.
  unfold todo_refs_ok. rewrite !andb_true_iff. intros Hp Ht Hm [[A B] C].
  repeat split; eapply fk_ok_incl; eassumption.
Qed.

Lemma createTestDb_ok : store_ok createTestDb = true /\ hierarchy_ok createTestDb = true.
Proof. split; reflexivity. Qed.

Lemma no_violation_inv (s : Store) (self : Z) (r : Todo.t) :
  todo_row_violation s self r = None ->
  1 <= Todo.priority r <= 5
  /\ fk_ok (Todo.project_id r) (project_ids s) = true
  /\ fk_ok (Todo.parent_id r) (self :: todo_ids s) = true
  /\ fk_ok (Todo.milestone_id r) (milestone_ids s) = true.
Proof.
  unfold todo_row_violation.
  destruct ((1 <=? Todo.priority r) && (Todo.priority r <=? 5)) eqn:P;
    simpl; [|discriminate].
  destruct (fk_ok (Todo.project_id r) (project_ids s)
            && fk_ok (Todo.parent_id r) (self :: todo_ids s)
            && fk_ok (Todo.milestone_id r) (milestone_ids s)) eqn:F;
    simpl; [|discriminate].
  intros _. apply andb_true_iff in P. destruct P as [P1 P2].
  apply Z.leb_le in P1, P2. rewrite !andb_true_iff in F. tauto.
Qed.

Lemma create_keeps_store_ok (data : TodoCreateInput) (now : Timestamp) (s : Store) :
  store_ok s = true -> store_ok (fst (TodoService.create data now s)) = true.
Proof.
  intros Hok. destruct (TodoService.create data now s) as [s' out] eqn:E.
  pose proof (create_result data now s s' out E) as R. simpl.
  destruct out as [t|e]; [|now subst].
  destruct R as (Hs' & Hid & Hv & _). subst s'.
  apply store_ok_iff in Hok. destruct Hok as (Hseq & Hrows & Hms).
  destruct (no_violation_inv _ _ _ Hv) as (Hprio & Hfp & Hfpar & Hfm).
  destruct (next_rowid_above (seq_todos s) (todo_ids s)) as [Habove _].
  set (s' := set_todos s (todos s ++ [t]) (Todo.id t)).
  assert (Hids : incl (Todo.id t :: todo_ids s) (todo_ids s')).
  { intros k Hk. unfold todo_ids, s'; simpl. rewrite map_app.
    apply in_or_app. simpl. destruct Hk as [<-|Hk]; auto. }
  apply store_ok_iff. split; [simpl; lia|]. split.
  - intros r Hr. simpl in Hr. apply in_app_or in Hr. destruct Hr as [Hr|[<-|[]]].
    + destruct (Hrows r Hr) as (A & B & C).
      split; [assumption|]. split; [assumption|].
      eapply todo_refs_ok_incl; [| | |exact C].
      * apply incl_refl.
      * intros k Hk. apply Hids. now right.
      * apply incl_refl.
    + split; [lia|]. split; [assumption|].
      unfold todo_refs_ok. rewrite !andb_true_iff.
      split; [split|].
      * exact Hfp.
      * eapply fk_ok_incl; [|exact Hfpar]. exact Hids.
      * exact Hfm.
  - intros m Hm. now apply Hms.
Qed.

Lemma createMany_keeps_store_ok (items : list TodoCreateInput) :
  forall (clock : nat -> Timestamp) (s : Store),
    store_ok s = true -> store_ok (fst (TodoService.createMany items clock s)) = true.
Proof.
  induction items as [|item rest IH]; intros clock s Hok; [assumption|].
  rewrite createMany_cons.
  pose proof (create_keeps_store_ok item (clock O) s Hok) as H1.
  destruct (TodoService.create item (clock O) s) as [s1 [t|e]]; simpl in H1;
    [|assumption].
  specialize (IH (fun k => clock (S k)) s1 H1).
  destruct (TodoService.createMany rest _ s1) as [s2 [ts|e]]; assumption.
Qed.

Lemma first_violation_none_inv (s : Store) (data : TodoUpdateInput)
    (now : Timestamp) (rows : list Todo.t) :
  first_violation s data now rows = None ->
  forall r, In r rows -> todo_update_violation s data (patch_todo data now r) = None.
Proof.
  induction rows as [|a rows IH]; simpl; intros H r Hr; [contradiction|].
  destruct (todo_update_violation s data (patch_todo data now a)) eqn:V;
    [discriminate|].
  destruct Hr as [<-|Hr]; [assumption | now apply IH].
Qed.

Lemma no_update_violation_inv (s : Store) (data : TodoUpdateInput) (r' : Todo.t) :
  todo_update_violation s data r' = None ->
  1 <= Todo.priority r' <= 5
  /\ fk_assigned_ok (tui_project_id data) (project_ids s) = true
  /\ fk_assigned_ok (tui_parent_id data) (todo_ids s) = true
  /\ fk_assigned_ok (tui_milestone_id data) (milestone_ids s) = true.
Proof.
  unfold todo_update_violation.
  destruct ((1 <=? Todo.priority r') && (Todo.priority r' <=? 5)) eqn:P;
    simpl; [|discriminate].
  destruct (fk_assigned_ok (tui_project_id data) (project_ids s)
            && fk_assigned_ok (tui_parent_id data) (todo_ids s)
            && fk_assigned_ok (tui_milestone_id data) (milestone_ids s)) eqn:F;
    simpl; [|discriminate].
  intros _. apply andb_true_iff in P. destruct P as [P1 P2].
  apply Z.leb_le in P1, P2. rewrite !andb_true_iff in F. tauto.
Qed.

Lemma fk_or_else (supplied : option (option Z)) (old : option Z) (keys : list Z) :
  fk_assigned_ok supplied keys = true -> fk_ok old keys = true ->
  fk_ok (or_else supplied old) keys = true.
Proof. destruct supplied; simpl; auto. Qed.

Lemma map_id_update_todo_row (i : Z) (data : TodoUpdateInput) (now : Timestamp)
    (rows : list Todo.t) :
  map Todo.id (map (update_todo_row i data now) rows) = map Todo.id rows.
Proof.
  rewrite map_map. apply map_ext. intros r. unfold update_todo_row.
  destruct (Todo.id r =? i); reflexivity.
Qed.

Lemma update_keeps_store_ok (i : Z) (data : TodoUpdateInput) (now : Timestamp)
    (s : Store) :
  store_ok s = true -> store_ok (fst (TodoService.update i data now s)) = true.
Proof.
  intros Hok. destruct (select_todo i s) as [t|] eqn:Hsel.
  - rewrite (update_existing s i data now t Hsel).
    destruct (first_violation s data now _) eqn:V; [assumption|]. simpl.
    apply store_ok_iff in Hok. destruct Hok as (Hseq & Hrows & Hms).
    apply store_ok_iff. split; [assumption|]. split; [|exact Hms].
    intros r' Hr'. simpl in Hr'. apply in_map_iff in Hr'.
    destruct Hr' as [r [<- Hr]]. destruct (Hrows r Hr) as (A & B & C).
    assert (Hsame : todo_refs_ok
                      (set_todos s (map (update_todo_row i data now) (todos s))
                         (seq_todos s)) r = true).
    { eapply todo_refs_ok_incl; [| | |exact C]; try apply incl_refl.
      unfold todo_ids; simpl. rewrite map_id_update_todo_row. apply incl_refl. }
    destruct (Todo.id r =? i) eqn:Ei;
      [ replace (update_todo_row i data now r) with (patch_todo data now r)
          by (unfold update_todo_row; now rewrite Ei)
      | replace (update_todo_row i data now r) with r
          by (unfold update_todo_row; now rewrite Ei) ].
    + assert (Hin : In r (filter (fun r => Todo.id r =? i) (todos s)))
        by (apply filter_In; auto).
      pose proof (first_violation_none_inv _ _ _ _ V r Hin) as NV.
      destruct (no_update_violation_inv _ _ _ NV) as (P & F1 & F2 & F3).
      unfold todo_refs_ok in C. rewrite !andb_true_iff in C.
      destruct C as [[C1 C2] C3].
      split; [exact A|]. split; [exact P|].
      assert (Hpatched : todo_refs_ok s (patch_todo data now r) = true).
      { unfold todo_refs_ok. cbn [patch_todo Todo.project_id Todo.parent_id
                                    Todo.milestone_id].
        rewrite !andb_true_iff. split; [split|]; now apply fk_or_else. }
      eapply todo_refs_ok_incl; [| | |exact Hpatched]; try apply incl_refl.
      unfold todo_ids; simpl. rewrite map_id_update_todo_row. apply incl_refl.
    + split; [exact A|]. split; [exact B | exact Hsame].
  - unfold TodoService.update, bind, TodoService.getById, read.
    rewrite Hsel. assumption.
Qed.

Lemma delete_keeps_store_ok (i : Z) (s : Store) :
  store_ok s = true -> store_ok (fst (TodoService.delete i s)) = true.
Proof.
  intros Hok. destruct (select_todo i s) as [t|] eqn:Hsel.
  - rewrite (delete_existing s i t Hsel). simpl.
    set (rest := filter (fun r => negb (Todo.id r =? i)) (todos s)).
    destruct (cascade_closed (length rest) [i] rest (le_n _)) as [Hincl Hcl].
    apply store_ok_iff in Hok. destruct Hok as (Hseq & Hrows & Hms).
    apply store_ok_iff. split; [assumption|]. split; [|exact Hms].
    intros r Hr. simpl in Hr.
    assert (Hr0 : In r (todos s)).
    { apply Hincl in Hr. unfold rest in Hr. now apply filter_In in Hr. }
    destruct (Hrows r Hr0) as (A & B & C).
    split; [exact A|]. split; [exact B|].
    unfold todo_refs_ok in *. rewrite !andb_true_iff in *.
    destruct C as [[C1 C2] C3]. split; [split|]; try assumption.
    destruct (Todo.parent_id r) as [k|] eqn:Pk; [|reflexivity].
    simpl in C2 |- *. apply mem_Z_In. apply mem_Z_In in C2.
    destruct (Hcl r k Hr Pk) as [Hnot Hstay].
    unfold todo_ids; simpl. apply Hstay.
    unfold todo_ids in C2. apply in_map_iff in C2. destruct C2 as [x [Hx Hxin]].
    rewrite <- Hx. apply in_map. unfold rest. apply filter_In. split; [assumption|].
    apply negb_true_iff. apply Z.eqb_neq. intros Heq. apply Hnot.
    left. congruence.
  - unfold TodoService.delete, bind, TodoService.getById, read.
    rewrite Hsel. assumption.
Qed.

(** Every call on [TodoService] keeps the schema invariant. *)
Lemma call_keeps_store_ok (c : TodoCall) (s : Store) :
  store_ok s = true -> store_ok (call c s) = true.
Proof.
  destruct c; simpl.
  - apply create_keeps_store_ok.
  - apply createMany_keeps_store_ok.
  - apply update_keeps_store_ok.
  - apply update_keeps_store_ok.
  - apply delete_keeps_store_ok.
Qed.

Lemma run_keeps_store_ok (calls : list TodoCall) :
  forall s, store_ok s = true -> store_ok (run calls s) = true.
Proof.
  induction calls as [|c calls IH]; intros s Hok; [assumption|].
  simpl. apply IH. now apply call_keeps_store_ok.
Qed.

Lemma map_id_update_project_row (i : Z) (data : ProjectUpdateInput)
    (now : Timestamp) (rows : list Project.t) :
  map Project.id (map (update_project_row i data now) rows) = map Project.id rows.
Proof.
  rewrite map_map. apply map_ext. intros r. unfold update_project_row.
  destruct (Project.id r =? i); reflexivity.
Qed.

(** Unfold a [ProjectService] call in the goal and decide every lookup. *)
Ltac enter_service :=
  repeat progress
    (unfold ProjectService.getById, ProjectService.create,
       ProjectService.update, ProjectService.delete,
       ProjectService.getMilestoneById, ProjectService.createMilestone,
       ProjectService.completeMilestone, ProjectService.deleteMilestone,
       bind, read, ret, insert_project, update_projects, delete_projects,
       insert_milestone, update_milestone_status, delete_milestones;
     cbv beta iota zeta);
  repeat (match goal with
          | |- context [select_project ?i ?s] => destruct (select_project i s) eqn:?
          | |- context [select_milestone ?i ?s] => destruct (select_milestone i s) eqn:?
          | |- context [mem_Z ?i (project_ids ?s)] =>
              destruct (mem_Z i (project_ids s)) eqn:?
          end; cbv beta iota zeta);
  cbn [fst].

Lemma rows_ok_transfer (s s' : Store) :
  todos s' = todos s ->
  incl (project_ids s) (project_ids s') ->
  incl (milestone_ids s) (milestone_ids s') ->
  (forall t, In t (todos s) -> row_ok s t) ->
  forall t, In t (todos s') -> row_ok s' t.
Proof.
  intros Ht Hp Hm Hrows t Hin. rewrite Ht in Hin.
  destruct (Hrows t Hin) as (A & B & C).
  split; [exact A|]. split; [exact B|].
  eapply todo_refs_ok_incl; [exact Hp | | exact Hm | exact C].
  unfold todo_ids. rewrite Ht. apply incl_refl.
Qed.

Lemma project_create_keeps_store_ok (data : ProjectCreateInput) (now : Timestamp)
    (s : Store) :
  store_ok s = true -> store_ok (fst (ProjectService.create data now s)) = true.
Proof.
  intros Hok. apply store_ok_iff in Hok. destruct Hok as (Hseq & Hrows & Hms).
  assert (Hp : forall row seq,
             incl (project_ids s) (project_ids (set_projects s (projects s ++ [row]) seq))).
  { intros row seq k Hk. unfold project_ids; simpl. rewrite map_app.
    apply in_or_app. now left. }
  enter_service.
  all: apply store_ok_iff; (split; [assumption|]); split;
    [ apply (rows_ok_transfer s); [reflexivity | apply Hp | apply incl_refl | exact Hrows]
    | intros m Hm; apply Hp; now apply Hms ].
Qed.

Lemma project_update_keeps_store_ok (i : Z) (data : ProjectUpdateInput)
    (now : Timestamp) (s : Store) :
  store_ok s = true -> store_ok (fst (ProjectService.update i data now s)) = true.
Proof.
  intros Hok. enter_service; try assumption.
  all: apply store_ok_iff in Hok; destruct Hok as (Hseq & Hrows & Hms);
    assert (Hp : project_ids (set_projects s
                   (map (update_project_row i data now) (projects s))
                   (seq_projects s)) = project_ids s)
      by (unfold project_ids; simpl; apply map_id_update_project_row);
    apply store_ok_iff; (split; [assumption|]); split;
    [ apply (rows_ok_transfer s);
        [reflexivity | rewrite Hp; apply incl_refl | apply incl_refl | exact Hrows]
    | intros m Hm; rewrite Hp; now apply Hms ].
Qed.

Lemma milestone_create_keeps_store_ok (data : MilestoneCreateInput)
    (now : Timestamp) (s : Store) :
  store_ok s = true ->
  store_ok (fst (ProjectService.createMilestone data now s)) = true.
Proof.
  intros Hok. enter_service; try assumption.
  all: apply store_ok_iff in Hok; destruct Hok as (Hseq & Hrows & Hms);
    apply store_ok_iff; (split; [assumption|]); split;
    [ apply (rows_ok_transfer s);
        [ reflexivity | apply incl_refl
        | intros k Hk; unfold milestone_ids; simpl; rewrite map_app;
          apply in_or_app; now left
        | exact Hrows ]
    | intros m Hm; simpl in Hm; apply in_app_or in Hm;
      destruct Hm as [Hm|[<-|[]]];
      [ now apply Hms
      | simpl; match goal with H : mem_Z _ _ = true |- _ => now apply mem_Z_In in H end ] ].
Qed.

Lemma milestone_complete_keeps_store_ok (i : Z) (undo : bool) (s : Store) :
  store_ok s = true ->
  store_ok (fst (ProjectService.completeMilestone i undo s)) = true.
Proof.
  intros Hok. enter_service; try assumption.
  all: apply store_ok_iff in Hok; destruct Hok as (Hseq & Hrows & Hms);
    apply store_ok_iff; (split; [assumption|]); split;
    [ apply (rows_ok_transfer s);
        [ reflexivity | apply incl_refl
        | unfold milestone_ids; simpl; rewrite map_map;
          erewrite map_ext; [apply incl_refl|];
          intros a; simpl; destruct (Milestone.id a =? i); reflexivity
        | exact Hrows ]
    | intros m Hm; simpl in Hm; apply in_map_iff in Hm;
      destruct Hm as [m0 [<- Hm0]];
      destruct (Milestone.id m0 =? i); simpl; now apply Hms ].
Qed.

Lemma detach_row_ok (s s' : Store) (gp gm : list Z) (r : Todo.t) :
  row_ok s r ->
  incl (todo_ids s) (todo_ids s') ->
  (forall k, In k (project_ids s) -> ~ In k gp -> In k (project_ids s')) ->
  (forall k, In k (milestone_ids s) -> ~ In k gm -> In k (milestone_ids s')) ->
  row_ok s' (detach gp gm r).
Proof.
  intros (A & B & C) Ht Hp Hm.
  split; [exact A|]. split; [exact B|].
  unfold todo_refs_ok in *. rewrite !andb_true_iff in *.
  destruct C as [[C1 C2] C3].
  cbn [detach Todo.project_id Todo.parent_id Todo.milestone_id].
  split; [split|].
  - destruct (Todo.project_id r) as [k|]; [|reflexivity].
    destruct (mem_Z k gp) eqn:G; [reflexivity|]. simpl in C1 |- *.
    apply mem_Z_In. apply Hp; [now apply mem_Z_In|].
    intros Hin. apply mem_Z_In in Hin. congruence.
  - eapply fk_ok_incl; eassumption.
  - destruct (Todo.milestone_id r) as [k|]; [|reflexivity].
    destruct (mem_Z k gm) eqn:G; [reflexivity|]. simpl in C3 |- *.
    apply mem_Z_In. apply Hm; [now apply mem_Z_In|].
    intros Hin. apply mem_Z_In in Hin. congruence.
Qed.

Lemma map_id_detach (gp gm : list Z) (rows : list Todo.t) :
  map Todo.id (map (detach gp gm) rows) = map Todo.id rows.
Proof. rewrite map_map. apply map_ext. reflexivity. Qed.

Lemma project_delete_keeps_store_ok (i : Z) (s : Store) :
  store_ok s = true -> store_ok (fst (ProjectService.delete i s)) = true.
Proof.
  intros Hok. enter_service; try assumption.
  apply store_ok_iff in Hok. destruct Hok as (Hseq & Hrows & Hms).
  assert (Hkeep : forall k, In k (project_ids s) -> ~ In k [i] ->
                    In k (map Project.id
                            (filter (fun p => negb (Project.id p =? i)) (projects s)))).
  { intros k Hk Hn. unfold project_ids in Hk. apply in_map_iff in Hk.
    destruct Hk as [x [<- Hx]]. apply in_map. apply filter_In. split; [assumption|].
    apply negb_true_iff. apply Z.eqb_neq. intros E. apply Hn. now left. }
  apply store_ok_iff. split; [assumption|]. split.
  - intros t' Ht'. cbn [todos] in Ht'. apply in_map_iff in Ht'.
    destruct Ht' as [r [<- Hr]].
    apply (detach_row_ok s); [now apply Hrows | | exact Hkeep |].
    + unfold todo_ids; cbn [todos]. rewrite map_id_detach. apply incl_refl.
    + intros k Hk Hn. unfold milestone_ids in *; cbn [milestones].
      apply in_map_iff in Hk. destruct Hk as [m [<- Hm]].
      apply in_map. apply filter_In. split; [assumption|].
      apply negb_true_iff. apply Z.eqb_neq. intros E. apply Hn.
      apply in_map. apply filter_In. split; [assumption | now apply Z.eqb_eq].
  - intros m Hm. cbn [milestones] in Hm. apply filter_In in Hm.
    destruct Hm as [Hm Hne]. apply negb_true_iff, Z.eqb_neq in Hne.
    unfold project_ids; cbn [projects]. apply Hkeep; [now apply Hms|].
    intros [E|[]]. congruence.
Qed.

Lemma milestone_delete_keeps_store_ok (i : Z) (s : Store) :
  store_ok s = true -> store_ok (fst (ProjectService.deleteMilestone i s)) = true.
Proof.
  intros Hok. enter_service; try assumption.
  apply store_ok_iff in Hok. destruct Hok as (Hseq & Hrows & Hms).
  apply store_ok_iff. split; [assumption|]. split.
  - intros t' Ht'. cbn [todos] in Ht'. apply in_map_iff in Ht'.
    destruct Ht' as [r [<- Hr]].
    apply (detach_row_ok s); [now apply Hrows | | |].
    + unfold todo_ids; cbn [todos]. rewrite map_id_detach. apply incl_refl.
    + intros k Hk _. exact Hk.
    + intros k Hk Hn. unfold milestone_ids in *; cbn [milestones].
      apply in_map_iff in Hk. destruct Hk as [m [<- Hm]].
      apply in_map. apply filter_In. split; [assumption|].
      apply negb_true_iff. apply Z.eqb_neq. intros E. apply Hn. now left.
  - intros m Hm. cbn [milestones] in Hm. apply filter_In in Hm.
    destruct Hm as [Hm _]. now apply Hms.
Qed.

(* ================================================================== *)
(** * Where the hierarchy rule does hold

    Every call other than an [update] that assigns [parent_id] keeps
    "level is [subtask] exactly when a parent is set". *)

Lemma hierarchy_ok_iff (s : Store) :
  hierarchy_ok s = true <-> forall t, In t (todos s) -> level_matches_parent t = true.
Proof. unfold hierarchy_ok. apply forallb_forall. Qed.

Lemma create_keeps_hierarchy (data : TodoCreateInput) (now : Timestamp) (s : Store) :
  store_ok s = true -> hierarchy_ok s = true ->
  hierarchy_ok (fst (TodoService.create data now s)) = true.
Proof.
  intros Hok Hh. destruct (TodoService.create data now s) as [s' out] eqn:E.
  pose proof (create_result data now s s' out E) as R. simpl.
  destruct out as [t|e]; [|now subst].
  destruct R as (Hs' & Hid & Hv & Hpar & Hlvl). subst s'.
  rewrite hierarchy_ok_iff in *. intros r Hr. simpl in Hr.
  apply in_app_or in Hr. destruct Hr as [Hr|[<-|[]]]; [now apply Hh|].
  unfold level_matches_parent. rewrite Hpar, Hlvl.
  destruct (tci_parent_id data) as [k|] eqn:Pk; [|reflexivity].
  simpl. destruct (k =? 0) eqn:K0; [|reflexivity]. exfalso.
  apply Z.eqb_eq in K0. subst k.
  destruct (no_violation_inv _ _ _ Hv) as (_ & _ & Hfpar & _).
  rewrite Hpar in Hfpar. cbn [fk_ok] in Hfpar. apply mem_Z_In in Hfpar.
  apply store_ok_iff in Hok. destruct Hok as (Hseq & Hrows & _).
  destruct (next_rowid_above (seq_todos s) (todo_ids s)) as [Habove _].
  destruct Hfpar as [H0|H0].
  - lia.
  - unfold todo_ids in H0. apply in_map_iff in H0. destruct H0 as [x [Hx Hxin]].
    destruct (Hrows x Hxin) as (A & _). lia.
Qed.

Lemma createMany_keeps_hierarchy (items : list TodoCreateInput) :
  forall (clock : nat -> Timestamp) (s : Store),
    store_ok s = true -> hierarchy_ok s = true ->
    hierarchy_ok (fst (TodoService.createMany items clock s)) = true.
Proof.
  induction items as [|item rest IH]; intros clock s Hok Hh; [assumption|].
  rewrite createMany_cons.
  pose proof (create_keeps_store_ok item (clock O) s Hok) as H1.
  pose proof (create_keeps_hierarchy item (clock O) s Hok Hh) as H2.
  destruct (TodoService.create item (clock O) s) as [s1 [t|e]]; simpl in H1, H2;
    [|assumption].
  specialize (IH (fun k => clock (S k)) s1 H1 H2).
  destruct (TodoService.createMany rest _ s1) as [s2 [ts|e]]; assumption.
Qed.

Lemma update_keeps_hierarchy (i : Z) (data : TodoUpdateInput) (now : Timestamp)
    (s : Store) :
  tui_parent_id data = None -> hierarchy_ok s = true ->
  hierarchy_ok (fst (TodoService.update i data now s)) = true.
Proof.
  intros Hnp Hh. destruct (select_todo i s) as [t|] eqn:Hsel.
  - rewrite (update_existing s i data now t Hsel).
    destruct (first_violation s data now _); [assumption|]. simpl.
    rewrite hierarchy_ok_iff in *. intros r' Hr'. simpl in Hr'.
    apply in_map_iff in Hr'. destruct Hr' as [r [<- Hr]].
    specialize (Hh r Hr). unfold update_todo_row.
    destruct (Todo.id r =? i); [|assumption].
    unfold level_matches_parent in *. simpl. now rewrite Hnp.
  - unfold TodoService.update, bind, TodoService.getById, read.
    rewrite Hsel. assumption.
Qed.

Lemma delete_keeps_hierarchy (i : Z) (s : Store) :
  hierarchy_ok s = true -> hierarchy_ok (fst (TodoService.delete i s)) = true.
Proof.
  intros Hh. destruct (select_todo i s) as [t|] eqn:Hsel.
  - rewrite (delete_existing s i t Hsel). simpl.
    rewrite hierarchy_ok_iff in *. intros r Hr. simpl in Hr. apply Hh.
    destruct (cascade_closed _ [i]
                (filter (fun r => negb (Todo.id r =? i)) (todos s)) (le_n _))
      as [Hincl _].
    apply Hincl in Hr. now apply filter_In in Hr.
  - unfold TodoService.delete, bind, TodoService.getById, read.
    rewrite Hsel. assumption.
Qed.

Lemma call_keeps_hierarchy (c : TodoCall) (s : Store) :
  assigns_parent c = false ->
  store_ok s = true -> hierarchy_ok s = true -> hierarchy_ok (call c s) = true.
Proof.
  destruct c; simpl; intros Hc Hok Hh.
  - now apply create_keeps_hierarchy.
  - now apply createMany_keeps_hierarchy.
  - apply update_keeps_hierarchy; [|assumption].
    destruct (tui_parent_id data); [discriminate | reflexivity].
  - now apply update_keeps_hierarchy.
  - now apply delete_keeps_hierarchy.
Qed.

(** From the empty store, calls none of which reassigns a parent leave a
    store in which every row obeys the hierarchy rule. *)
Lemma hierarchy_holds_without_reparenting (calls : list TodoCall) :
  forallb (fun c => negb (assigns_parent c)) calls = true ->
  hierarchy_ok (run calls createTestDb) = true.
Proof.
  assert (G : forall s, store_ok s = true -> hierarchy_ok s = true ->
              forallb (fun c => negb (assigns_parent c)) calls = true ->
              hierarchy_ok (run calls s) = true).
  { induction calls as [|c calls IH]; intros s Hok Hh Hall; [assumption|].
    simpl in Hall. apply andb_true_iff in Hall. destruct Hall as [Hc Hall].
    apply negb_true_iff in Hc. simpl. apply IH; [| |assumption].
    - now apply call_keeps_store_ok.
    - now apply call_keeps_hierarchy. }
  apply G; reflexivity.
Qed.

(* ================================================================== *)
(** * The schema invariant over both services *)

Lemma project_call_keeps_store_ok (c : ProjectCall) (s : Store) :
  store_ok s = true -> store_ok (project_call c s) = true.
Proof.
  destruct c; simpl.
  - apply project_create_keeps_store_ok.
  - apply project_update_keeps_store_ok.
  - apply project_delete_keeps_store_ok.
  - apply milestone_create_keeps_store_ok.
  - apply milestone_complete_keeps_store_ok.
  - apply milestone_delete_keeps_store_ok.
Qed.



(* ================================================================== *)
(** * What each service leaves alone *)

Lemma create_leaves_projects (data : TodoCreateInput) (now : Timestamp) (s : Store) :
  same_projects_and_milestones s (fst (TodoService.create data now s)).
Proof.
  destruct (TodoService.create data now s) as [s' out] eqn:E.
  pose proof (create_result data now s s' out E) as R. simpl.
  destruct out as [t|e].
  - destruct R as [-> _]. repeat split.
  - subst. repeat split.
Qed.

Lemma createMany_leaves_projects (items : list TodoCreateInput) :
  forall (clock : nat -> Timestamp) (s : Store),
    same_projects_and_milestones s (fst (TodoService.createMany items clock s)).
Proof.
  induction items as [|item rest IH]; intros clock s; [repeat split|].
  rewrite createMany_cons.
  pose proof (create_leaves_projects item (clock O) s) as H1.
  destruct (TodoService.create item (clock O) s) as [s1 [t|e]]; simpl in H1;
    [|exact H1].
  specialize (IH (fun k => clock (S k)) s1).
  destruct (TodoService.createMany rest _ s1) as [s2 [ts|e]]; simpl in *;
    unfold same_projects_and_milestones in *;
    destruct H1 as (A1 & A2 & A3 & A4), IH as (B1 & B2 & B3 & B4);
    repeat split; congruence.
Qed.

Lemma update_leaves_projects (i : Z) (data : TodoUpdateInput) (now : Timestamp)
    (s : Store) :
  same_projects_and_milestones s (fst (TodoService.update i data now s)).
Proof.
  destruct (select_todo i s) as [t|] eqn:Hsel.
  - rewrite (update_existing s i data now t Hsel).
    destruct (first_violation s data now _); repeat split.
  - unfold TodoService.update, bind, TodoService.getById, read.
    rewrite Hsel. repeat split.
Qed.

Lemma delete_leaves_projects (i : Z) (s : Store) :
  same_projects_and_milestones s (fst (TodoService.delete i s)).
Proof.
  destruct (select_todo i s) as [t|] eqn:Hsel.
  - rewrite (delete_existing s i t Hsel). repeat split.
  - unfold TodoService.delete, bind, TodoService.getById, read.
    rewrite Hsel. repeat split.
Qed.

Lemma call_leaves_projects (c : TodoCall) (s : Store) :
  same_projects_and_milestones s (call c s).
Proof.
  destruct c; simpl.
  - apply create_leaves_projects.
  - apply createMany_leaves_projects.
  - apply update_leaves_projects.
  - apply update_leaves_projects.
  - apply delete_leaves_projects.
Qed.

(** X2.  No call on [TodoService] ever writes to the projects or the
    milestones: whatever the call and its outcome, both tables and their
    counters are as before.  In particular completing todos never marks a
    milestone reached and never changes the status of a project. *)
Theorem todo_calls_leave_projects_and_milestones :
  forall (c : TodoCall) (s : Store),
    projects (call c s) = projects s
    /\ milestones (call c s) = milestones s
    /\ seq_projects (call c s) = seq_projects s
    /\ seq_milestones (call c s) = seq_milestones s.
Proof.
  intros c s. destruct c; simpl.
  - apply create_leaves_projects.
  - apply createMany_leaves_projects.
  - apply update_leaves_projects.
  - apply update_leaves_projects.
  - apply delete_leaves_projects.
Qed.

Lemma only_detached_refl (t : Todo.t) : only_detached t t.
Proof. unfold only_detached. repeat split; auto. Qed.

Lemma only_detached_detach (gp gm : list Z) (t : Todo.t) :
  only_detached t (detach gp gm t).
Proof.
  unfold only_detached, detach; simpl.
  repeat (split; [reflexivity|]). split.
  - destruct (Todo.project_id t) as [k|]; [|now left].
    destruct (mem_Z k gp); [now right | now left].
  - destruct (Todo.milestone_id t) as [k|]; [|now left].
    destruct (mem_Z k gm); [now right | now left].
Qed.

Lemma Forall2_refl_on {A} (R : A -> A -> Prop) (l : list A) :
  (forall x, R x x) -> Forall2 R l l.
Proof. intros H. induction l; constructor; auto. Qed.

Lemma Forall2_map_r {A} (R : A -> A -> Prop) (f : A -> A) (l : list A) :
  (forall x, R x (f x)) -> Forall2 R l (map f l).
Proof. intros H. induction l; simpl; constructor; auto. Qed.

(** X3.  No call on [ProjectService] ever adds, removes, reorders or edits
    a todo: after the call the todos are the same rows in the same order,
    each with every field as before except that [project_id] or
    [milestone_id] may have become NULL; the todo counter is unchanged. *)
Theorem project_calls_only_detach_todos :
  forall (c : ProjectCall) (s : Store),
    Forall2 only_detached (todos s) (todos (project_call c s))
    /\ seq_todos (project_call c s) = seq_todos s.
Proof.
  intros c s. destruct c; simpl; enter_service;
    (split; [|reflexivity]); cbn [todos];
    first [ apply Forall2_refl_on; apply only_detached_refl
          | apply Forall2_map_r; apply only_detached_detach ].
Qed.

(* ================================================================== *)
(** * Missing ids *)

(** X4.  Every method that takes the id of a project, a milestone or a
    todo, called with an id no row has, throws the 404 error of that table
    and leaves the store exactly as it was: nothing is updated, deleted or
    inserted before the existence check. *)
Theorem missing_id_throws_and_writes_nothing :
  forall (s : Store) (i : Z),
    (select_project i s = None ->
       (forall data now,
           ProjectService.update i data now s = (s, Throw PROJECT_NOT_FOUND))
       /\ ProjectService.delete i s = (s, Throw PROJECT_NOT_FOUND)
       /\ ProjectService.getMilestones i s = (s, Throw PROJECT_NOT_FOUND)
       /\ (forall title target_date now,
             ProjectService.createMilestone
               {| mci_project_id := i; mci_title := title;
                  mci_target_date := target_date |} now s
             = (s, Throw PROJECT_NOT_FOUND)))
    /\ (select_milestone i s = None ->
          ProjectService.getMilestoneById i s = (s, Throw MILESTONE_NOT_FOUND)
          /\ (forall undo,
                ProjectService.completeMilestone i undo s
                = (s, Throw MILESTONE_NOT_FOUND))
          /\ ProjectService.deleteMilestone i s = (s, Throw MILESTONE_NOT_FOUND))
    /\ (select_todo i s = None ->
          (forall data now,
              TodoService.update i data now s = (s, Throw TODO_NOT_FOUND))
          /\ (forall status now,
                TodoService.updateStatus i status now s = (s, Throw TODO_NOT_FOUND))
          /\ TodoService.delete i s = (s, Throw TODO_NOT_FOUND)).
Proof.
  intros s i. split; [|split].
  - intros H. split; [|split; [|split]]; intros;
      unfold ProjectService.update, ProjectService.delete,
        ProjectService.getMilestones, ProjectService.createMilestone, bind,
        ProjectService.getById, read; cbn [mci_project_id]; now rewrite H.
  - intros H. split; [|split]; intros;
      unfold ProjectService.completeMilestone, ProjectService.deleteMilestone,
        bind, ProjectService.getMilestoneById, read; now rewrite H.
  - intros H. split; [|split]; intros;
      unfold TodoService.updateStatus, TodoService.update, TodoService.delete,
        bind, TodoService.getById, read; now rewrite H.
Qed.

Lemma missing_id_throws_and_writes_nothing_witness :
  ProjectService.delete 7 store_scenario = (store_scenario, Throw PROJECT_NOT_FOUND)
  /\ ProjectService.deleteMilestone 7 store_scenario
     = (store_scenario, Throw MILESTONE_NOT_FOUND)
  /\ TodoService.delete 7 store_scenario = (store_scenario, Throw TODO_NOT_FOUND).
Proof.
  destruct (missing_id_throws_and_writes_nothing store_scenario 7) as (HP & HM & HT).
  split; [|split].
  - exact (proj1 (proj2 (HP eq_refl))).
  - exact (proj2 (proj2 (HM eq_refl))).
  - exact (proj2 (proj2 (HT eq_refl))).
Defined.

(* ================================================================== *)
(** * Deleting a project, deleting a milestone *)

Lemma find_filter_out {A} (key : A -> Z) (i : Z) (l : list A) :
  find (fun x => key x =? i) (filter (fun x => negb (key x =? i)) l) = None.
Proof.
  induction l as [|a l IH]; simpl; [reflexivity|].
  destruct (key a =? i) eqn:E; simpl; [assumption|]. now rewrite E.
Qed.

Lemma project_delete_existing (s : Store) (i : Z) (p : Project.t) :
  select_project i s = Some p ->
  ProjectService.delete i s =
    ({| projects := filter (fun p => negb (Project.id p =? i)) (projects s);
        milestones := filter (fun m => negb (Milestone.project_id m =? i)) (milestones s);
        todos := map (detach [i]
                        (map Milestone.id
                           (filter (fun m => Milestone.project_id m =? i)
                                   (milestones s))))
                     (todos s);
        seq_projects := seq_projects s;
        seq_milestones := seq_milestones s;
        seq_todos := seq_todos s |}, Return i).
Proof.
  intros H. unfold ProjectService.delete, bind, ProjectService.getById, read.
  rewrite H. reflexivity.
Qed.

(** X5.  Deleting an existing project returns its id and leaves a store
    without that project (a second delete or a read of it fails with 404)
    and without its milestones, the other projects and milestones being
    untouched.  No todo is deleted: each keeps its place and all its
    fields, except that [project_id] is NULL where it pointed at the
    project and [milestone_id] is NULL where it pointed at one of its
    milestones; no todo refers to the project any more. *)
Theorem project_delete_detaches_todos :
  forall (s : Store) (i : Z) (p : Project.t),
    select_project i s = Some p ->
    exists s',
      ProjectService.delete i s = (s', Return i)
      /\ ProjectService.getById i s' = (s', Throw PROJECT_NOT_FOUND)
      /\ ProjectService.delete i s' = (s', Throw PROJECT_NOT_FOUND)
      /\ (forall q, In q (projects s') <-> In q (projects s) /\ Project.id q <> i)
      /\ (forall m, In m (milestones s') <->
                    In m (milestones s) /\ Milestone.project_id m <> i)
      /\ Forall2
           (fun t t' =>
              only_detached t t'
              /\ Todo.project_id t'
                 = (if opt_Z_eqb (Todo.project_id t) i then None else Todo.project_id t)
              /\ (Todo.milestone_id t' = None <->
                  Todo.milestone_id t = None
                  \/ exists m, In m (milestones s)
                               /\ Milestone.project_id m = i
                               /\ Todo.milestone_id t = Some (Milestone.id m)))
           (todos s) (todos s')
      /\ (forall t', In t' (todos s') -> Todo.project_id t' <> Some i).
Proof.
  intros s i p Hsel. rewrite (project_delete_existing s i p Hsel).
  eexists. split; [reflexivity|].
  set (gone := map Milestone.id
                 (filter (fun m => Milestone.project_id m =? i) (milestones s))).
  assert (Hnone : forall s0, projects s0 = filter (fun p => negb (Project.id p =? i))
                                            (projects s) ->
                             select_project i s0 = None).
  { intros s0 E. unfold select_project. rewrite E.
    apply (find_filter_out Project.id). }
  split.
  { unfold ProjectService.getById, read. now rewrite Hnone. }
  split.
  { unfold ProjectService.delete, bind, ProjectService.getById, read.
    now rewrite Hnone. }
  split.
  { intros q. cbn [projects]. rewrite filter_In, negb_true_iff, Z.eqb_neq. tauto. }
  split.
  { intros m. cbn [milestones]. rewrite filter_In, negb_true_iff, Z.eqb_neq. tauto. }
  assert (Hrow : forall t,
             Todo.project_id (detach [i] gone t)
             = (if opt_Z_eqb (Todo.project_id t) i then None else Todo.project_id t)).
  { intros t. cbn [detach Todo.project_id].
    destruct (Todo.project_id t) as [k|]; [|reflexivity]. simpl.
    rewrite orb_false_r. reflexivity. }
  split.
  - cbn [todos]. apply Forall2_map_r. intros t.
    split; [apply only_detached_detach|]. split; [apply Hrow|].
    cbn [detach Todo.milestone_id].
    destruct (Todo.milestone_id t) as [k|] eqn:Ek.
    + destruct (mem_Z k gone) eqn:G.
      * split; [|reflexivity]. intros _. right.
        apply mem_Z_In in G. unfold gone in G. apply in_map_iff in G.
        destruct G as [m [Hm Hin]]. apply filter_In in Hin.
        destruct Hin as [Hin Hp]. apply Z.eqb_eq in Hp.
        exists m. repeat split; [assumption | assumption | congruence].
      * split; [discriminate|]. intros [H|[m (Hin & Hp & Hk)]]; [discriminate|].
        exfalso. inversion Hk; subst k.
        assert (In (Milestone.id m) gone).
        { unfold gone. apply in_map. apply filter_In. split; [assumption|].
          now apply Z.eqb_eq. }
        apply mem_Z_In in H. congruence.
    + split; [now left | reflexivity].
  - intros t' Ht'. cbn [todos] in Ht'. apply in_map_iff in Ht'.
    destruct Ht' as [t [<- _]]. rewrite Hrow.
    destruct (Todo.project_id t) as [k|]; simpl; [|discriminate].
    destruct (k =? i) eqn:E; [discriminate|].
    apply Z.eqb_neq in E. congruence.
Qed.

Lemma project_delete_detaches_todos_witness :
  exists s',
    ProjectService.delete 1 store_with_milestone = (s', Return 1)
    /\ ProjectService.getById 1 s' = (s', Throw PROJECT_NOT_FOUND)
    /\ milestones s' = []
    /\ length (todos s') = 2%nat
    /\ (forall t', In t' (todos s') -> Todo.project_id t' <> Some 1).
Proof.
  destruct (project_delete_detaches_todos store_with_milestone 1
              (Project.mk 1 "P" None PS_active "2026-03-01 08:00:00"
                 "2026-03-01 08:00:00") eq_refl)
    as (s' & Hrun & Hget & _ & _ & _ & _ & Hno).
  exists s'. split; [exact Hrun|]. split; [exact Hget|].
  vm_compute in Hrun. inversion Hrun; subst s'.
  split; [reflexivity|]. split; [reflexivity | exact Hno].
Defined.

(* ================================================================== *)
(** * Primary keys *)

Lemma distinct_NoDup (l : list Z) : distinct l = true <-> NoDup l.
Proof.
  induction l as [|x l IH]; simpl.
  - split; [constructor | reflexivity].
  - rewrite andb_true_iff, negb_true_iff, IH. split.
    + intros [Hx Hl]. constructor; [|assumption].
      intros Hin. apply mem_Z_In in Hin. congruence.
    + intros H. inversion H; subst. split; [|assumption].
      destruct (mem_Z x l) eqn:E; [|reflexivity].
      apply mem_Z_In in E. contradiction.
Qed.

Lemma keys_in_iff (seq : Z) (ids : list Z) :
  keys_in seq ids = true <-> NoDup ids /\ forall i, In i ids -> i <= seq.
Proof.
  unfold keys_in. rewrite andb_true_iff, distinct_NoDup, forallb_forall.
  split; intros [A B]; (split; [assumption|]); intros i Hi.
  - apply Z.leb_le. now apply B.
  - apply Z.leb_le. now apply B.
Qed.

Lemma keys_ok_iff (s : Store) :
  keys_ok s = true <->
  keys_in (seq_projects s) (project_ids s) = true
  /\ keys_in (seq_milestones s) (milestone_ids s) = true
  /\ keys_in (seq_todos s) (todo_ids s) = true.
Proof.
  unfold keys_ok. rewrite !andb_true_iff. tauto.
Qed.

Lemma keys_in_insert (seq : Z) (ids : list Z) :
  keys_in seq ids = true ->
  keys_in (next_rowid seq ids) (ids ++ [next_rowid seq ids]) = true.
Proof.
  intros H. apply keys_in_iff in H. destruct H as [Hnd Hle].
  destruct (next_rowid_above seq ids) as [Hseq Hids].
  apply keys_in_iff. split.
  - apply NoDup_app; [assumption | repeat constructor; intros [] |].
    intros x Hx [<-|[]]. apply Hids in Hx. lia.
  - intros i Hi. apply in_app_iff in Hi. destruct Hi as [Hi|[<-|[]]]; [|lia].
    apply Hids in Hi. lia.
Qed.

Lemma NoDup_map_filter {A} (key : A -> Z) (f : A -> bool) (l : list A) :
  NoDup (map key l) -> NoDup (map key (filter f l)).
Proof.
  induction l as [|a l IH]; simpl; intros H; [constructor|].
  inversion H; subst. destruct (f a); simpl; [|now apply IH].
  constructor; [|now apply IH].
  intros Hin. apply in_map_iff in Hin. destruct Hin as [x [Hx Hin]].
  apply filter_In in Hin. destruct Hin as [Hin _].
  match goal with Hn : ~ In _ _ |- _ => apply Hn end.
  rewrite <- Hx. now apply in_map.
Qed.

Lemma keys_in_filter {A} (key : A -> Z) (f : A -> bool) (seq : Z) (l : list A) :
  keys_in seq (map key l) = true -> keys_in seq (map key (filter f l)) = true.
Proof.
  intros H. apply keys_in_iff in H. destruct H as [Hnd Hle].
  apply keys_in_iff. split; [now apply NoDup_map_filter|].
  intros i Hi. apply Hle. apply in_map_iff in Hi. destruct Hi as [x [<- Hx]].
  apply filter_In in Hx. apply in_map. tauto.
Qed.

Lemma keys_in_cascade (seq : Z) (n : nat) :
  forall (deleted : list Z) (rows : list Todo.t),
    keys_in seq (map Todo.id rows) = true ->
    keys_in seq (map Todo.id (cascade n deleted rows)) = true.
Proof.
  induction n as [|n IH]; intros deleted rows H; [exact H|].
  rewrite cascade_step.
  destruct (filter (orphan_of deleted) rows) as [|g gone]; [exact H|].
  apply IH. now apply keys_in_filter.
Qed.

Lemma create_keeps_keys (data : TodoCreateInput) (now : Timestamp) (s : Store) :
  keys_ok s = true -> keys_ok (fst (TodoService.create data now s)) = true.
Proof.
  intros H. destruct (TodoService.create data now s) as [s' out] eqn:E.
  pose proof (create_result data now s s' out E) as R. simpl.
  destruct out as [t|e]; [|now subst].
  destruct R as (-> & Hid & _). apply keys_ok_iff in H.
  destruct H as (HP & HM & HT). apply keys_ok_iff.
  split; [exact HP|]. split; [exact HM|].
  unfold todo_ids; cbn [todos seq_todos set_todos]. rewrite map_app. simpl map.
  rewrite Hid. now apply keys_in_insert.
Qed.

Lemma createMany_keeps_keys (items : list TodoCreateInput) :
  forall (clock : nat -> Timestamp) (s : Store),
    keys_ok s = true -> keys_ok (fst (TodoService.createMany items clock s)) = true.
Proof.
  induction items as [|item rest IH]; intros clock s H; [exact H|].
  rewrite createMany_cons.
  pose proof (create_keeps_keys item (clock O) s H) as H1.
  destruct (TodoService.create item (clock O) s) as [s1 [t|e]]; simpl in H1;
    [|exact H1].
  specialize (IH (fun k => clock (S k)) s1 H1).
  destruct (TodoService.createMany rest _ s1) as [s2 [ts|e]]; exact IH.
Qed.

Lemma update_keeps_keys (i : Z) (data : TodoUpdateInput) (now : Timestamp)
    (s : Store) :
  keys_ok s = true -> keys_ok (fst (TodoService.update i data now s)) = true.
Proof.
  intros H. destruct (select_todo i s) as [t|] eqn:Hsel.
  - rewrite (update_existing s i data now t Hsel).
    destruct (first_violation _ _ _ _); [exact H|].
    apply keys_ok_iff in H. destruct H as (HP & HM & HT). apply keys_ok_iff.
    split; [exact HP|]. split; [exact HM|].
    unfold todo_ids; cbn [fst todos seq_todos set_todos].
    now rewrite map_id_update_todo_row.
  - unfold TodoService.update, bind, TodoService.getById, read.
    rewrite Hsel. exact H.
Qed.

Lemma delete_keeps_keys (i : Z) (s : Store) :
  keys_ok s = true -> keys_ok (fst (TodoService.delete i s)) = true.
Proof.
  intros H. destruct (select_todo i s) as [t|] eqn:Hsel.
  - rewrite (delete_existing s i t Hsel).
    apply keys_ok_iff in H. destruct H as (HP & HM & HT). apply keys_ok_iff.
    split; [exact HP|]. split; [exact HM|].
    unfold todo_ids; cbn [fst todos seq_todos set_todos].
    apply keys_in_cascade. now apply keys_in_filter.
  - unfold TodoService.delete, bind, TodoService.getById, read.
    rewrite Hsel. exact H.
Qed.

Lemma call_keeps_keys (c : TodoCall) (s : Store) :
  keys_ok s = true -> keys_ok (call c s) = true.
Proof.
  destruct c; simpl.
  - apply create_keeps_keys.
  - apply createMany_keeps_keys.
  - apply update_keeps_keys.
  - apply update_keeps_keys.
  - apply delete_keeps_keys.
Qed.

Lemma map_id_set_milestone_status (st : MilestoneStatus) (i : Z)
    (rows : list Milestone.t) :
  map Milestone.id
    (map (fun m => if Milestone.id m =? i then set_milestone_status st m else m) rows)
  = map Milestone.id rows.
Proof.
  rewrite map_map. apply map_ext. intros m.
  now destruct (Milestone.id m =? i).
Qed.

Lemma project_call_keeps_keys (c : ProjectCall) (s : Store) :
  keys_ok s = true -> keys_ok (project_call c s) = true.
Proof.
  intros H. pose proof H as H0. apply keys_ok_iff in H.
  destruct H as (HP & HM & HT).
  destruct c; simpl; enter_service; try exact H0; apply keys_ok_iff;
    unfold project_ids, milestone_ids, todo_ids in *;
    cbn [projects milestones todos seq_projects seq_milestones seq_todos
         set_projects set_milestones];
    rewrite ?map_id_detach, ?map_id_update_project_row,
      ?map_id_set_milestone_status, ?map_app;
    simpl map;
    (split; [|split]);
    solve [ assumption | now apply keys_in_insert | now apply keys_in_filter ].
Qed.

Lemma service_call_keeps_keys (c : ServiceCall) (s : Store) :
  keys_ok s = true -> keys_ok (service_call c s) = true.
Proof.
  destruct c; simpl; [apply call_keeps_keys | apply project_call_keeps_keys].
Qed.

Lemma run_calls_keeps_keys (calls : list ServiceCall) :
  forall s, keys_ok s = true -> keys_ok (run_calls calls s) = true.
Proof.
  induction calls as [|c calls IH]; intros s H; [exact H|].
  simpl. apply IH. now apply service_call_keeps_keys.
Qed.

Lemma find_unique {A} (key : A -> Z) (l : list A) (x : A) :
  NoDup (map key l) -> In x l ->
  find (fun y => key y =? key x) l = Some x.
Proof.
  induction l as [|a l IH]; simpl; intros Hnd Hin; [contradiction|].
  inversion Hnd; subst. destruct Hin as [->|Hin].
  - now rewrite Z.eqb_refl.
  - destruct (key a =? key x) eqn:E; [|now apply IH].
    apply Z.eqb_eq in E. exfalso.
    match goal with Hn : ~ In _ _ |- _ => apply Hn end.
    rewrite E. now apply in_map.
Qed.

(** X6.  Primary keys stay primary keys: every writing method of both
    services takes a store in which no two rows of a table share an id and
    the AUTOINCREMENT counters bound the ids to a store of the same kind,
    and every sequence of calls from the empty database ends in one.  In
    such a store a row is what [getById] returns for its id: the lookup by
    id finds every row of the three tables. *)
Theorem primary_keys_kept :
  (forall (s : Store) (c : ServiceCall),
      keys_ok s = true -> keys_ok (service_call c s) = true)
  /\ (forall calls : list ServiceCall,
        keys_ok (run_calls calls createTestDb) = true)
  /\ (forall s : Store,
        keys_ok s = true ->
        (forall t, In t (todos s) ->
                   TodoService.getById (Todo.id t) s = (s, Return t))
        /\ (forall p, In p (projects s) ->
                      select_project (Project.id p) s = Some p)
        /\ (forall m, In m (milestones s) ->
                      select_milestone (Milestone.id m) s = Some m)).
Proof.
  split; [intros s c; apply service_call_keeps_keys|].
  split; [intros calls; now apply run_calls_keeps_keys|].
  intros s H. apply keys_ok_iff in H. destruct H as (HP & HM & HT).
  apply keys_in_iff in HP, HM, HT.
  split; [|split].
  - intros t Ht. unfold TodoService.getById, read, select_todo.
    now rewrite (find_unique Todo.id (todos s) t (proj1 HT) Ht).
  - intros p Hp. apply (find_unique Project.id); [exact (proj1 HP) | exact Hp].
  - intros m Hm. apply (find_unique Milestone.id); [exact (proj1 HM) | exact Hm].
Qed.

Lemma primary_keys_kept_witness :
  keys_ok (service_call (OnTodos (Delete 1)) store_scenario) = true.
Proof.
  apply (proj1 primary_keys_kept store_scenario (OnTodos (Delete 1))).
  vm_compute. reflexivity.
Defined.

(* ================================================================== *)
(** * Creating a project, creating a milestone *)

Lemma project_create_returns (data : ProjectCreateInput) (now : Timestamp) (s : Store) :
  let rowid := next_rowid (seq_projects s) (project_ids s) in
  let row := Project.mk rowid (pci_name data) (pci_description data) PS_active now now in
  let s' := set_projects s (projects s ++ [row]) rowid in
  ProjectService.create data now s = (s', Return (ProjectService.attachProgress row s')).
Proof.
  intros rowid row s'.
  unfold ProjectService.create, bind, insert_project, ProjectService.getById, read.
  fold rowid. fold row. fold s'.
  assert (H : select_project rowid s' = Some row).
  { unfold select_project, s'. cbn [projects set_projects].
    apply find_app_fresh.
    - intros y Hy. apply Z.eqb_neq.
      destruct (next_rowid_above (seq_projects s) (project_ids s)) as [_ Hids].
      assert (Project.id y < rowid); [|lia].
      apply Hids. unfold project_ids. now apply in_map.
    - apply Z.eqb_refl. }
  now rewrite H.
Qed.

Lemma milestone_create_returns (data : MilestoneCreateInput) (now : Timestamp)
    (s : Store) (p : Project.t) :
  select_project (mci_project_id data) s = Some p ->
  let rowid := next_rowid (seq_milestones s) (milestone_ids s) in
  let row := Milestone.mk rowid (mci_project_id data) (mci_title data)
               (mci_target_date data) MS_pending now in
  let s' := set_milestones s (milestones s ++ [row]) rowid in
  ProjectService.createMilestone data now s
  = (s', Return (ProjectService.attachMilestoneProgress row s')).
Proof.
  intros Hsel rowid row s'.
  unfold ProjectService.createMilestone, bind, ProjectService.getById, read.
  rewrite Hsel. unfold insert_milestone.
  assert (Hmem : mem_Z (mci_project_id data) (project_ids s) = true).
  { apply mem_Z_In. apply select_project_In in Hsel. destruct Hsel as [Hin <-].
    unfold project_ids. now apply in_map. }
  rewrite Hmem. cbv beta iota zeta. fold rowid. fold row. fold s'.
  unfold ProjectService.getMilestoneById.
  assert (H : select_milestone rowid s' = Some row).
  { unfold select_milestone, s'. cbn [milestones set_milestones].
    apply find_app_fresh.
    - intros y Hy. apply Z.eqb_neq.
      destruct (next_rowid_above (seq_milestones s) (milestone_ids s)) as [_ Hids].
      assert (Milestone.id y < rowid); [|lia].
      apply Hids. unfold milestone_ids. now apply in_map.
    - apply Z.eqb_refl. }
  unfold read. now rewrite H.
Qed.

Lemma count_where_none (f : Todo.t -> bool) (s : Store) :
  (forall t, In t (todos s) -> f t = false) -> count_where f s = JS.of_Z 0.
Proof.
  intros H. unfold count_where.
  replace (filter f (todos s)) with (@nil Todo.t); [reflexivity|].
  symmetry. induction (todos s) as [|a l IH]; [reflexivity|]. simpl.
  rewrite (H a (or_introl eq_refl)). apply IH. intros t Ht. apply H. now right.
Qed.

Lemma no_progress_without_todos {A} (r : A) (f g : Todo.t -> bool) (s : Store) :
  (forall t, In t (todos s) -> f t = false) ->
  {| record := r;
     total_tasks := count_where f s;
     completed_tasks := count_where (fun t => f t && g t) s;
     progress_percent :=
       ProjectService.percent (count_where (fun t => f t && g t) s) (count_where f s) |}
  = {| record := r; total_tasks := JS.of_Z 0; completed_tasks := JS.of_Z 0;
       progress_percent := JS.of_Z 0 |}.
Proof.
  intros H. rewrite (count_where_none f s H).
  rewrite (count_where_none (fun t => f t && g t) s).
  - reflexivity.
  - intros t Ht. now rewrite (H t Ht).
Qed.

(** X7.  [ProjectService.create] never throws.  It appends one project,
    with the name and description supplied, status [active], both
    timestamps the time of the call and an id above every id of the
    table; milestones and todos are untouched; [getById] on the new id
    returns what [create] returned.  In a store that satisfies the schema
    the new project counts no todo: 0 of 0 tasks, 0 percent. *)
Theorem project_create_appends_an_empty_project :
  forall (s : Store) (data : ProjectCreateInput) (now : Timestamp),
    exists s' p,
      ProjectService.create data now s = (s', Return p)
      /\ record p = Project.mk (Project.id (record p)) (pci_name data)
                      (pci_description data) PS_active now now
      /\ (forall q, In q (projects s) -> Project.id q < Project.id (record p))
      /\ seq_projects s < Project.id (record p)
      /\ projects s' = projects s ++ [record p]
      /\ milestones s' = milestones s /\ todos s' = todos s
      /\ ProjectService.getById (Project.id (record p)) s' = (s', Return p)
      /\ (store_ok s = true ->
          p = {| record := record p; total_tasks := JS.of_Z 0;
                 completed_tasks := JS.of_Z 0; progress_percent := JS.of_Z 0 |}).
Proof.
  intros s data now. pose proof (project_create_returns data now s) as E.
  cbv zeta in E.
  set (rowid := next_rowid (seq_projects s) (project_ids s)) in *.
  set (row := Project.mk rowid (pci_name data) (pci_description data) PS_active now now) in *.
  set (s' := set_projects s (projects s ++ [row]) rowid) in *.
  destruct (next_rowid_above (seq_projects s) (project_ids s)) as [Hseq Hids].
  exists s', (ProjectService.attachProgress row s').
  split; [exact E|]. split; [reflexivity|].
  split.
  { intros q Hq. apply Hids. unfold project_ids. now apply in_map. }
  split; [exact Hseq|].
  split; [reflexivity|]. split; [reflexivity|]. split; [reflexivity|].
  split.
  { unfold ProjectService.create, bind, insert_project in E.
    fold rowid in E. fold row in E. fold s' in E. exact E. }
  intros Hok. unfold ProjectService.attachProgress. cbn [record].
  apply (no_progress_without_todos row
           (fun t => opt_Z_eqb (Todo.project_id t) (Project.id row))
           (fun t => TodoStatus_eqb (Todo.status t) completed)).
  intros t Ht. cbn [todos s' set_projects] in Ht.
  destruct (store_ok_todo s t Hok Ht) as [_ Hrefs].
  unfold todo_refs_ok in Hrefs. rewrite !andb_true_iff in Hrefs.
  destruct Hrefs as [[Hp _] _].
  destruct (Todo.project_id t) as [k|]; [|reflexivity]. simpl in Hp |- *.
  apply mem_Z_In in Hp. apply Hids in Hp. apply Z.eqb_neq. fold rowid in Hp. lia.
Qed.

Lemma project_create_appends_an_empty_project_witness :
  exists s' p,
    ProjectService.create {| pci_name := "Q"; pci_description := None |}
      "2026-03-05 08:00:00" store_scenario = (s', Return p)
    /\ Project.id (record p) = 2
    /\ progress_percent p = JS.of_Z 0.
Proof.
  destruct (project_create_appends_an_empty_project store_scenario
              {| pci_name := "Q"; pci_description := None |} "2026-03-05 08:00:00")
    as (s' & p & E & _ & _ & _ & _ & _ & _ & _ & Hzero).
  exists s', p. split; [exact E|].
  specialize (Hzero eq_refl). vm_compute in E. inversion E; subst; clear E.
  split; reflexivity.
Defined.



(* ================================================================== *)
(** * Ids are never handed out twice *)

Lemma create_seq_todos_grows (data : TodoCreateInput) (now : Timestamp) (s : Store) :
  seq_todos s <= seq_todos (fst (TodoService.create data now s)).
Proof.
  destruct (TodoService.create data now s) as [s' out] eqn:E.
  pose proof (create_result data now s s' out E) as R. simpl.
  destruct out as [t|e]; [|subst; lia].
  destruct R as (-> & Hid & _). cbn [seq_todos set_todos]. rewrite Hid.
  destruct (next_rowid_above (seq_todos s) (todo_ids s)). lia.
Qed.

Lemma createMany_seq_todos_grows (items : list TodoCreateInput) :
  forall (clock : nat -> Timestamp) (s : Store),
    seq_todos s <= seq_todos (fst (TodoService.createMany items clock s)).
Proof.
  induction items as [|item rest IH]; intros clock s; [simpl; lia|].
  rewrite createMany_cons. pose proof (create_seq_todos_grows item (clock O) s) as H1.
  destruct (TodoService.create item (clock O) s) as [s1 [t|e]]; simpl in H1;
    [|exact H1].
  specialize (IH (fun k => clock (S k)) s1).
  destruct (TodoService.createMany rest _ s1) as [s2 [ts|e]]; simpl in *; lia.
Qed.

Lemma update_seq_todos (i : Z) (data : TodoUpdateInput) (now : Timestamp) (s : Store) :
  seq_todos (fst (TodoService.update i data now s)) = seq_todos s.
Proof.
  destruct (select_todo i s) as [t|] eqn:Hsel.
  - rewrite (update_existing s i data now t Hsel).
    now destruct (first_violation _ _ _ _).
  - unfold TodoService.update, bind, TodoService.getById, read. now rewrite Hsel.
Qed.

Lemma delete_seq_todos (i : Z) (s : Store) :
  seq_todos (fst (TodoService.delete i s)) = seq_todos s.
Proof.
  destruct (select_todo i s) as [t|] eqn:Hsel.
  - now rewrite (delete_existing s i t Hsel).
  - unfold TodoService.delete, bind, TodoService.getById, read. now rewrite Hsel.
Qed.

Lemma service_call_counters_grow (c : ServiceCall) (s : Store) :
  seq_projects s <= seq_projects (service_call c s)
  /\ seq_milestones s <= seq_milestones (service_call c s)
  /\ seq_todos s <= seq_todos (service_call c s).
Proof.
  destruct c as [c|c]; simpl.
  - destruct (call_leaves_projects c s) as (_ & _ & -> & ->).
    split; [lia|]. split; [lia|].
    destruct c; simpl.
    + apply create_seq_todos_grows.
    + apply createMany_seq_todos_grows.
    + rewrite update_seq_todos. lia.
    + unfold TodoService.updateStatus. rewrite update_seq_todos. lia.
    + rewrite delete_seq_todos. lia.
  - destruct c; simpl; enter_service;
      cbn [seq_projects seq_milestones seq_todos set_projects set_milestones];
      repeat match goal with
             | |- context [next_rowid ?q ?l] =>
                 let H := fresh in
                 destruct (next_rowid_above q l) as [H _];
                 generalize dependent (next_rowid q l); intros
             end; lia.
Qed.

Lemma run_calls_counters_grow (calls : list ServiceCall) :
  forall s,
    seq_projects s <= seq_projects (run_calls calls s)
    /\ seq_milestones s <= seq_milestones (run_calls calls s)
    /\ seq_todos s <= seq_todos (run_calls calls s).
Proof.
  induction calls as [|c calls IH]; intros s; [simpl; lia|].
  simpl. specialize (IH (service_call c s)).
  pose proof (service_call_counters_grow c s). lia.
Qed.

(** X9.  An id is never handed out twice, also after its row is gone:
    whatever calls are made in between, a todo, project or milestone
    created later has an id larger than the id of every row the table
    held before. *)
Theorem ids_are_never_reused :
  forall (s : Store) (calls : list ServiceCall),
    keys_ok s = true ->
    (forall data now s2 t r,
        In r (todos s) ->
        TodoService.create data now (run_calls calls s) = (s2, Return t) ->
        Todo.id r < Todo.id t)
    /\ (forall data now s2 p q,
          In q (projects s) ->
          ProjectService.create data now (run_calls calls s) = (s2, Return p) ->
          Project.id q < Project.id (record p))
    /\ (forall data now s2 m q,
          In q (milestones s) ->
          ProjectService.createMilestone data now (run_calls calls s) = (s2, Return m) ->
          Milestone.id q < Milestone.id (record m)).
Proof.
  intros s calls H. apply keys_ok_iff in H. destruct H as (HP & HM & HT).
  apply keys_in_iff in HP, HM, HT.
  destruct (run_calls_counters_grow calls s) as (GP & GM & GT).
  set (s1 := run_calls calls s) in *.
  split; [|split].
  - intros data now s2 t r Hr E.
    pose proof (create_result data now s1 s2 (Return t) E) as (_ & Hid & _).
    destruct (next_rowid_above (seq_todos s1) (todo_ids s1)) as [Hseq _].
    assert (Todo.id r <= seq_todos s); [|lia].
    apply (proj2 HT). unfold todo_ids. now apply in_map.
  - intros data now s2 p q Hq E.
    rewrite project_create_returns in E. inversion E; subst; clear E.
    cbn [record ProjectService.attachProgress Project.id].
    destruct (next_rowid_above (seq_projects s1) (project_ids s1)) as [Hseq _].
    assert (Project.id q <= seq_projects s); [|lia].
    apply (proj2 HP). unfold project_ids. now apply in_map.
  - intros data now s2 m q Hq E.
    destruct (select_project (mci_project_id data) s1) as [p|] eqn:Hsel.
    + rewrite (milestone_create_returns data now s1 p Hsel) in E.
      inversion E; subst; clear E.
      cbn [record ProjectService.attachMilestoneProgress Milestone.id].
      destruct (next_rowid_above (seq_milestones s1) (milestone_ids s1)) as [Hseq _].
      assert (Milestone.id q <= seq_milestones s); [|lia].
      apply (proj2 HM). unfold milestone_ids. now apply in_map.
    + unfold ProjectService.createMilestone, bind, ProjectService.getById, read in E.
      rewrite Hsel in E. discriminate.
Qed.

Lemma ids_are_never_reused_witness :
  exists s2 t,
    TodoService.create (plain_input "again") "2026-03-06 08:00:00"
      (run_calls [OnTodos (Delete 3)] store_scenario) = (s2, Return t)
    /\ select_todo 3 (run_calls [OnTodos (Delete 3)] store_scenario) = None
    /\ Todo.id t = 4
    /\ forall r, In r (todos store_scenario) -> Todo.id r < Todo.id t.
Proof.
  eexists. eexists. split; [vm_compute; reflexivity|].
  split; [reflexivity|]. split; [reflexivity|].
  intros r Hr.
  refine (proj1 (ids_are_never_reused store_scenario [OnTodos (Delete 3)] eq_refl)
            (plain_input "again") "2026-03-06 08:00:00" _ _ r Hr _).
  vm_compute. reflexivity.
Defined.

(* ================================================================== *)
(** * Deleting a milestone *)

Lemma filter_map_length {A} (f : A -> bool) (g : A -> A) (l : list A) :
  (forall x, f (g x) = f x) ->
  length (filter f (map g l)) = length (filter f l).
Proof.
  intros H. induction l as [|a l IH]; simpl; [reflexivity|].
  rewrite H. destruct (f a); simpl; congruence.
Qed.

(** X10.  Deleting an existing milestone returns its id and leaves a store
    without it (reading it again fails with 404); the projects and the
    other milestones are untouched.  No todo is deleted or moved: a todo
    that was linked to the milestone has [milestone_id] NULL, and nothing
    else of any todo has changed; so the progress of every project is what
    it was. *)
Theorem milestone_delete_unlinks_todos :
  forall (s : Store) (i : Z) (m : Milestone.t),
    select_milestone i s = Some m ->
    exists s',
      ProjectService.deleteMilestone i s = (s', Return i)
      /\ ProjectService.getMilestoneById i s' = (s', Throw MILESTONE_NOT_FOUND)
      /\ projects s' = projects s
      /\ (forall m', In m' (milestones s') <->
                     In m' (milestones s) /\ Milestone.id m' <> i)
      /\ Forall2
           (fun t t' =>
              only_detached t t'
              /\ Todo.project_id t' = Todo.project_id t
              /\ Todo.milestone_id t'
                 = (if opt_Z_eqb (Todo.milestone_id t) i then None
                    else Todo.milestone_id t))
           (todos s) (todos s')
      /\ (forall p, ProjectService.attachProgress p s'
                    = ProjectService.attachProgress p s).
Proof.
  intros s i m Hsel.
  unfold ProjectService.deleteMilestone, bind, ProjectService.getMilestoneById, read.
  rewrite Hsel. unfold delete_milestones, ret.
  eexists. split; [reflexivity|].
  split.
  { unfold select_milestone. cbn [milestones].
    now rewrite (find_filter_out Milestone.id). }
  split; [reflexivity|].
  split.
  { intros m'. cbn [milestones]. rewrite filter_In, negb_true_iff, Z.eqb_neq. tauto. }
  assert (Hp : forall t, Todo.project_id (detach [] [i] t) = Todo.project_id t).
  { intros t. cbn [detach Todo.project_id]. now destruct (Todo.project_id t). }
  split.
  - cbn [todos]. apply Forall2_map_r. intros t.
    split; [apply only_detached_detach|]. split; [apply Hp|].
    cbn [detach Todo.milestone_id].
    destruct (Todo.milestone_id t) as [k|]; [|reflexivity]. simpl.
    now rewrite orb_false_r.
  - intros p. unfold ProjectService.attachProgress, count_where. cbn [todos].
    rewrite !filter_map_length; [reflexivity| |].
    + intros t. now rewrite Hp.
    + intros t. now rewrite Hp.
Qed.

Lemma milestone_delete_unlinks_todos_witness :
  exists s',
    ProjectService.deleteMilestone 1 store_with_milestone = (s', Return 1)
    /\ milestones s' = []
    /\ map Todo.milestone_id (todos s') = [None; None]
    /\ map Todo.project_id (todos s') = [Some 1; Some 1].
Proof.
  destruct (milestone_delete_unlinks_todos store_with_milestone 1
              (Milestone.mk 1 1 "M1" "2026-03-01" MS_pending "2026-03-01 08:01:00")
              eq_refl) as (s' & E & _).
  exists s'. split; [exact E|].
  vm_compute in E. inversion E; subst s'. repeat split.
Defined.

(* ================================================================== *)
(** * Creating a todo without a parent *)





(* ================================================================== *)
(** * Breaking a task down ([todo_breakdown]) *)

Lemma fold_right_max_bound (r : Z) (ids : list Z) :
  (forall i, In i ids -> i <= r) -> fold_right Z.max r ids = r.
Proof.
  induction ids as [|a l IH]; simpl; intros H; [reflexivity|].
  rewrite IH; [|intros i Hi; apply H; now right].
  apply Z.max_r. apply H. now left.
Qed.

Lemma next_rowid_after_insert (seq : Z) (ids : list Z) :
  next_rowid (next_rowid seq ids) (ids ++ [next_rowid seq ids])
  = next_rowid seq ids + 1.
Proof.
  unfold next_rowid at 1. rewrite fold_right_app. simpl fold_right.
  rewrite Z.max_id. rewrite fold_right_max_bound; [reflexivity|].
  intros i Hi. destruct (next_rowid_above seq ids) as [_ H].
  apply H in Hi. lia.
Qed.

Lemma select_todo_kept_on_insert (s : Store) (i : Z) (t row : Todo.t) (seq : Z) :
  select_todo i s = Some t ->
  select_todo i (set_todos s (todos s ++ [row]) seq) = Some t.
Proof.
  unfold select_todo. cbn [todos set_todos]. intros H.
  induction (todos s) as [|a l IH]; simpl in *; [discriminate|].
  destruct (Todo.id a =? i); [assumption | now apply IH].
Qed.

(** X12.  What [todo_breakdown] asks of [createMany].  In a store that
    satisfies the schema, for a parent that exists and is not a subtask
    and entries whose priorities are within 1..5 (the handler has checked
    the first two, its input schema the third), the batch never stops
    midway: every entry becomes a todo, appended in order with consecutive
    ids, of level [subtask] and status [pending], under that parent and in
    the project of the parent, with the title, priority and due date of
    its entry. *)
Theorem breakdown_creates_every_subtask :
  forall (s : Store) (parent_id : Z) (parent : Todo.t)
         (entries : list SubtaskItem) (clock : nat -> Timestamp),
    store_ok s = true ->
    select_todo parent_id s = Some parent ->
    Todo.level parent <> subtask ->
    (forall st, In st entries -> 1 <= st_priority st <= 5) ->
    exists s' ts,
      TodoService.createMany (breakdown_items parent_id parent entries) clock s
      = (s', Return ts)
      /\ todos s' = todos s ++ ts
      /\ Forall2 (subtask_for parent_id parent) entries ts
      /\ map Todo.id ts
         = map (fun k => next_rowid (seq_todos s) (todo_ids s) + Z.of_nat k)
               (seq 0 (length entries)).
Proof.
  intros s parent_id parent entries clock. revert clock s.
  induction entries as [|st rest IH]; intros clock s Hok Hsel Hlvl Hprio.
  - exists s, []. split; [reflexivity|]. split; [now rewrite app_nil_r|].
    split; [constructor | reflexivity].
  - destruct (select_todo_In _ _ _ Hsel) as [Hin Hid].
    destruct (store_ok_todo s parent Hok Hin) as [Hpos Hrefs].
    assert (Hnz : parent_id <> 0) by lia.
    cbn [breakdown_items map]. fold (breakdown_items parent_id parent rest).
    rewrite createMany_cons.
    set (item := {| tci_title := st_title st; tci_description := None;
                    tci_priority := Some (st_priority st);
                    tci_due_date := st_due_date st;
                    tci_project_id := Todo.project_id parent;
                    tci_parent_id := Some parent_id; tci_milestone_id := None |}).
    pose proof (create_keeps_store_ok item (clock O) s Hok) as Hok1.
    rewrite (create_under_task s item (clock O) parent_id parent eq_refl Hnz Hsel Hlvl)
      in Hok1 |- *.
    cbv zeta in Hok1 |- *.
    set (row := subtask_row s item (clock O) parent_id parent) in *.
    assert (V : todo_row_violation s (Todo.id row) row = None).
    { unfold todo_row_violation.
      cbn [row subtask_row item Todo.id Todo.priority Todo.project_id
           Todo.parent_id Todo.milestone_id tci_priority tci_milestone_id
           or_else fk_ok].
      assert (P : (1 <=? st_priority st) && (st_priority st <=? 5) = true).
      { specialize (Hprio st (or_introl eq_refl)).
        apply andb_true_iff. split; apply Z.leb_le; lia. }
      rewrite P. cbn [negb].
      unfold todo_refs_ok in Hrefs. rewrite !andb_true_iff in Hrefs.
      destruct Hrefs as [[F1 _] _]. rewrite F1.
      assert (F2 : mem_Z parent_id (next_rowid (seq_todos s) (todo_ids s) :: todo_ids s)
                   = true).
      { apply mem_Z_In. right. unfold todo_ids. rewrite <- Hid. now apply in_map. }
      rewrite F2. reflexivity. }
    rewrite V in Hok1 |- *. cbn [fst] in Hok1.
    set (s1 := set_todos s (todos s ++ [row]) (Todo.id row)) in *.
    assert (Hsel1 : select_todo parent_id s1 = Some parent)
      by (apply select_todo_kept_on_insert; exact Hsel).
    destruct (IH (fun k => clock (S k)) s1 Hok1 Hsel1 Hlvl
                 (fun x Hx => Hprio x (or_intror Hx)))
      as (s' & ts & E & Htodos & Hall & Hids).
    rewrite E. exists s', (row :: ts).
    split; [reflexivity|].
    split.
    { rewrite Htodos. unfold s1. cbn [todos set_todos].
      now rewrite <- app_assoc. }
    split.
    { constructor; [|exact Hall].
      unfold subtask_for, row, subtask_row, item. cbn. tauto. }
    cbn [map length seq]. rewrite Hids. f_equal.
    + cbn [row subtask_row Todo.id]. lia.
    + rewrite <- seq_shift, map_map. apply map_ext. intros k.
      unfold s1, todo_ids. cbn [seq_todos todos set_todos]. rewrite map_app.
      cbn [map row subtask_row Todo.id].
      fold (todo_ids s). rewrite next_rowid_after_insert. lia.
Qed.

Lemma breakdown_creates_every_subtask_witness :
  exists s' ts,
    TodoService.createMany
      (breakdown_items 1
         (Todo.mk 1 "T" None pending 3 None (Some 1) None None task
            "2026-03-01 08:01:00" "2026-03-01 08:01:00")
         [ {| st_title := "a"; st_priority := 1; st_due_date := None |};
           {| st_title := "b"; st_priority := 5; st_due_date := Some "2026-04-01" |} ])
      C6_clock store_scenario = (s', Return ts)
    /\ map Todo.id ts = [4; 5]
    /\ map Todo.project_id ts = [Some 1; Some 1].
Proof.
  destruct (breakdown_creates_every_subtask store_scenario 1
              (Todo.mk 1 "T" None pending 3 None (Some 1) None None task
                 "2026-03-01 08:01:00" "2026-03-01 08:01:00")
              [ {| st_title := "a"; st_priority := 1; st_due_date := None |};
                {| st_title := "b"; st_priority := 5; st_due_date := Some "2026-04-01" |} ]
              C6_clock)
    as (s' & ts & E & _ & _ & Hids).
  - vm_compute. reflexivity.
  - vm_compute. reflexivity.
  - discriminate.
  - intros st [<-|[<-|[]]]; simpl; lia.
  - exists s', ts. split; [exact E|]. split; [exact Hids|].
    vm_compute in E. inversion E; subst. reflexivity.
Defined.

(* ================================================================== *)
(** * The list queries *)








Section Sorting.

Context {A : Type} (le : A -> A -> bool).

Hypothesis le_total : forall a b, le a b = true \/ le b a = true.

Hypothesis le_trans : forall a b c, le a b = true -> le b c = true -> le a c = true.

Lemma insert_row_perm (x : A) (l : list A) : Permutation (insert_row le x l) (x :: l).
Proof.
  induction l as [|y l IH]; simpl; [reflexivity|].
  destruct (le x y); [reflexivity|].
  rewrite IH. apply perm_swap.
Qed.

Lemma order_by_perm (l : list A) : Permutation (order_by le l) l.
Proof.
  induction l as [|x l IH]; simpl; [reflexivity|].
  rewrite insert_row_perm. now constructor.
Qed.

Lemma insert_row_sorted (x : A) (l : list A) :
  StronglySorted (fun a b => le a b = true) l ->
  StronglySorted (fun a b => le a b = true) (insert_row le x l).
Proof.
  induction 1 as [|y l Hs IH Hy]; simpl.
  - constructor; constructor.
  - destruct (le x y) eqn:E.
    + constructor; [now constructor|].
      constructor; [assumption|].
      rewrite Forall_forall in *. intros z Hz. apply (le_trans x y z E). now apply Hy.
    + constructor; [assumption|].
      rewrite Forall_forall in *. intros z Hz.
      apply In_insert_row in Hz. destruct Hz as [->|Hz]; [|now apply Hy].
      destruct (le_total x y); congruence.
Qed.

Lemma order_by_sorted (l : list A) :
  StronglySorted (fun a b => le a b = true) (order_by le l).
Proof.
  induction l as [|x l IH]; simpl; [constructor|]. now apply insert_row_sorted.
Qed.

End Sorting.


Lemma truthy_str_spec (x : option string) :
  JS.truthy_str x = true <-> exists st, x = Some st /\ st <> EmptyString.
Proof.
  destruct x as [st|]; simpl.
  - rewrite negb_true_iff. split.
    + intros H. exists st. split; [reflexivity|].
      intros ->. discriminate.
    + intros [st' [E Hne]]. inversion E; subst st'.
      destruct (String.eqb st EmptyString) eqn:Q; [|reflexivity].
      apply String.eqb_eq in Q. contradiction.
  - split; [discriminate|]. intros [st [E _]]. discriminate.
Qed.

Lemma name_filter_spec (x : option string) (name : string) :
  (if JS.truthy_str x then String.eqb name (or_else x EmptyString) else true) = true
  <-> (forall st, x = Some st -> st <> EmptyString -> name = st).
Proof.
  destruct (JS.truthy_str x) eqn:T.
  - apply truthy_str_spec in T. destruct T as [st [-> Hne]]. simpl.
    rewrite String.eqb_eq. split.
    + intros -> st' E _. congruence.
    + intros H. now apply H.
  - split; [|reflexivity]. intros _ st E Hne. exfalso.
    assert (JS.truthy_str x = true) by (apply truthy_str_spec; eauto). congruence.
Qed.

Lemma opt_Z_eqb_eq (a : option Z) (b : Z) : opt_Z_eqb a b = true <-> a = Some b.
Proof.
  destruct a as [x|]; simpl.
  - rewrite Z.eqb_eq. split; congruence.
  - split; discriminate.
Qed.

Lemma is_null_eq {A} (a : option A) : is_null a = true <-> a = None.
Proof. destruct a; simpl; split; congruence. Qed.







(* ================================================================== *)
(** * Listing projects and milestones *)

Lemma sorted_strict {A} (key : A -> Z) (l : list A) :
  StronglySorted (fun a b => (key b <=? key a) = true) l ->
  NoDup (map key l) ->
  StronglySorted (fun a b => key b < key a) l.
Proof.
  induction 1 as [|a l Hs IH Ha]; simpl; intros Hnd; [constructor|].
  inversion Hnd; subst. constructor; [now apply IH|].
  rewrite Forall_forall in *. intros b Hb.
  specialize (Ha b Hb). apply Z.leb_le in Ha.
  assert (key b <> key a); [|lia].
  intros E. match goal with Hn : ~ In _ _ |- _ => apply Hn end.
  rewrite <- E. now apply in_map.
Qed.

Lemma StronglySorted_impl {A} (R R' : A -> A -> Prop) (l : list A) :
  (forall a b, R a b -> R' a b) -> StronglySorted R l -> StronglySorted R' l.
Proof.
  intros H. induction 1 as [|a l Hs IH Ha]; constructor; [assumption|].
  rewrite Forall_forall in *. auto.
Qed.

Lemma NoDup_map_perm {A} (key : A -> Z) (l l' : list A) :
  Permutation l l' -> NoDup (map key l') -> NoDup (map key l).
Proof.
  intros P H. apply (Permutation_NoDup (l := map key l')); [|exact H].
  apply Permutation_map. now symmetry.
Qed.

(** X16.  [ProjectService.getAll] never throws and writes nothing.  It
    lists the projects (those of the given status, when one is given and
    is not the empty string), newest id first, each with its progress as
    [attachProgress] computes it.  Where ids are unique the ids strictly
    descend, and every entry is what [getById] returns for its id. *)
Theorem project_getAll_lists_newest_first :
  forall (s : Store) (status : option string),
    exists res,
      ProjectService.getAll status s = (s, Return res)
      /\ (forall p, In p (map record res) <->
                    In p (projects s)
                    /\ (forall st, status = Some st -> st <> EmptyString ->
                                   ProjectStatus_name (Project.status p) = st))
      /\ (exists f, Permutation (map record res) (filter f (projects s)))
      /\ StronglySorted (fun a b => Project.id b <= Project.id a) (map record res)
      /\ (forall r, In r res -> r = ProjectService.attachProgress (record r) s)
      /\ (keys_ok s = true ->
          StronglySorted (fun a b => Project.id b < Project.id a) (map record res)
          /\ forall r, In r res ->
               ProjectService.getById (Project.id (record r)) s = (s, Return r)).
Proof.
  intros s status. unfold ProjectService.getAll, read.
  set (f := fun p => if JS.truthy_str status
                     then String.eqb (ProjectStatus_name (Project.status p))
                                     (or_else status EmptyString)
                     else true).
  assert (Hrows : (if JS.truthy_str status
                   then filter (fun p => String.eqb (ProjectStatus_name (Project.status p))
                                                    (or_else status EmptyString))
                               (projects s)
                   else projects s) = filter f (projects s)).
  { unfold f. destruct (JS.truthy_str status); [reflexivity|].
    induction (projects s) as [|a l IH]; simpl; congruence. }
  rewrite Hrows. clear Hrows.
  set (le := fun a b => Project.id b <=? Project.id a).
  set (rows := order_by le (filter f (projects s))).
  assert (Htotal : forall a b, le a b = true \/ le b a = true).
  { intros a b. unfold le. rewrite !Z.leb_le. lia. }
  assert (Htrans : forall a b c, le a b = true -> le b c = true -> le a c = true).
  { intros a b c. unfold le. rewrite !Z.leb_le. lia. }
  pose proof (order_by_sorted le Htotal Htrans (filter f (projects s))) as Hs.
  pose proof (order_by_perm le (filter f (projects s))) as Hp.
  fold rows in Hs, Hp.
  eexists. split; [reflexivity|].
  rewrite map_map. cbn [record ProjectService.attachProgress]. rewrite map_id.
  split.
  { intros p. unfold rows. rewrite In_order_by, filter_In. unfold f.
    rewrite name_filter_spec. tauto. }
  split; [exists f; exact Hp|].
  split.
  { apply (StronglySorted_impl (fun a b => le a b = true)); [|exact Hs].
    intros a b H. unfold le in H. now apply Z.leb_le. }
  split.
  { intros r Hr. apply in_map_iff in Hr. destruct Hr as [p [<- _]]. reflexivity. }
  intros Hk. apply keys_ok_iff in Hk. destruct Hk as (HP & _ & _).
  apply keys_in_iff in HP. destruct HP as [Hnd _].
  assert (Hnd' : NoDup (map Project.id rows)).
  { apply (NoDup_map_perm Project.id rows (filter f (projects s)) Hp).
    now apply NoDup_map_filter. }
  split; [now apply (sorted_strict Project.id)|].
  intros r Hr. apply in_map_iff in Hr. destruct Hr as [p [<- Hp']].
  unfold ProjectService.getById, read. cbn [record ProjectService.attachProgress].
  unfold rows in Hp'. apply In_order_by, filter_In in Hp'. destruct Hp' as [Hin _].
  unfold select_project. now rewrite (find_unique Project.id (projects s) p Hnd Hin).
Qed.

Lemma project_getAll_lists_newest_first_witness :
  exists res,
    ProjectService.getAll (Some "active")
      (run_calls [OnProjects (CreateProject {| pci_name := "Q"; pci_description := None |}
                                "2026-03-05 08:00:00")] store_scenario)
    = (run_calls [OnProjects (CreateProject {| pci_name := "Q"; pci_description := None |}
                                "2026-03-05 08:00:00")] store_scenario, Return res)
    /\ StronglySorted (fun a b => Project.id b < Project.id a) (map record res)
    /\ map (fun r => Project.id (record r)) res = [2; 1].
Proof.
  destruct (project_getAll_lists_newest_first
              (run_calls [OnProjects (CreateProject
                                        {| pci_name := "Q"; pci_description := None |}
                                        "2026-03-05 08:00:00")] store_scenario)
              (Some "active"))
    as (res & E & _ & _ & _ & _ & Hk).
  exists res. split; [exact E|]. split; [exact (proj1 (Hk eq_refl))|].
  vm_compute in E. inversion E; subst res. reflexivity.
Defined.



(* ================================================================== *)
(** * Progress at the two ends, and how a status change moves it *)

Lemma percent_none_done (t : JS.Number) :
  ProjectService.percent (JS.of_Z 0) t = JS.of_Z 0.
Proof.
  destruct t as [[|]|[|]| |[|] m e]; reflexivity.
Qed.

Lemma div_by_itself (m : positive) (e : Z) :
  Zdigits2 (Zpos m) = 53 ->
  JS.div (S754_finite false m e) (S754_finite false m e)
  = S754_finite false 4503599627370496 (-52).
Proof.
  intros Hd. unfold JS.div, SFdiv, SFdiv_core_binary, JS.prec, JS.emax.
  rewrite Hd, fexp64_eq.
  replace (Z.min (Z.max (53 + e - (53 + e) - 53) (-1074)) (e - e)) with (-53) by lia.
  replace (e - e - -53) with 53 by lia.
  rewrite Z.shiftl_mul_pow2 by lia.
  assert (E : Z.div_eucl (Zpos m * 2 ^ 53) (Zpos m) = (2 ^ 53, 0)).
  { rewrite (Z.mul_comm (Zpos m)).
    assert (P : forall a b, Z.div_eucl a b = (a / b, a mod b)).
    { intros a b. unfold Z.div, Z.modulo. now destruct (Z.div_eucl a b). }
    rewrite P, Z.div_mul, Z.mod_mul by lia. reflexivity. }
  rewrite E, new_location_exact. vm_compute. reflexivity.
Qed.

Lemma percent_all_done (n : Z) :
  0 < n < 2 ^ 53 -> ProjectService.percent (JS.of_Z n) (JS.of_Z n) = JS.of_Z 100.
Proof.
  intros Hn. destruct n as [|p|p]; try lia.
  destruct (of_Z_exact p (proj2 Hn)) as (m & e & Hof & _ & _ & Hd).
  unfold ProjectService.percent. rewrite Hof.
  change (JS.gt (S754_finite false m e) (JS.of_Z 0)) with true. cbv iota.
  rewrite (div_by_itself m e Hd). vm_compute. reflexivity.
Qed.

Lemma filter_and_all {A} (f g : A -> bool) (l : list A) :
  (forall x, In x l -> f x = true -> g x = true) ->
  filter (fun x => f x && g x) l = filter f l.
Proof.
  intros H. induction l as [|a l IH]; simpl; [reflexivity|].
  rewrite IH by (intros x Hx; apply H; now right).
  destruct (f a) eqn:E; simpl; [|reflexivity].
  now rewrite (H a (or_introl eq_refl) E).
Qed.

Lemma filter_and_none {A} (f g : A -> bool) (l : list A) :
  (forall x, In x l -> f x = true -> g x = false) ->
  filter (fun x => f x && g x) l = [].
Proof.
  intros H. induction l as [|a l IH]; simpl; [reflexivity|].
  rewrite IH by (intros x Hx; apply H; now right).
  destruct (f a) eqn:E; simpl; [|reflexivity].
  now rewrite (H a (or_introl eq_refl) E).
Qed.

Lemma percent_of_counts (f g : Todo.t -> bool) (s : Store) :
  Z.of_nat (length (todos s)) < 2 ^ 53 ->
  ((forall t, In t (todos s) -> f t = true -> g t = false) ->
     ProjectService.percent (count_where (fun t => f t && g t) s) (count_where f s)
     = JS.of_Z 0)
  /\ ((exists t, In t (todos s) /\ f t = true) ->
      (forall t, In t (todos s) -> f t = true -> g t = true) ->
      ProjectService.percent (count_where (fun t => f t && g t) s) (count_where f s)
      = JS.of_Z 100).
Proof.
  intros Hsize. unfold count_where. split.
  - intros H. rewrite (filter_and_none f g _ H). apply percent_none_done.
  - intros [t [Hin Hf]] H. rewrite (filter_and_all f g _ H).
    apply percent_all_done. split.
    + assert (In t (filter f (todos s))) by (apply filter_In; tauto).
      destruct (filter f (todos s)); [contradiction | simpl; lia].
    + pose proof (filter_length_le f (todos s)). lia.
Qed.

(** X18.  The two ends of the progress figure are exact.  In a store with
    fewer than 2^53 todos, a project (a milestone) none of whose todos is
    completed, so also one without todos, has [progress_percent] 0, and
    one that has todos, all of them completed, has [progress_percent]
    100. *)
Theorem progress_is_0_and_100_at_the_ends :
  forall (s : Store),
    Z.of_nat (length (todos s)) < 2 ^ 53 ->
    (forall p : Project.t,
        ((forall t, In t (todos s) -> Todo.project_id t = Some (Project.id p) ->
                    Todo.status t = pending) ->
         progress_percent (ProjectService.attachProgress p s) = JS.of_Z 0)
        /\ ((exists t, In t (todos s) /\ Todo.project_id t = Some (Project.id p)) ->
            (forall t, In t (todos s) -> Todo.project_id t = Some (Project.id p) ->
                       Todo.status t = completed) ->
            progress_percent (ProjectService.attachProgress p s) = JS.of_Z 100))
    /\ (forall m : Milestone.t,
          ((forall t, In t (todos s) -> Todo.milestone_id t = Some (Milestone.id m) ->
                      Todo.status t = pending) ->
           progress_percent (ProjectService.attachMilestoneProgress m s) = JS.of_Z 0)
          /\ ((exists t, In t (todos s)
                         /\ Todo.milestone_id t = Some (Milestone.id m)) ->
              (forall t, In t (todos s) ->
                         Todo.milestone_id t = Some (Milestone.id m) ->
                         Todo.status t = completed) ->
              progress_percent (ProjectService.attachMilestoneProgress m s)
              = JS.of_Z 100)).
Proof.
  intros s Hsize. split.
  - intros p.
    destruct (percent_of_counts
                (fun t => opt_Z_eqb (Todo.project_id t) (Project.id p))
                (fun t => TodoStatus_eqb (Todo.status t) completed) s Hsize)
      as [H0 H100].
    cbn [ProjectService.attachProgress progress_percent]. split.
    + intros H. apply H0. intros t Ht Hf. apply opt_Z_eqb_eq in Hf.
      now rewrite (H t Ht Hf).
    + intros [t [Ht Hp]] H. apply H100.
      * exists t. split; [exact Ht | now apply opt_Z_eqb_eq].
      * intros x Hx Hf. apply opt_Z_eqb_eq in Hf. now rewrite (H x Hx Hf).
  - intros m.
    destruct (percent_of_counts
                (fun t => opt_Z_eqb (Todo.milestone_id t) (Milestone.id m))
                (fun t => TodoStatus_eqb (Todo.status t) completed) s Hsize)
      as [H0 H100].
    cbn [ProjectService.attachMilestoneProgress progress_percent]. split.
    + intros H. apply H0. intros t Ht Hf. apply opt_Z_eqb_eq in Hf.
      now rewrite (H t Ht Hf).
    + intros [t [Ht Hp]] H. apply H100.
      * exists t. split; [exact Ht | now apply opt_Z_eqb_eq].
      * intros x Hx Hf. apply opt_Z_eqb_eq in Hf. now rewrite (H x Hx Hf).
Qed.

Lemma progress_is_0_and_100_at_the_ends_witness :
  progress_percent
    (ProjectService.attachProgress
       (Project.mk 1 "P" None PS_active "2026-03-01 08:00:00" "2026-03-01 08:00:00")
       (store_progress 3 3)) = JS.of_Z 100
  /\ progress_percent
       (ProjectService.attachMilestoneProgress
          (Milestone.mk 1 1 "M1" "2026-03-01" MS_pending "2026-03-01 08:01:00")
          (store_progress 0 3)) = JS.of_Z 0.
Proof.
  split.
  - refine (proj2 (proj1 (progress_is_0_and_100_at_the_ends (store_progress 3 3) _)
                     (Project.mk 1 "P" None PS_active "2026-03-01 08:00:00"
                        "2026-03-01 08:00:00")) _ _).
    + vm_compute. reflexivity.
    + eexists. split; [left; reflexivity | reflexivity].
    + intros t Ht _. vm_compute in Ht.
      destruct Ht as [<-|[<-|[<-|[]]]]; reflexivity.
  - refine (proj1 (proj2 (progress_is_0_and_100_at_the_ends (store_progress 0 3) _)
                     (Milestone.mk 1 1 "M1" "2026-03-01" MS_pending
                        "2026-03-01 08:01:00")) _).
    + vm_compute. reflexivity.
    + intros t Ht _. vm_compute in Ht.
      destruct Ht as [<-|[<-|[<-|[]]]]; reflexivity.
Defined.

(* ================================================================== *)
(** * A status change and the progress counts *)

Lemma map_update_absent (i : Z) (data : TodoUpdateInput) (now : Timestamp)
    (l : list Todo.t) :
  ~ In i (map Todo.id l) -> map (update_todo_row i data now) l = l.
Proof.
  induction l as [|a l IH]; simpl; intros H; [reflexivity|].
  rewrite IH by tauto. unfold update_todo_row.
  destruct (Todo.id a =? i) eqn:E; [|reflexivity].
  apply Z.eqb_eq in E. tauto.
Qed.

Lemma count_after_update (g : Todo.t -> bool) (i : Z) (data : TodoUpdateInput)
    (now : Timestamp) (t : Todo.t) (l : list Todo.t) :
  NoDup (map Todo.id l) -> In t l -> Todo.id t = i ->
  Z.of_nat (length (filter g (map (update_todo_row i data now) l)))
  = Z.of_nat (length (filter g l)) + Z.b2z (g (patch_todo data now t)) - Z.b2z (g t).
Proof.
  induction l as [|a l IH]; simpl; intros Hnd Hin Hid; [contradiction|].
  inversion Hnd as [|x xs Hnot Hnd']; subst x xs.
  destruct Hin as [->|Hin].
  - rewrite map_update_absent by (rewrite <- Hid; exact Hnot).
    unfold update_todo_row at 1. rewrite Hid, Z.eqb_refl.
    destruct (g (patch_todo data now t)), (g t); simpl length; simpl Z.b2z; lia.
  - assert (Hne : Todo.id a <> i).
    { intros E. apply Hnot. rewrite E, <- Hid. now apply in_map. }
    unfold update_todo_row at 1. apply Z.eqb_neq in Hne. rewrite Hne.
    specialize (IH Hnd' Hin Hid).
    destruct (g a); simpl length; lia.
Qed.

Lemma updateStatus_returns (s : Store) (i : Z) (st : TodoStatus) (now : Timestamp)
    (t : Todo.t) :
  store_ok s = true ->
  select_todo i s = Some t ->
  TodoService.updateStatus i st now s
  = (set_todos s (map (update_todo_row i (status_only st) now) (todos s)) (seq_todos s),
     Return (patch_todo (status_only st) now t)).
Proof.
  intros Hok Hsel. unfold TodoService.updateStatus. fold (status_only st).
  rewrite (update_existing s i (status_only st) now t Hsel).
  rewrite (valid_update_no_violation s i (status_only st) now Hok);
    try reflexivity.
  intros v Hv. discriminate.
Qed.

(** X19.  In a store that satisfies the schema and has unique ids,
    [updateStatus] on an existing todo returns it with the new status and
    [updated_at] refreshed, nothing else of it changed.  For every
    project and every milestone the number of tasks stays what it was,
    and the number of completed tasks moves by one up or down exactly
    when the todo belongs to it and its status changed to or from
    [completed]. *)
Theorem updateStatus_moves_the_completed_count :
  forall (s : Store) (i : Z) (st : TodoStatus) (now : Timestamp) (t : Todo.t),
    store_ok s = true ->
    keys_ok s = true ->
    select_todo i s = Some t ->
    exists s' t',
      TodoService.updateStatus i st now s = (s', Return t')
      /\ t' = Todo.mk (Todo.id t) (Todo.title t) (Todo.description t) st
                (Todo.priority t) (Todo.due_date t) (Todo.project_id t)
                (Todo.parent_id t) (Todo.milestone_id t) (Todo.level t)
                (Todo.created_at t) now
      /\ (forall p : Project.t,
            total_tasks (ProjectService.attachProgress p s')
            = total_tasks (ProjectService.attachProgress p s)
            /\ exists n,
                 completed_tasks (ProjectService.attachProgress p s) = JS.of_Z n
                 /\ completed_tasks (ProjectService.attachProgress p s')
                    = JS.of_Z (n + (if opt_Z_eqb (Todo.project_id t) (Project.id p)
                                    then done_score st - done_score (Todo.status t)
                                    else 0)))
      /\ (forall m : Milestone.t,
            total_tasks (ProjectService.attachMilestoneProgress m s')
            = total_tasks (ProjectService.attachMilestoneProgress m s)
            /\ exists n,
                 completed_tasks (ProjectService.attachMilestoneProgress m s)
                 = JS.of_Z n
                 /\ completed_tasks (ProjectService.attachMilestoneProgress m s')
                    = JS.of_Z (n + (if opt_Z_eqb (Todo.milestone_id t) (Milestone.id m)
                                    then done_score st - done_score (Todo.status t)
                                    else 0))).
Proof.
  intros s i st now t Hok Hk Hsel.
  rewrite (updateStatus_returns s i st now t Hok Hsel).
  eexists. eexists. split; [reflexivity|]. split; [reflexivity|].
  apply keys_ok_iff in Hk. destruct Hk as (_ & _ & HT).
  apply keys_in_iff in HT. destruct HT as [Hnd _].
  destruct (select_todo_In _ _ _ Hsel) as [Hin Hid].
  assert (Hcount : forall g,
             Z.of_nat (length (filter g (map (update_todo_row i (status_only st) now)
                                             (todos s))))
             = Z.of_nat (length (filter g (todos s)))
               + Z.b2z (g (patch_todo (status_only st) now t)) - Z.b2z (g t)).
  { intros g. now apply count_after_update. }
  assert (Hscore : forall (link : Todo.t -> option Z) (k : Z),
             link (patch_todo (status_only st) now t) = link t ->
             Z.b2z (opt_Z_eqb (link (patch_todo (status_only st) now t)) k
                    && TodoStatus_eqb (Todo.status (patch_todo (status_only st) now t))
                                      completed)
             - Z.b2z (opt_Z_eqb (link t) k && TodoStatus_eqb (Todo.status t) completed)
             = if opt_Z_eqb (link t) k
               then done_score st - done_score (Todo.status t) else 0).
  { intros link k E. rewrite E. cbn [patch_todo status_only Todo.status tui_status or_else].
    unfold done_score.
    destruct (opt_Z_eqb (link t) k), (TodoStatus_eqb st completed),
      (TodoStatus_eqb (Todo.status t) completed); reflexivity. }
  split.
  - intros p. unfold ProjectService.attachProgress, count_where.
    cbn [total_tasks completed_tasks todos set_todos].
    split.
    + f_equal. rewrite Hcount.
      cbn [patch_todo status_only Todo.project_id tui_project_id or_else]. lia.
    + eexists. split; [reflexivity|]. f_equal. rewrite Hcount.
      rewrite <- (Hscore Todo.project_id (Project.id p) eq_refl). lia.
  - intros m. unfold ProjectService.attachMilestoneProgress, count_where.
    cbn [total_tasks completed_tasks todos set_todos].
    split.
    + f_equal. rewrite Hcount.
      cbn [patch_todo status_only Todo.milestone_id tui_milestone_id or_else]. lia.
    + eexists. split; [reflexivity|]. f_equal. rewrite Hcount.
      rewrite <- (Hscore Todo.milestone_id (Milestone.id m) eq_refl). lia.
Qed.

Lemma updateStatus_moves_the_completed_count_witness :
  exists s' t',
    TodoService.updateStatus 3 completed "2026-03-07 08:00:00" store_scenario
    = (s', Return t')
    /\ Todo.status t' = completed
    /\ completed_tasks
         (ProjectService.attachProgress
            (Project.mk 1 "P" None PS_active "2026-03-01 08:00:00"
               "2026-03-01 08:00:00") s')
       = JS.of_Z 2.
Proof.
  destruct (updateStatus_moves_the_completed_count store_scenario 3 completed
              "2026-03-07 08:00:00"
              (Todo.mk 3 "S2" None pending 3 None (Some 1) (Some 1) None subtask
                 "2026-03-01 08:03:00" "2026-03-01 08:03:00")
              eq_refl eq_refl eq_refl)
    as (s' & t' & E & Ht' & _).
  exists s', t'. split; [exact E|]. rewrite Ht'. split; [reflexivity|].
  vm_compute in E. inversion E; subst s'. vm_compute. reflexivity.
Defined.

(* ================================================================== *)
(** * Undoing a milestone *)

Lemma map_status_back (i : Z) (st : MilestoneStatus) (l : list Milestone.t) :
  (forall m, In m l -> Milestone.id m = i -> Milestone.status m = MS_pending) ->
  map (fun m => if Milestone.id m =? i then set_milestone_status MS_pending m else m)
      (map (fun m => if Milestone.id m =? i then set_milestone_status st m else m) l)
  = l.
Proof.
  induction l as [|a l IH]; simpl; intros H; [reflexivity|].
  rewrite IH by (intros m Hm; apply H; now right). f_equal.
  destruct (Milestone.id a =? i) eqn:E.
  - cbn [set_milestone_status Milestone.id]. rewrite E.
    apply Z.eqb_eq in E. specialize (H a (or_introl eq_refl) E).
    destruct a; simpl in *. now subst.
  - now rewrite E.
Qed.

(** X20.  Marking a pending milestone reached and then undoing it leaves
    the store exactly as it was before the two calls, and the second call
    returns the milestone as it was (ids being unique). *)
Theorem completeMilestone_then_undo_restores :
  forall (s : Store) (i : Z) (m : Milestone.t),
    keys_ok s = true ->
    select_milestone i s = Some m ->
    Milestone.status m = MS_pending ->
    exists s1 r1 r2,
      ProjectService.completeMilestone i false s = (s1, Return r1)
      /\ Milestone.status (record r1) = MS_reached
      /\ ProjectService.completeMilestone i true s1 = (s, Return r2)
      /\ record r2 = m
      /\ ProjectService.getMilestoneById i s = (s, Return r2).
Proof.
  intros s i m Hk Hsel Hst.
  apply keys_ok_iff in Hk. destruct Hk as (_ & HM & _).
  apply keys_in_iff in HM. destruct HM as [Hnd _].
  destruct (select_milestone_In _ _ _ Hsel) as [Hin Hid].
  set (f := fun st x => if Milestone.id x =? i then set_milestone_status st x else x).
  assert (Hf : forall st l, find (fun x => Milestone.id x =? i) (map (f st) l)
                 = option_map (set_milestone_status st)
                     (find (fun x => Milestone.id x =? i) l)).
  { intros st l. apply (find_map_same_key Milestone.id). reflexivity. }
  assert (Hback : map (f MS_pending) (map (f MS_reached) (milestones s)) = milestones s).
  { apply map_status_back. intros x Hx Hxi.
    assert (select_milestone (Milestone.id x) s = Some x)
      by (apply (find_unique Milestone.id); assumption).
    rewrite Hxi, Hsel in H. congruence. }
  set (s1 := set_milestones s (map (f MS_reached) (milestones s)) (seq_milestones s)).
  assert (E1 : ProjectService.completeMilestone i false s
               = (s1, Return (ProjectService.attachMilestoneProgress
                                (set_milestone_status MS_reached m) s1))).
  { unfold ProjectService.completeMilestone, bind, ProjectService.getMilestoneById, read.
    rewrite Hsel. unfold update_milestone_status. fold (f MS_reached). fold s1.
    unfold select_milestone at 1. cbn [milestones s1 set_milestones].
    rewrite Hf. fold (select_milestone i s). rewrite Hsel. reflexivity. }
  assert (Hs : set_milestones s1 (map (f MS_pending) (milestones s1)) (seq_milestones s1) = s).
  { unfold s1. cbn [milestones set_milestones seq_milestones]. rewrite Hback.
    unfold set_milestones. cbn. now destruct s. }
  assert (Hm : set_milestone_status MS_pending (set_milestone_status MS_reached m) = m).
  { destruct m; simpl in *. now subst. }
  exists s1. eexists. eexists. split; [exact E1|].
  split; [reflexivity|].
  assert (E2 : ProjectService.completeMilestone i true s1
               = (s, Return (ProjectService.attachMilestoneProgress m s))).
  { unfold ProjectService.completeMilestone, bind, ProjectService.getMilestoneById, read.
    assert (Hsel1 : select_milestone i s1 = Some (set_milestone_status MS_reached m)).
    { unfold select_milestone, s1. cbn [milestones set_milestones].
      rewrite Hf. fold (select_milestone i s). now rewrite Hsel. }
    rewrite Hsel1. unfold update_milestone_status. fold (f MS_pending).
    rewrite Hs, Hsel. reflexivity. }
  split; [exact E2|]. split; [reflexivity|].
  unfold ProjectService.getMilestoneById, read. now rewrite Hsel.
Qed.

Lemma completeMilestone_then_undo_restores_witness :
  exists s1 r1 r2,
    ProjectService.completeMilestone 1 false store_with_milestone = (s1, Return r1)
    /\ Milestone.status (record r1) = MS_reached
    /\ ProjectService.completeMilestone 1 true s1 = (store_with_milestone, Return r2).
Proof.
  destruct (completeMilestone_then_undo_restores store_with_milestone 1
              (Milestone.mk 1 1 "M1" "2026-03-01" MS_pending "2026-03-01 08:01:00")
              eq_refl eq_refl eq_refl)
    as (s1 & r1 & r2 & E1 & Hst & E2 & _).
  exists s1, r1, r2. split; [exact E1|]. split; [exact Hst | exact E2].
Defined.

(* ================================================================== *)
(** * The progress bar *)

Lemma bars_checked : forallb bar_checked percent_values = true.
Proof. vm_compute. reflexivity. Qed.

Lemma In_percent_values (z : Z) : 0 <= z <= 100 -> In z percent_values.
Proof.
  intros H. unfold percent_values. apply in_map_iff.
  exists (Z.to_nat z). split; [lia|]. apply in_seq. lia.
Qed.

Lemma makeProgressBar_of_percentage (z : Z) :
  0 <= z <= 100 ->
  makeProgressBar (JS.of_Z z) = Some (bar_of ((z + 5) / 10))
  /\ String.length (bar_of ((z + 5) / 10)) = 12%nat.
Proof.
  intros H. pose proof bars_checked as C. rewrite forallb_forall in C.
  specialize (C z (In_percent_values z H)). unfold bar_checked in C.
  destruct (makeProgressBar (JS.of_Z z)) as [bar|]; [|discriminate].
  apply andb_true_iff in C. destruct C as [C1 C2].
  apply String.eqb_eq in C1. apply Nat.eqb_eq in C2. subst bar. tauto.
Qed.

Lemma percent_of_counts_is_percentage (f g : Todo.t -> bool) (s : Store) :
  Z.of_nat (length (todos s)) < 2 ^ 53 ->
  exists z, 0 <= z <= 100
    /\ ProjectService.percent (count_where (fun t => f t && g t) s) (count_where f s)
       = JS.of_Z z.
Proof.
  intros Hsize. unfold count_where. apply percent_is_percentage.
  - lia.
  - pose proof (filter_and_length_le f g (todos s)). lia.
  - pose proof (filter_length_le f (todos s)). lia.
Qed.

(** X21.  [makeProgressBar] on a whole percentage from 0 to 100 returns a
    bar of ten cells between brackets, twelve characters, the first
    [round (percent / 10)] cells filled (halves up: 5 fills one cell, 95
    fills all ten).  So on every [progress_percent] that
    [ProjectService] attaches to a project or a milestone, in a store
    with fewer than 2^53 todos, it throws no RangeError. *)
Theorem makeProgressBar_draws_ten_cells :
  (forall z, 0 <= z <= 100 ->
     makeProgressBar (JS.of_Z z) = Some (bar_of ((z + 5) / 10))
     /\ String.length (bar_of ((z + 5) / 10)) = 12%nat)
  /\ (forall (s : Store),
        Z.of_nat (length (todos s)) < 2 ^ 53 ->
        (forall p : Project.t,
            exists bar,
              makeProgressBar (progress_percent (ProjectService.attachProgress p s))
              = Some bar /\ String.length bar = 12%nat)
        /\ (forall m : Milestone.t,
              exists bar,
                makeProgressBar
                  (progress_percent (ProjectService.attachMilestoneProgress m s))
                = Some bar /\ String.length bar = 12%nat)).
Proof.
  split; [exact makeProgressBar_of_percentage|].
  intros s Hsize. split.
  - intros p. cbn [ProjectService.attachProgress progress_percent].
    destruct (percent_of_counts_is_percentage
                (fun t => opt_Z_eqb (Todo.project_id t) (Project.id p))
                (fun t => TodoStatus_eqb (Todo.status t) completed) s Hsize)
      as (z & Hz & ->).
    eexists. exact (makeProgressBar_of_percentage z Hz).
  - intros m. cbn [ProjectService.attachMilestoneProgress progress_percent].
    destruct (percent_of_counts_is_percentage
                (fun t => opt_Z_eqb (Todo.milestone_id t) (Milestone.id m))
                (fun t => TodoStatus_eqb (Todo.status t) completed) s Hsize)
      as (z & Hz & ->).
    eexists. exact (makeProgressBar_of_percentage z Hz).
Qed.

Lemma makeProgressBar_draws_ten_cells_witness :
  makeProgressBar (JS.of_Z 45) = Some "[#####-----]"
  /\ exists bar,
       makeProgressBar
         (progress_percent
            (ProjectService.attachProgress
               (Project.mk 1 "P" None PS_active "2026-03-01 08:00:00"
                  "2026-03-01 08:00:00") store_scenario))
       = Some bar /\ String.length bar = 12%nat.
Proof.
  split.
  - exact (proj1 (proj1 makeProgressBar_draws_ten_cells 45 ltac:(lia))).
  - refine (proj1 (proj2 makeProgressBar_draws_ten_cells store_scenario _) _).
    vm_compute. reflexivity.
Defined.

(* ================================================================== *)
(** * When an update is refused *)




(* ================================================================== *)
(** * What a delete removes *)




Lemma same_id_same_row (rows : list Todo.t) (x y : Todo.t) :
  NoDup (map Todo.id rows) -> In x rows -> In y rows -> Todo.id x = Todo.id y -> x = y.
Proof.
  induction rows as [|a l IH]; simpl; intros Hnd Hx Hy E; [contradiction|].
  inversion Hnd; subst.
  destruct Hx as [->|Hx], Hy as [->|Hy]; try reflexivity.
  - exfalso. match goal with Hn : ~ In _ _ |- _ => apply Hn end.
    rewrite E. now apply in_map.
  - exfalso. match goal with Hn : ~ In _ _ |- _ => apply Hn end.
    rewrite <- E. now apply in_map.
  - now apply IH.
Qed.







(* ================================================================== *)
(** * Families: a subtask sits under a task of its own project *)

Lemma opt_Z_same_eq (a b : option Z) : opt_Z_same a b = true <-> a = b.
Proof.
  destruct a as [x|], b as [y|]; simpl; try (split; congruence).
  rewrite Z.eqb_eq. split; congruence.
Qed.

Lemma under_task_spec (s : Store) (t : Todo.t) :
  under_task s t = true <->
  forall k, Todo.parent_id t = Some k ->
            exists p, select_todo k s = Some p
                      /\ Todo.parent_id p = None
                      /\ Todo.project_id p = Todo.project_id t.
Proof.
  unfold under_task. destruct (Todo.parent_id t) as [k|].
  - destruct (select_todo k s) as [p|] eqn:Hsel.
    + rewrite andb_true_iff, is_null_eq, opt_Z_same_eq. split.
      * intros [A B] k' E. inversion E; subst k'. exists p.
        split; [exact Hsel | split; assumption].
      * intros H. destruct (H k eq_refl) as [p' [E [A B]]].
        rewrite Hsel in E. inversion E; subst p'. tauto.
    + split; [discriminate|]. intros H. destruct (H k eq_refl) as [p [E _]].
      rewrite Hsel in E. discriminate.
  - split; [discriminate | reflexivity].
Qed.

Lemma family_ok_iff (s : Store) :
  family_ok s = true <-> forall t, In t (todos s) -> under_task s t = true.
Proof. unfold family_ok. apply forallb_forall. Qed.

Lemma well_formed_iff (s : Store) :
  well_formed s = true <->
  store_ok s = true /\ keys_ok s = true /\ hierarchy_ok s = true /\ family_ok s = true.
Proof. unfold well_formed. rewrite !andb_true_iff. tauto. Qed.

Lemma find_map_key {A} (key : A -> Z) (g : A -> A) (k : Z) (l : list A) :
  (forall x, key (g x) = key x) ->
  find (fun x => key x =? k) (map g l) = option_map g (find (fun x => key x =? k) l).
Proof.
  intros H. induction l as [|a l IH]; simpl; [reflexivity|].
  rewrite H. destruct (key a =? k); [reflexivity | assumption].
Qed.

Lemma under_task_mapped (g : Todo.t -> Todo.t) (s s' : Store) (t : Todo.t) :
  (forall x, Todo.id (g x) = Todo.id x) ->
  (forall x, Todo.parent_id (g x) = Todo.parent_id x) ->
  (forall x y, Todo.project_id x = Todo.project_id y ->
               Todo.project_id (g x) = Todo.project_id (g y)) ->
  todos s' = map g (todos s) ->
  under_task s t = true -> under_task s' (g t) = true.
Proof.
  intros Hid Hpar Hproj Hs' H. rewrite under_task_spec in *.
  intros k Hk. rewrite Hpar in Hk. destruct (H k Hk) as [p [Hsel [A B]]].
  exists (g p). split; [|split].
  - unfold select_todo in *. rewrite Hs', (find_map_key Todo.id g k) by exact Hid.
    now rewrite Hsel.
  - now rewrite Hpar.
  - now apply Hproj.
Qed.

Lemma family_ok_mapped (g : Todo.t -> Todo.t) (s s' : Store) :
  (forall x, Todo.id (g x) = Todo.id x) ->
  (forall x, Todo.parent_id (g x) = Todo.parent_id x) ->
  (forall x y, Todo.project_id x = Todo.project_id y ->
               Todo.project_id (g x) = Todo.project_id (g y)) ->
  todos s' = map g (todos s) ->
  family_ok s = true -> family_ok s' = true.
Proof.
  intros Hid Hpar Hproj Hs' H. rewrite family_ok_iff in *.
  intros t' Ht'. rewrite Hs' in Ht'. apply in_map_iff in Ht'.
  destruct Ht' as [t [<- Ht]].
  apply (under_task_mapped g s s'); auto.
Qed.

Lemma family_ok_same_todos (s s' : Store) :
  todos s' = todos s -> family_ok s = true -> family_ok s' = true.
Proof.
  intros E H. apply (family_ok_mapped (fun x => x) s s'); auto.
  now rewrite map_id.
Qed.

Lemma hierarchy_ok_mapped (g : Todo.t -> Todo.t) (s s' : Store) :
  (forall x, Todo.parent_id (g x) = Todo.parent_id x) ->
  (forall x, Todo.level (g x) = Todo.level x) ->
  todos s' = map g (todos s) ->
  hierarchy_ok s = true -> hierarchy_ok s' = true.
Proof.
  intros Hpar Hlvl Hs' H. rewrite hierarchy_ok_iff in *.
  intros t' Ht'. rewrite Hs' in Ht'. apply in_map_iff in Ht'.
  destruct Ht' as [t [<- Ht]]. specialize (H t Ht).
  unfold level_matches_parent in *. now rewrite Hpar, Hlvl.
Qed.

Lemma detach_nothing (r : Todo.t) : detach [] [] r = r.
Proof.
  destruct r as [i ti d st pr du pj pa mi lv c u]. unfold detach. simpl.
  destruct pj, mi; reflexivity.
Qed.

Lemma project_call_todos (c : ProjectCall) (s : Store) :
  exists gp gm, todos (project_call c s) = map (detach gp gm) (todos s).
Proof.
  assert (Same : forall l : list Todo.t, l = map (detach [] []) l).
  { intros l. induction l as [|a l IH]; simpl; [reflexivity|].
    now rewrite detach_nothing, <- IH. }
  destruct c; simpl; enter_service; cbn [todos set_projects set_milestones];
    first [ eexists; eexists; reflexivity
          | exists [], []; apply Same ].
Qed.

Lemma detach_same_project (gp gm : list Z) (x y : Todo.t) :
  Todo.project_id x = Todo.project_id y ->
  Todo.project_id (detach gp gm x) = Todo.project_id (detach gp gm y).
Proof.
  intros E. cbn [detach Todo.project_id]. now rewrite E.
Qed.

Lemma project_call_keeps_families (c : ProjectCall) (s : Store) :
  (hierarchy_ok s = true -> hierarchy_ok (project_call c s) = true)
  /\ (family_ok s = true -> family_ok (project_call c s) = true).
Proof.
  destruct (project_call_todos c s) as (gp & gm & E). split.
  - apply (hierarchy_ok_mapped (detach gp gm)); auto.
  - apply (family_ok_mapped (detach gp gm)); auto.
    apply detach_same_project.
Qed.

Lemma under_task_kept_on_insert (s : Store) (row t : Todo.t) (seq : Z) :
  under_task s t = true ->
  under_task (set_todos s (todos s ++ [row]) seq) t = true.
Proof.
  rewrite !under_task_spec. intros H k Hk.
  destruct (H k Hk) as [p [Hsel AB]]. exists p. split; [|exact AB].
  now apply select_todo_kept_on_insert.
Qed.

Lemma created_row_under_task (data : TodoCreateInput) (now : Timestamp)
    (s s' : Store) (t : Todo.t) :
  store_ok s = true -> hierarchy_ok s = true ->
  TodoService.create data now s = (s', Return t) ->
  under_task s t = true.
Proof.
  intros Hok Hh E.
  pose proof (create_result data now s s' (Return t) E) as (Hs' & Hid & Hv & Hpar & Hlvl).
  apply under_task_spec. intros k Hk. rewrite Hpar in Hk.
  assert (Hk0 : k <> 0).
  { intros ->.
    destruct (no_violation_inv _ _ _ Hv) as (_ & _ & Hfpar & _).
    rewrite Hpar, Hk in Hfpar. cbn [fk_ok] in Hfpar. apply mem_Z_In in Hfpar.
    apply store_ok_iff in Hok. destruct Hok as (Hseq & Hrows & _).
    destruct (next_rowid_above (seq_todos s) (todo_ids s)) as [Habove _].
    destruct Hfpar as [H0|H0]; [lia|].
    unfold todo_ids in H0. apply in_map_iff in H0. destruct H0 as [x [Hx Hxin]].
    destruct (Hrows x Hxin) as (A & _). lia. }
  destruct (select_todo k s) as [parent|] eqn:Hsel.
  - destruct (Todo.level parent) eqn:Hl.
    + rewrite (create_under_task s data now k parent Hk Hk0 Hsel) in E
        by (rewrite Hl; discriminate).
      cbv zeta in E.
      destruct (todo_row_violation s _ _); [discriminate|].
      inversion E; subst t. exists parent. split; [reflexivity|].
      split; [|reflexivity].
      destruct (select_todo_In _ _ _ Hsel) as [Hin _].
      rewrite hierarchy_ok_iff in Hh. specialize (Hh parent Hin).
      unfold level_matches_parent in Hh. rewrite Hl in Hh.
      now destruct (Todo.parent_id parent).
    + exfalso. unfold TodoService.create in E. rewrite Hk in E.
      rewrite (truthy_num_Some k Hk0) in E.
      unfold bind, TodoService.getById, read in E. cbn [or_else] in E.
      rewrite Hsel, Hl in E. simpl in E. discriminate.
  - exfalso. unfold TodoService.create in E. rewrite Hk in E.
    rewrite (truthy_num_Some k Hk0) in E.
    unfold bind, TodoService.getById, read in E. cbn [or_else] in E.
    rewrite Hsel in E. discriminate.
Qed.

Lemma create_keeps_families (data : TodoCreateInput) (now : Timestamp) (s : Store) :
  store_ok s = true -> hierarchy_ok s = true -> family_ok s = true ->
  family_ok (fst (TodoService.create data now s)) = true.
Proof.
  intros Hok Hh Hf. destruct (TodoService.create data now s) as [s' out] eqn:E.
  pose proof (create_result data now s s' out E) as R. cbn [fst].
  destruct out as [t|e]; [|now subst].
  pose proof (created_row_under_task data now s s' t Hok Hh E) as Ht.
  destruct R as (-> & _). rewrite family_ok_iff in *.
  intros r Hr. cbn [todos set_todos] in Hr. apply in_app_iff in Hr.
  apply under_task_kept_on_insert.
  destruct Hr as [Hr|[<-|[]]]; [now apply Hf | exact Ht].
Qed.

Lemma createMany_keeps_families (items : list TodoCreateInput) :
  forall (clock : nat -> Timestamp) (s : Store),
    store_ok s = true -> hierarchy_ok s = true -> family_ok s = true ->
    family_ok (fst (TodoService.createMany items clock s)) = true.
Proof.
  induction items as [|item rest IH]; intros clock s Hok Hh Hf; [assumption|].
  rewrite createMany_cons.
  pose proof (create_keeps_store_ok item (clock O) s Hok) as H1.
  pose proof (create_keeps_hierarchy item (clock O) s Hok Hh) as H2.
  pose proof (create_keeps_families item (clock O) s Hok Hh Hf) as H3.
  destruct (TodoService.create item (clock O) s) as [s1 [t|e]]; simpl in H1, H2, H3;
    [|assumption].
  specialize (IH (fun k => clock (S k)) s1 H1 H2 H3).
  destruct (TodoService.createMany rest _ s1) as [s2 [ts|e]]; assumption.
Qed.

Lemma update_keeps_families (i : Z) (data : TodoUpdateInput) (now : Timestamp)
    (s : Store) :
  tui_parent_id data = None -> tui_project_id data = None ->
  family_ok s = true ->
  family_ok (fst (TodoService.update i data now s)) = true.
Proof.
  intros Hnp Hnj Hf. destruct (select_todo i s) as [t|] eqn:Hsel.
  - rewrite (update_existing s i data now t Hsel).
    destruct (first_violation s data now _); [assumption|]. cbn [fst].
    assert (Hpar : forall x, Todo.parent_id (update_todo_row i data now x)
                             = Todo.parent_id x).
    { intros x. unfold update_todo_row. destruct (Todo.id x =? i); [|reflexivity].
      cbn [patch_todo Todo.parent_id]. now rewrite Hnp. }
    assert (Hproj : forall x, Todo.project_id (update_todo_row i data now x)
                              = Todo.project_id x).
    { intros x. unfold update_todo_row. destruct (Todo.id x =? i); [|reflexivity].
      cbn [patch_todo Todo.project_id]. now rewrite Hnj. }
    apply (family_ok_mapped (update_todo_row i data now) s); auto.
    + intros x. unfold update_todo_row. now destruct (Todo.id x =? i).
    + intros x y E. now rewrite !Hproj.
  - unfold TodoService.update, bind, TodoService.getById, read.
    rewrite Hsel. assumption.
Qed.

Lemma delete_keeps_families (i : Z) (s : Store) :
  keys_ok s = true -> family_ok s = true ->
  family_ok (fst (TodoService.delete i s)) = true.
Proof.
  intros Hk Hf. pose proof (delete_keeps_keys i s Hk) as Hk'.
  destruct (select_todo i s) as [t|] eqn:Hsel.
  - rewrite (delete_existing s i t Hsel) in *. cbn [fst] in *.
    set (rest := filter (fun r => negb (Todo.id r =? i)) (todos s)) in *.
    destruct (cascade_closed (length rest) [i] rest (le_n _)) as [Hincl Hcl].
    set (s' := set_todos s (cascade (length rest) [i] rest) (seq_todos s)) in *.
    apply keys_ok_iff in Hk, Hk'.
    destruct Hk as (_ & _ & HT), Hk' as (_ & _ & HT').
    apply keys_in_iff in HT, HT'. destruct HT as [Hnd _], HT' as [Hnd' _].
    assert (Hsub : forall r, In r (todos s') -> In r (todos s)).
    { intros r Hr. apply Hincl in Hr. unfold rest in Hr. apply filter_In in Hr. tauto. }
    rewrite family_ok_iff in *. intros r Hr.
    pose proof (Hf r (Hsub r Hr)) as Hu. rewrite under_task_spec in *.
    intros k Hpk. destruct (Hu k Hpk) as [p [Hp AB]]. exists p. split; [|exact AB].
    destruct (select_todo_In _ _ _ Hp) as [Hpin Hpid].
    destruct (Hcl r k Hr Hpk) as [Hnot Hstay].
    assert (Hk_rest : In k (map Todo.id rest)).
    { rewrite <- Hpid. apply in_map. unfold rest. apply filter_In.
      split; [assumption|]. apply negb_true_iff, Z.eqb_neq.
      intros E. apply Hnot. left. congruence. }
    specialize (Hstay Hk_rest). apply in_map_iff in Hstay.
    destruct Hstay as [q [Hq Hqin]].
    assert (q = p).
    { apply (same_id_same_row (todos s)); try assumption; [|congruence].
      now apply Hsub. }
    subst q. rewrite <- Hpid.
    unfold select_todo. apply (find_unique Todo.id); assumption.
  - unfold TodoService.delete, bind, TodoService.getById, read.
    rewrite Hsel. assumption.
Qed.

Lemma service_call_keeps_well_formed (c : ServiceCall) (s : Store) :
  moves_todo c = false ->
  well_formed s = true -> well_formed (service_call c s) = true.
Proof.
  intros Hc Hw. apply well_formed_iff in Hw. destruct Hw as (Hok & Hk & Hh & Hf).
  apply well_formed_iff.
  split; [|split].
  - destruct c as [c|c]; simpl;
      [now apply call_keeps_store_ok | now apply project_call_keeps_store_ok].
  - now apply service_call_keeps_keys.
  - destruct c as [c|c]; cbn [service_call].
    + assert (Hnp : assigns_parent c = false).
      { destruct c; try reflexivity. simpl in Hc |- *.
        apply orb_false_iff in Hc. tauto. }
      split; [now apply call_keeps_hierarchy|].
      destruct c; cbn [call].
      * now apply create_keeps_families.
      * now apply createMany_keeps_families.
      * simpl in Hc. apply orb_false_iff in Hc. destruct Hc as [A B].
        apply update_keeps_families; [| |assumption].
        -- now destruct (tui_parent_id data).
        -- now destruct (tui_project_id data).
      * now apply update_keeps_families.
      * now apply delete_keeps_families.
    + destruct (project_call_keeps_families c s) as [A B]. auto.
Qed.

(** X24.  Families stay together.  A store is well formed when it
    satisfies the schema, ids are unique, [level] is [subtask] exactly on
    the rows with a parent, and every row with a parent hangs under a
    stored row without parent and carries the project of that row.  Every
    call of either service, other than an [update] of a todo that assigns
    [parent_id] or [project_id], takes a well-formed store to a
    well-formed store; so every sequence of such calls from the empty
    database ends in one: the hierarchy is never deeper than task and
    subtask, and deleting a project detaches a task together with its
    subtasks. *)
Theorem families_stay_together :
  (forall (s : Store) (c : ServiceCall),
      moves_todo c = false ->
      well_formed s = true -> well_formed (service_call c s) = true)
  /\ (forall calls : list ServiceCall,
        forallb (fun c => negb (moves_todo c)) calls = true ->
        well_formed (run_calls calls createTestDb) = true).
Proof.
  split; [intros s c; apply service_call_keeps_well_formed|].
  assert (G : forall calls s,
             well_formed s = true ->
             forallb (fun c => negb (moves_todo c)) calls = true ->
             well_formed (run_calls calls s) = true).
  { induction calls as [|c calls IH]; intros s Hw Hall; [assumption|].
    simpl in Hall. apply andb_true_iff in Hall. destruct Hall as [Hc Hall].
    apply negb_true_iff in Hc. simpl. apply IH; [|assumption].
    now apply service_call_keeps_well_formed. }
  intros calls. apply G. reflexivity.
Qed.

Lemma families_stay_together_witness :
  well_formed (service_call (OnProjects (DeleteProject 1)) store_scenario) = true
  /\ well_formed
       (run_calls [ OnProjects (CreateProject {| pci_name := "P"; pci_description := None |}
                                  "2026-03-01 08:00:00");
                    OnTodos (Create
                               {| tci_title := "T"; tci_description := None;
                                  tci_priority := None; tci_due_date := None;
                                  tci_project_id := Some 1; tci_parent_id := None;
                                  tci_milestone_id := None |} "2026-03-01 08:01:00");
                    OnTodos (Create (child_input "S" 1) "2026-03-01 08:02:00");
                    OnTodos (Delete 1) ] createTestDb) = true.
Proof.
  split.
  - apply (proj1 families_stay_together store_scenario (OnProjects (DeleteProject 1)));
      vm_compute; reflexivity.
  - apply (proj2 families_stay_together). vm_compute. reflexivity.
Defined.

(** X25.  In a well-formed store [getProjectTree] shows the project and
    nothing else: every todo of the project is a node of the tree or a
    subtask of one of its nodes, and every node and every subtask in the
    tree is a todo of the project. *)
Theorem getProjectTree_shows_the_whole_project :
  forall (s : Store) (projectId : Z),
    well_formed s = true ->
    exists tree,
      TodoService.getProjectTree projectId s = (s, Return tree)
      /\ (forall t, In t (todos s) -> Todo.project_id t = Some projectId ->
            exists node, In node tree
                         /\ (twc_task node = t \/ In t (subtasks node)))
      /\ (forall node, In node tree ->
            In (twc_task node) (todos s)
            /\ Todo.project_id (twc_task node) = Some projectId
            /\ forall r, In r (subtasks node) ->
                 In r (todos s) /\ Todo.project_id r = Some projectId
                 /\ Todo.level r = subtask).
Proof.
  intros s projectId Hw. apply well_formed_iff in Hw.
  destruct Hw as (Hok & Hk & Hh & Hf).
  apply keys_ok_iff in Hk. destruct Hk as (_ & _ & HT).
  apply keys_in_iff in HT. destruct HT as [Hnd _].
  rewrite family_ok_iff in Hf. rewrite hierarchy_ok_iff in Hh.
  unfold TodoService.getProjectTree, read.
  set (top := fun r => opt_Z_eqb (Todo.project_id r) projectId
                       && is_null (Todo.parent_id r)).
  set (node_of := fun task =>
                    {| twc_task := task;
                       subtasks :=
                         order_by by_priority_due
                           (filter (fun r => opt_Z_eqb (Todo.parent_id r) (Todo.id task))
                                   (todos s)) |}).
  assert (Hnode : forall q, In q (todos s) -> top q = true ->
                            In (node_of q) (map node_of (order_by by_priority_due
                                                           (filter top (todos s))))).
  { intros q Hq Htop. apply in_map. apply In_order_by. apply filter_In. tauto. }
  eexists. split; [reflexivity|]. fold top. fold node_of. split.
  - intros t Ht Hp. destruct (Todo.parent_id t) as [k|] eqn:Hpar.
    + pose proof (Hf t Ht) as Hu. rewrite under_task_spec in Hu.
      destruct (Hu k Hpar) as [q [Hsel [Hq1 Hq2]]].
      destruct (select_todo_In _ _ _ Hsel) as [Hqin Hqid].
      exists (node_of q). split.
      * apply Hnode; [assumption|]. unfold top.
        rewrite Hq2, Hp, Hq1. simpl. now rewrite Z.eqb_refl.
      * right. cbn [subtasks node_of]. apply In_order_by. apply filter_In.
        split; [assumption|]. rewrite Hpar, Hqid. simpl. apply Z.eqb_refl.
    + exists (node_of t). split; [|now left].
      apply Hnode; [assumption|]. unfold top. rewrite Hp, Hpar. simpl.
      now rewrite Z.eqb_refl.
  - intros node Hin. apply in_map_iff in Hin. destruct Hin as [q [<- Hq]].
    apply In_order_by, filter_In in Hq. destruct Hq as [Hq Htop].
    unfold top in Htop. apply andb_true_iff in Htop. destruct Htop as [Hpj Hpa].
    apply opt_Z_eqb_eq in Hpj. cbn [twc_task subtasks node_of].
    split; [assumption|]. split; [assumption|].
    intros r Hr. apply In_order_by, filter_In in Hr. destruct Hr as [Hr Hrp].
    apply opt_Z_eqb_eq in Hrp. split; [assumption|].
    pose proof (Hf r Hr) as Hu. rewrite under_task_spec in Hu.
    destruct (Hu _ Hrp) as [q' [Hsel [_ Hq2]]].
    assert (q' = q).
    { unfold select_todo in Hsel.
      rewrite (find_unique Todo.id (todos s) q Hnd Hq) in Hsel. congruence. }
    subst q'. split; [congruence|].
    specialize (Hh r Hr). unfold level_matches_parent in Hh. rewrite Hrp in Hh.
    now destruct (Todo.level r).
Qed.

Lemma getProjectTree_shows_the_whole_project_witness :
  exists tree,
    TodoService.getProjectTree 1 store_scenario = (store_scenario, Return tree)
    /\ forall t, In t (todos store_scenario) -> Todo.project_id t = Some 1 ->
         exists node, In node tree /\ (twc_task node = t \/ In t (subtasks node)).
Proof.
  destruct (getProjectTree_shows_the_whole_project store_scenario 1 eq_refl)
    as (tree & E & Hall & _).
  exists tree. split; [exact E | exact Hall].
Defined.

(* ================================================================== *)
(** * After a project is deleted *)

(** X26.  The todos of a deleted project are not lost: after
    [ProjectService.delete] every top-level todo the project had is in
    the list [getStandalone] returns, unchanged but for the links the
    delete set to NULL, and [getProjectTree] of the deleted project is
    empty. *)
Theorem todos_of_a_deleted_project_become_standalone :
  forall (s : Store) (i : Z) (p : Project.t),
    select_project i s = Some p ->
    exists s' res,
      ProjectService.delete i s = (s', Return i)
      /\ TodoService.getStandalone None s' = (s', Return res)
      /\ (forall t, In t (todos s) ->
                    Todo.project_id t = Some i -> Todo.parent_id t = None ->
                    exists t', In t' (tlr_todos res)
                               /\ only_detached t t' /\ Todo.project_id t' = None)
      /\ TodoService.getProjectTree i s' = (s', Return []).
Proof.
  intros s i p Hsel. rewrite (project_delete_existing s i p Hsel).
  set (gone := map Milestone.id
                 (filter (fun m => Milestone.project_id m =? i) (milestones s))).
  eexists. eexists. split; [reflexivity|].
  unfold TodoService.getStandalone, TodoService.getProjectTree, read.
  cbn [todos JS.truthy_str]. split; [reflexivity|]. cbn [tlr_todos].
  assert (Hrow : forall t, Todo.project_id t = Some i ->
                           Todo.project_id (detach [i] gone t) = None).
  { intros t E. cbn [detach Todo.project_id]. rewrite E. simpl.
    now rewrite Z.eqb_refl. }
  split.
  - intros t Ht Hp Hpar. exists (detach [i] gone t).
    split; [|split; [apply only_detached_detach | now apply Hrow]].
    apply In_order_by. apply filter_In. split; [now apply in_map|].
    rewrite (Hrow t Hp). cbn [detach Todo.parent_id]. now rewrite Hpar.
  - replace (filter _ (map (detach [i] gone) (todos s))) with (@nil Todo.t);
      [reflexivity|].
    symmetry. induction (todos s) as [|a l IH]; [reflexivity|]. simpl.
    rewrite <- IH.
    replace (opt_Z_eqb _ i) with false; [reflexivity|].
    symmetry. destruct (Todo.project_id a) as [k|]; [|reflexivity]. simpl.
    rewrite orb_false_r. destruct (k =? i) eqn:E; simpl; [reflexivity | exact E].
Qed.

Lemma todos_of_a_deleted_project_become_standalone_witness :
  exists s' res,
    ProjectService.delete 1 store_scenario = (s', Return 1)
    /\ TodoService.getStandalone None s' = (s', Return res)
    /\ map Todo.id (tlr_todos res) = [1].
Proof.
  destruct (todos_of_a_deleted_project_become_standalone store_scenario 1
              (Project.mk 1 "P" None PS_active "2026-03-01 08:00:00"
                 "2026-03-01 08:00:00") eq_refl)
    as (s' & res & E1 & E2 & _).
  exists s', res. split; [exact E1|]. split; [exact E2|].
  vm_compute in E1. inversion E1; subst s'.
  vm_compute in E2. inversion E2; subst res. reflexivity.
Defined.
